(** * Dual-ledger synchronisation core of the crowdfunding issuer platform

    A shallow embedding of the Django/Celery code that mirrors relational
    records (company, campaign, investment, escrow, NFT certificate) to a
    Polygon Edge chain:

    - [blockchain/web3_client.py]   the ledger client ([send_transaction],
                                    [parse_event_log]);
    - [blockchain/abis]             the functions of the five contract ABIs;
    - [blockchain/services.py], [investments/services.py],
      [campaigns_module/services.py], [escrow/services.py]
                                    the service layer and its event parsers;
    - [blockchain/tasks.py], [investments/tasks.py],
      [campaigns_module/tasks.py], [escrow/tasks.py]   the Celery mirror tasks;
    - [issuers/models.py], [campaigns_module/models.py],
      [investments/models.py], [escrow/models.py]      the rows and their
                                    predicates;
    - the [signals.py] of issuers, campaigns_module, investments and escrow
                                    the post-save receivers that are
                                    connected, which run inside every save;
    - [escrow/views.py]             the manual release trigger.

    Conventions.  Decimal amounts (two decimal places) are integers counted
    in hundredths; timestamps are integers counted in seconds; nullable
    columns are [option]; CharField values are [string]; a table is a finite
    map from the primary key (a UUID string) to its row.  The node, the
    task queue and the clock are explicit parts of the state a task runs
    in. *)

From Stdlib Require Import ZArith Bool Lia.
From stdpp Require Import base option list gmap strings fin_maps.

Local Open Scope Z_scope.
Local Open Scope string_scope.

(** ** Python values *)

(** Truthiness of a nullable string: [None] and the empty string are falsy. *)
Definition truthy (s : option string) : bool :=
  match s with
  | None => false
  | Some v => negb (String.eqb v "")
  end.

(** [x or ''] on a nullable string. *)
Definition or_empty (s : option string) : string :=
  if truthy s then default "" s else "".

(** [x in [a, b, ...]] on strings. *)
Definition str_in (x : string) (l : list string) : bool :=
  existsb (String.eqb x) l.

(** ** Models *)

Module User.
Record t := mk {
    username : string;
    wallet_address : option string;
    vc_hash : option string;
  }.
End User.

Module Company.
Record t := mk {
    user : string;                         (* FK issuers.User *)
    name : string;
    ipfs_document_hash : option string;
    blockchain_address : option string;
    registered_on_blockchain : bool;
    blockchain_tx_hash : option string;
    blockchain_registered_at : option Z;
  }.

Definition set_blockchain_address (v : option string) (r : t) : t :=
  mk (user r) (name r) (ipfs_document_hash r) v
     (registered_on_blockchain r) (blockchain_tx_hash r)
     (blockchain_registered_at r).
Definition set_registered_on_blockchain (v : bool) (r : t) : t :=
  mk (user r) (name r) (ipfs_document_hash r)
     (blockchain_address r) v (blockchain_tx_hash r)
     (blockchain_registered_at r).
Definition set_blockchain_tx_hash (v : option string) (r : t) : t :=
  mk (user r) (name r) (ipfs_document_hash r)
     (blockchain_address r) (registered_on_blockchain r) v
     (blockchain_registered_at r).
Definition set_blockchain_registered_at (v : option Z) (r : t) : t :=
  mk (user r) (name r) (ipfs_document_hash r)
     (blockchain_address r) (registered_on_blockchain r)
     (blockchain_tx_hash r) v.
End Company.

Module Campaign.
Record t := mk {
    company : string;                      (* FK issuers.Company *)
    title : string;
    description : string;
    funding_goal : Z;
    current_funding : Z;
    duration : Z;                          (* days *)
    success_threshold : Z;
    status : string;
    start_date : option Z;
    end_date : option Z;
    smart_contract_address : option string;
    deployment_tx_hash : option string;
    deployed_on_blockchain : bool;
    blockchain_deployed_at : option Z;
    ipfs_document_hash : option string;
    approved : bool;
    funds_released : bool;
    funds_released_at : option Z;
    funds_release_tx_hash : option string;
    investor_count : Z;
  }.

Definition set_current_funding (v : Z) (r : t) : t :=
  mk (company r) (title r) (description r) (funding_goal r) v (duration r)
     (success_threshold r) (status r) (start_date r) (end_date r)
     (smart_contract_address r) (deployment_tx_hash r)
     (deployed_on_blockchain r) (blockchain_deployed_at r)
     (ipfs_document_hash r) (approved r) (funds_released r)
     (funds_released_at r) (funds_release_tx_hash r) (investor_count r).
Definition set_status (v : string) (r : t) : t :=
  mk (company r) (title r) (description r) (funding_goal r)
     (current_funding r) (duration r) (success_threshold r) v
     (start_date r) (end_date r) (smart_contract_address r)
     (deployment_tx_hash r) (deployed_on_blockchain r)
     (blockchain_deployed_at r) (ipfs_document_hash r) (approved r)
     (funds_released r) (funds_released_at r) (funds_release_tx_hash r)
     (investor_count r).
Definition set_start_date (v : option Z) (r : t) : t :=
  mk (company r) (title r) (description r) (funding_goal r)
     (current_funding r) (duration r) (success_threshold r) (status r) v
     (end_date r) (smart_contract_address r) (deployment_tx_hash r)
     (deployed_on_blockchain r) (blockchain_deployed_at r)
     (ipfs_document_hash r) (approved r) (funds_released r)
     (funds_released_at r) (funds_release_tx_hash r) (investor_count r).
Definition set_end_date (v : option Z) (r : t) : t :=
  mk (company r) (title r) (description r) (funding_goal r)
     (current_funding r) (duration r) (success_threshold r) (status r)
     (start_date r) v (smart_contract_address r) (deployment_tx_hash r)
     (deployed_on_blockchain r) (blockchain_deployed_at r)
     (ipfs_document_hash r) (approved r) (funds_released r)
     (funds_released_at r) (funds_release_tx_hash r) (investor_count r).
Definition set_smart_contract_address (v : option string) (r : t) : t :=
  mk (company r) (title r) (description r) (funding_goal r)
     (current_funding r) (duration r) (success_threshold r) (status r)
     (start_date r) (end_date r) v (deployment_tx_hash r)
     (deployed_on_blockchain r) (blockchain_deployed_at r)
     (ipfs_document_hash r) (approved r) (funds_released r)
     (funds_released_at r) (funds_release_tx_hash r) (investor_count r).
Definition set_deployment_tx_hash (v : option string) (r : t) : t :=
  mk (company r) (title r) (description r) (funding_goal r)
     (current_funding r) (duration r) (success_threshold r) (status r)
     (start_date r) (end_date r) (smart_contract_address r) v
     (deployed_on_blockchain r) (blockchain_deployed_at r)
     (ipfs_document_hash r) (approved r) (funds_released r)
     (funds_released_at r) (funds_release_tx_hash r) (investor_count r).
Definition set_deployed_on_blockchain (v : bool) (r : t) : t :=
  mk (company r) (title r) (description r) (funding_goal r)
     (current_funding r) (duration r) (success_threshold r) (status r)
     (start_date r) (end_date r) (smart_contract_address r)
     (deployment_tx_hash r) v (blockchain_deployed_at r)
     (ipfs_document_hash r) (approved r) (funds_released r)
     (funds_released_at r) (funds_release_tx_hash r) (investor_count r).
Definition set_blockchain_deployed_at (v : option Z) (r : t) : t :=
  mk (company r) (title r) (description r) (funding_goal r)
     (current_funding r) (duration r) (success_threshold r) (status r)
     (start_date r) (end_date r) (smart_contract_address r)
     (deployment_tx_hash r) (deployed_on_blockchain r) v
     (ipfs_document_hash r) (approved r) (funds_released r)
     (funds_released_at r) (funds_release_tx_hash r) (investor_count r).
Definition set_funds_released (v : bool) (r : t) : t :=
  mk (company r) (title r) (description r) (funding_goal r)
     (current_funding r) (duration r) (success_threshold r) (status r)
     (start_date r) (end_date r) (smart_contract_address r)
     (deployment_tx_hash r) (deployed_on_blockchain r)
     (blockchain_deployed_at r) (ipfs_document_hash r) (approved r) v
     (funds_released_at r) (funds_release_tx_hash r) (investor_count r).
Definition set_funds_released_at (v : option Z) (r : t) : t :=
  mk (company r) (title r) (description r) (funding_goal r)
     (current_funding r) (duration r) (success_threshold r) (status r)
     (start_date r) (end_date r) (smart_contract_address r)
     (deployment_tx_hash r) (deployed_on_blockchain r)
     (blockchain_deployed_at r) (ipfs_document_hash r) (approved r)
     (funds_released r) v (funds_release_tx_hash r) (investor_count r).
Definition set_funds_release_tx_hash (v : option string) (r : t) : t :=
  mk (company r) (title r) (description r) (funding_goal r)
     (current_funding r) (duration r) (success_threshold r) (status r)
     (start_date r) (end_date r) (smart_contract_address r)
     (deployment_tx_hash r) (deployed_on_blockchain r)
     (blockchain_deployed_at r) (ipfs_document_hash r) (approved r)
     (funds_released r) (funds_released_at r) v (investor_count r).
Definition set_investor_count (v : Z) (r : t) : t :=
  mk (company r) (title r) (description r) (funding_goal r)
     (current_funding r) (duration r) (success_threshold r) (status r)
     (start_date r) (end_date r) (smart_contract_address r)
     (deployment_tx_hash r) (deployed_on_blockchain r)
     (blockchain_deployed_at r) (ipfs_document_hash r) (approved r)
     (funds_released r) (funds_released_at r) (funds_release_tx_hash r) v.
End Campaign.

Module Investment.
Record t := mk {
    campaign : string;                     (* FK campaigns_module.Campaign *)
    user : string;                         (* FK issuers.User *)
    amount : Z;
    payment_method : string;
    status : string;
    blockchain_tx_hash : option string;
    blockchain_recorded_at : option Z;
    nft_token_id : option string;
    nft_minted : bool;
    refunded_at : option Z;
  }.

Definition set_status (v : string) (r : t) : t :=
  mk (campaign r) (user r) (amount r) (payment_method r) v
     (blockchain_tx_hash r) (blockchain_recorded_at r) (nft_token_id r)
     (nft_minted r) (refunded_at r).
Definition set_blockchain_tx_hash (v : option string) (r : t) : t :=
  mk (campaign r) (user r) (amount r) (payment_method r) (status r) v
     (blockchain_recorded_at r) (nft_token_id r) (nft_minted r)
     (refunded_at r).
Definition set_blockchain_recorded_at (v : option Z) (r : t) : t :=
  mk (campaign r) (user r) (amount r) (payment_method r) (status r)
     (blockchain_tx_hash r) v (nft_token_id r) (nft_minted r)
     (refunded_at r).
Definition set_refunded_at (v : option Z) (r : t) : t :=
  mk (campaign r) (user r) (amount r) (payment_method r) (status r)
     (blockchain_tx_hash r) (blockchain_recorded_at r) (nft_token_id r)
     (nft_minted r) v.
End Investment.

Module FundEscrow.
Record t := mk {
    campaign : string;                     (* OneToOne campaigns_module.Campaign *)
    total_escrowed : Z;
    status : string;
    funds_released : bool;
    funds_released_at : option Z;
    release_tx_hash : option string;
    released_to_address : option string;
    refund_initiated : bool;
    refund_completed : bool;
    refund_tx_hash : option string;
    refunded_at : option Z;
  }.

Definition set_status (v : string) (r : t) : t :=
  mk (campaign r) (total_escrowed r) v (funds_released r)
     (funds_released_at r) (release_tx_hash r) (released_to_address r)
     (refund_initiated r) (refund_completed r) (refund_tx_hash r)
     (refunded_at r).
Definition set_funds_released (v : bool) (r : t) : t :=
  mk (campaign r) (total_escrowed r) (status r) v (funds_released_at r)
     (release_tx_hash r) (released_to_address r) (refund_initiated r)
     (refund_completed r) (refund_tx_hash r) (refunded_at r).
Definition set_funds_released_at (v : option Z) (r : t) : t :=
  mk (campaign r) (total_escrowed r) (status r) (funds_released r) v
     (release_tx_hash r) (released_to_address r) (refund_initiated r)
     (refund_completed r) (refund_tx_hash r) (refunded_at r).
Definition set_release_tx_hash (v : option string) (r : t) : t :=
  mk (campaign r) (total_escrowed r) (status r) (funds_released r)
     (funds_released_at r) v (released_to_address r) (refund_initiated r)
     (refund_completed r) (refund_tx_hash r) (refunded_at r).
Definition set_released_to_address (v : option string) (r : t) : t :=
  mk (campaign r) (total_escrowed r) (status r) (funds_released r)
     (funds_released_at r) (release_tx_hash r) v (refund_initiated r)
     (refund_completed r) (refund_tx_hash r) (refunded_at r).
Definition set_refund_initiated (v : bool) (r : t) : t :=
  mk (campaign r) (total_escrowed r) (status r) (funds_released r)
     (funds_released_at r) (release_tx_hash r) (released_to_address r) v
     (refund_completed r) (refund_tx_hash r) (refunded_at r).
Definition set_refund_completed (v : bool) (r : t) : t :=
  mk (campaign r) (total_escrowed r) (status r) (funds_released r)
     (funds_released_at r) (release_tx_hash r) (released_to_address r)
     (refund_initiated r) v (refund_tx_hash r) (refunded_at r).
Definition set_refund_tx_hash (v : option string) (r : t) : t :=
  mk (campaign r) (total_escrowed r) (status r) (funds_released r)
     (funds_released_at r) (release_tx_hash r) (released_to_address r)
     (refund_initiated r) (refund_completed r) v (refunded_at r).
Definition set_refunded_at (v : option Z) (r : t) : t :=
  mk (campaign r) (total_escrowed r) (status r) (funds_released r)
     (funds_released_at r) (release_tx_hash r) (released_to_address r)
     (refund_initiated r) (refund_completed r) (refund_tx_hash r) v.
End FundEscrow.

Module RefundTransaction.
Record t := mk {
    escrow : string;                       (* FK escrow.FundEscrow *)
    investor : string;                     (* FK issuers.User *)
    amount : Z;
    tx_hash : string;
    refunded_at : Z;                       (* auto_now_add *)
  }.
End RefundTransaction.

Module NFTShareCertificate.
Record t := mk {
    investment : string;                   (* OneToOne investments.Investment *)
    token_id : string;
    mint_tx_hash : string;
    minted_at : Z;
  }.
End NFTShareCertificate.

(** The relational store: one finite map per table, keyed by primary key.
    The refund transactions, which the code only ever creates, are kept as
    the list of the rows created, oldest first. *)
Record Store := mkStore {
  users : gmap string User.t;
  companies : gmap string Company.t;
  campaigns : gmap string Campaign.t;
  investments : gmap string Investment.t;
  escrows : gmap string FundEscrow.t;
  nft_certificates : gmap string NFTShareCertificate.t;
  refund_transactions : list RefundTransaction.t;
}.

Definition set_companies (m : gmap string Company.t) (s : Store) : Store :=
  mkStore (users s) m (campaigns s) (investments s) (escrows s)
    (nft_certificates s) (refund_transactions s).
Definition set_campaigns (m : gmap string Campaign.t) (s : Store) : Store :=
  mkStore (users s) (companies s) m (investments s) (escrows s)
    (nft_certificates s) (refund_transactions s).
Definition set_investments (m : gmap string Investment.t) (s : Store) : Store :=
  mkStore (users s) (companies s) (campaigns s) m (escrows s)
    (nft_certificates s) (refund_transactions s).
Definition set_escrows (m : gmap string FundEscrow.t) (s : Store) : Store :=
  mkStore (users s) (companies s) (campaigns s) (investments s) m
    (nft_certificates s) (refund_transactions s).
Definition set_refund_transactions (l : list RefundTransaction.t) (s : Store)
    : Store :=
  mkStore (users s) (companies s) (campaigns s) (investments s) (escrows s)
    (nft_certificates s) l.

(** One message on the task queue: the Celery name of the task, its argument,
    the delay in seconds before it may run and the retry count it carries. *)
Record Queued := mkQueued {
  q_task : string;
  q_arg : string;
  q_countdown : Z;
  q_retries : Z;
}.

(** [<task>.delay(arg)] as a message. *)
Definition delay (task : string) (arg : string) : Queued :=
  mkQueued task arg 0 0.

Section Models.

  (** [Campaign.is_successful] compares two binary floating point numbers,
      [float(current_funding) / float(funding_goal) * 100 >=
      float(success_threshold)].  Its value is taken as given; nothing below
      depends on how it is computed. *)
Variable is_successful : Campaign.t -> bool.

  (** [Campaign.can_deploy_to_blockchain]; [company] is [self.company]. *)
Definition can_deploy_to_blockchain (self : Campaign.t) (company : Company.t) : bool :=
    String.eqb (Campaign.status self) "approved"
    && negb (Campaign.deployed_on_blockchain self)
    && Company.registered_on_blockchain company.

  (** [FundEscrow.can_release_funds]; [campaign] is the object reached as
      [self.campaign]. *)
Definition can_release_funds (self : FundEscrow.t) (campaign : Campaign.t) : bool :=
    String.eqb (FundEscrow.status self) "escrowed"
    && negb (FundEscrow.funds_released self)
    && is_successful campaign
    && String.eqb (Campaign.status campaign) "active".

  (** [FundEscrow.can_refund]. *)
Definition can_refund (self : FundEscrow.t) (campaign : Campaign.t) : bool :=
    String.eqb (FundEscrow.status self) "escrowed"
    && negb (FundEscrow.funds_released self)
    && str_in (Campaign.status campaign) ["failed"; "cancelled"].

  (** The reverse one-to-one accessor [instance.escrow]: the escrow row whose
      [campaign] column is the instance's key, if there is one. *)
Definition reverse_escrow (db : Store) (campaign_id : string)
    : option (string * FundEscrow.t) :=
    snd <$> list_find
      (fun kv => bool_decide (FundEscrow.campaign (snd kv) = campaign_id))
      (map_to_list (escrows db)).

  (** [escrow/signals.py: handle_campaign_completion], the post-save hook of
      Campaign.  The result is the list of tasks it enqueues.  Django's
      reverse one-to-one descriptor stores [instance] as the cached
      [escrow.campaign], so the two escrow properties read the very object
      that was saved. *)
Definition handle_campaign_completion (db : Store) (instance_id : string)
      (instance : Campaign.t) : list Queued :=
    match reverse_escrow db instance_id with
    | None => []
    | Some (escrow_id, escrow) =>
        if String.eqb (Campaign.status instance) "successful"
           && can_release_funds escrow instance
        then [delay "escrow.tasks.release_funds_to_issuer" escrow_id]
        else if str_in (Campaign.status instance) ["failed"; "cancelled"]
                && can_refund escrow instance
        then [delay "escrow.tasks.process_campaign_refunds" escrow_id]
        else []
    end.

  (** [campaigns_module/signals.py: sync_campaign_to_blockchain]. *)
Definition sync_campaign_to_blockchain (db : Store) (instance_id : string)
      (instance : Campaign.t) : list Queued :=
    match companies db !! Campaign.company instance with
    | Some company =>
        if can_deploy_to_blockchain instance company
        then [delay "campaigns_module.tasks.deploy_campaign_to_blockchain" instance_id]
        else []
    | None => []
    end.

End Models.

(** [backoffice/views.py: CampaignReviewViewSet.activate], the campaign
    part: an approved campaign that is not yet active becomes active with
    [start_date = now] and [end_date = now + timedelta(days=duration)];
    otherwise the view answers 400 and writes nothing ([None]). *)
Definition activate (t : Z) (campaign : Campaign.t) : option Campaign.t :=
  if negb (Campaign.approved campaign) then None
  else if String.eqb (Campaign.status campaign) "active" then None
  else Some (Campaign.set_end_date
               (Some (t + Campaign.duration campaign * 86400))
               (Campaign.set_start_date (Some t)
                  (Campaign.set_status "active" campaign))).

(** ** Exceptions and results *)

(** The exception classes the code raises or handles.  All of them derive
    from [Exception], so a bare [except Exception] catches every one. *)
Inductive Exc :=
| DoesNotExist (model : string)          (* <Model>.DoesNotExist *)
| ValueError (msg : string)
| TypeError (msg : string)
| KeyError (key : string)
| AttributeError (name : string)
| TimeoutError                           (* builtin TimeoutError *)
| TimeExhausted                          (* web3.exceptions.TimeExhausted *)
| ABIFunctionNotFound (fn : string)      (* web3.exceptions.ABIFunctionNotFound *)
| Web3ValidationError (fn : string)      (* web3.exceptions.Web3ValidationError *)
| BlockchainTimeout (msg : string)       (* web3_client.BlockchainTimeout *)
| TransactionFailed (msg : string)       (* web3_client.TransactionFailed *)
| ConnectionError (msg : string)
| DatabaseError
| OperationalError                       (* kombu.exceptions.OperationalError *)
| OtherError (msg : string)
| Retry (exc : Exc) (countdown : Z)      (* celery.exceptions.Retry *)
| Reject (reason : Exc).                 (* celery.exceptions.Reject *)

Inductive res (A : Type) :=
| Ok (a : A)
| Raise (e : Exc).
Arguments Ok {A} a.
Arguments Raise {A} e.

(** ** The node as seen through web3.py *)

Inductive Arg :=
| AStr (s : string)
| AInt (n : Z)
| ANone.

(** A bound contract function, [contract.functions.<fn>(args)]. *)
Record ContractCall := mkCall {
  call_contract : string;                (* ABI name *)
  call_address : string;
  call_fn : string;
  call_args : list Arg;
}.

(** The dictionary passed to [build_transaction], with the call it binds. *)
Record Tx := mkTx {
  tx_call : ContractCall;
  tx_from : string;
  tx_value : Z;
  tx_gas : Z;
  tx_gasPrice : Z;
  tx_nonce : Z;
  tx_chainId : Z;
}.

Record Log := mkLog {
  log_address : string;
  log_topics : list string;
  log_data : string;
}.

(** A transaction receipt as returned by the node; [contractAddress] and
    [logs] are read with [.get] and may be absent. *)
Record Receipt := mkReceipt {
  r_transactionHash : string;
  r_blockNumber : Z;
  r_gasUsed : Z;
  r_status : Z;
  r_contractAddress : option string;
  r_logs : option (list Log);
}.

(** A decoded event; [ev_args] is the [args] dictionary. *)
Record EventData := mkEvent {
  ev_name : string;
  ev_args : list (string * string);
}.

(** What the node and the web3.py library answer.  Every answer may depend
    on the transactions broadcast so far.  These are the external
    collaborators of the ledger client; the code below is written against
    them and the properties hold whatever they answer.
    [wait_for_transaction_receipt] raises [TimeExhausted] when its timeout
    expires; [is_address] is what web3.py accepts as an argument of type
    [address]; [eth_call] is [contract_function.call()]. *)
Record Web3 := mkWeb3 {
  gas_price : list Tx -> res Z;
  get_transaction_count : list Tx -> string -> res Z;
  send_raw_transaction : list Tx -> Tx -> res string;
  wait_for_transaction_receipt : list Tx -> string -> Z -> res Receipt;
  get_transaction_receipt : list Tx -> string -> res Receipt;
  process_log : string -> string -> Log -> res EventData;
  process_receipt : string -> string -> Receipt -> res (list EventData);
  to_checksum_address : option string -> res string;
  is_address : string -> bool;
  eth_call : list Tx -> ContractCall -> res Z;
}.

(** [settings.BLOCKCHAIN_SETTINGS] and [settings.SMART_CONTRACTS]. *)
Record Settings := mkSettings {
  CHAIN_ID : Z;
  DEPLOYER_PRIVATE_KEY : option string;  (* the account address of the key *)
  DEPLOYER_ADDRESS : option string;
  GAS_LIMIT : Z;
  GAS_PRICE : option Z;
  ISSUER_REGISTRY : option string;
  CAMPAIGN_FACTORY : option string;
  FUND_ESCROW : option string;
  NFT_CERTIFICATE : option string;
}.

(** The result dictionary of [send_transaction]; the services add
    [campaignAddress], [tokenId] or [refundAmount] to it. *)
Record TxResult := mkTxResult {
  txHash : string;
  blockNumber : Z;
  gasUsed : Z;
  status : Z;
  contractAddress : option string;
  logs : list Log;
  campaignAddress : option string;
  tokenId : option string;
  refundAmount : option Z;
}.

(** ** The state a task runs in *)

Record World := mkWorld {
  db : Store;
  sent : list Tx;                        (* transactions broadcast so far *)
  queue : list Queued;                   (* messages on the task queue *)
  now : Z;                               (* timezone.now() *)
  faults : option nat;                   (* writes that succeed before one fails *)
  broker : option nat;                   (* messages accepted before one is refused *)
}.

Definition set_db (s : Store) (w : World) : World :=
  mkWorld s (sent w) (queue w) (now w) (faults w) (broker w).
Definition set_sent (l : list Tx) (w : World) : World :=
  mkWorld (db w) l (queue w) (now w) (faults w) (broker w).
Definition set_queue (q : list Queued) (w : World) : World :=
  mkWorld (db w) (sent w) q (now w) (faults w) (broker w).
Definition set_faults (f : option nat) (w : World) : World :=
  mkWorld (db w) (sent w) (queue w) (now w) f (broker w).
Definition set_broker (b : option nat) (w : World) : World :=
  mkWorld (db w) (sent w) (queue w) (now w) (faults w) b.

(** [w'] differs from [w] at most in the transactions broadcast. *)
Definition only_sent (w w' : World) : Prop :=
  db w' = db w /\ queue w' = queue w /\ now w' = now w /\ faults w' = faults w
  /\ broker w' = broker w.

(** Stateful, fallible computations. *)
Definition M (A : Type) : Type := World -> res A * World.

Definition ret {A} (a : A) : M A := fun w => (Ok a, w).
Definition raise {A} (e : Exc) : M A := fun w => (Raise e, w).
Definition bind {A B} (m : M A) (k : A -> M B) : M B :=
  fun w => match m w with
           | (Ok a, w') => k a w'
           | (Raise e, w') => (Raise e, w')
           end.

Notation "x <- m ;; k" := (bind m (fun x => k))
  (at level 20, m at level 99, k at level 200, only parsing).

(** [try: m  except Exception as e: h e]. *)
Definition try_except {A} (m : M A) (h : Exc -> M A) : M A :=
  fun w => match m w with
           | (Ok a, w') => (Ok a, w')
           | (Raise e, w') => h e w'
           end.

(** [with transaction.atomic(): m]: when the block raises, the writes made
    inside it are rolled back and the exception propagates; leaving the
    block normally (also by [return]) commits. *)
Definition atomic {A} (m : M A) : M A :=
  fun w => match m w with
           | (Ok a, w') => (Ok a, w')
           | (Raise e, w') => (Raise e, set_db (db w) w')
           end.

Definition lift {A} (r : res A) : M A := fun w => (r, w).
Definition get_world : M World := fun w => (Ok w, w).
Definition timezone_now : M Z := fun w => (Ok (now w), w).

(** [d[key]] on an optional entry of a result dictionary. *)
Definition getitem {A} (key : string) (o : option A) : M A :=
  match o with
  | Some a => ret a
  | None => raise (KeyError key)
  end.

(** A write to the database: it fails with [DatabaseError] when the fault
    counter has run out, and otherwise applies [f] to the store. *)
Definition db_write (f : Store -> Store) : M unit :=
  fun w => match faults w with
           | Some O => (Raise DatabaseError, set_faults None w)
           | Some (S n) => (Ok tt, set_db (f (db w)) (set_faults (Some n) w))
           | None => (Ok tt, set_db (f (db w)) w)
           end.

(** [<task>.delay(arg)]: the message is put on the queue, unless the broker
    refuses it, which raises kombu's [OperationalError]. *)
Definition enqueue (q : Queued) : M unit :=
  fun w => match broker w with
           | Some O => (Raise OperationalError, set_broker None w)
           | Some (S n) =>
               (Ok tt, set_queue (queue w ++ [q]) (set_broker (Some n) w))
           | None => (Ok tt, set_queue (queue w ++ [q]) w)
           end.

(** The messages of a list, sent one after the other. *)
Fixpoint send_all (messages : list Queued) : M unit :=
  match messages with
  | [] => ret tt
  | q :: rest => _ <- enqueue q ;; send_all rest
  end.

(** [instance.save(...)]: the write, then the [post_save] receivers of the
    model, inside the call. *)
Definition save (write : Store -> Store) (post_save : M unit) : M unit :=
  _ <- db_write write ;; post_save.

(** ** blockchain/web3_client.py: the ledger client *)

Definition arg_of (o : option string) : Arg :=
  match o with
  | Some s => AStr s
  | None => ANone
  end.

(** [d.get(key)] on a dictionary with string keys. *)
Fixpoint dict_get (key : string) (d : list (string * string)) : option string :=
  match d with
  | [] => None
  | (k, v) :: rest => if String.eqb k key then Some v else dict_get key rest
  end.

(** [Web3.to_wei(Decimal(x), 'ether')] for an amount counted in hundredths;
    eth_utils refuses a result below zero or above 2**256 - 1. *)
Definition to_wei (hundredths : Z) : res Z :=
  let wei := hundredths * 10 ^ 16 in
  if Z.ltb wei 0 || Z.ltb (2 ^ 256 - 1) wei
  then Raise (ValueError "Resulting wei value must be between 1 and 2**256 - 1")
  else Ok wei.

(** [blockchain/abis/__init__.py: get_abi], which knows five contracts. *)
Definition get_abi (contract_name : string) : res string :=
  if str_in contract_name
       ["issuer_registry"; "campaign_factory"; "campaign_implementation";
        "nft_certificate"; "fund_escrow"]
  then Ok contract_name
  else Raise (KeyError ("ABI not found for contract: " ++ contract_name)).

(** The types of the inputs of the functions in blockchain/abis. *)
Inductive AbiType :=
| Address
| Str
| Uint256.

(** The functions of each ABI in blockchain/abis, with the types of their
    inputs.  No name occurs twice in an ABI. *)
Definition abi_functions (abi : string) : list (string * list AbiType) :=
  if String.eqb abi "issuer_registry" then
    [("registerIssuer", [Address; Str; Str]);
     ("isRegisteredIssuer", [Address]);
     ("canIssuerStartCampaign", [Address]);
     ("issuers", [Address]);
     ("updateInformationMemorandum", [Str])]
  else if String.eqb abi "campaign_factory" then
    [("createCampaign", [Str; Str; Str; Uint256; Uint256; Str]);
     ("getCampaignsByCreator", [Address]);
     ("getAllCampaigns", []);
     ("campaignIdToAddress", [Str])]
  else if String.eqb abi "campaign_implementation" then
    [("investCrypto", []);
     ("recordInvestment", [Address; Uint256; Str; Str]);
     ("releaseFunds", []);
     ("refund", []);
     ("totalRaised", []);
     ("fundingGoal", []);
     ("deadline", []);
     ("completed", []);
     ("investors", [Uint256])]
  else if String.eqb abi "nft_certificate" then
    [("issueCertificate", [Address; Str; Str; Uint256; Uint256; Str]);
     ("ownerCertificates", [Address]);
     ("certificates", [Uint256]);
     ("tokenURI", [Uint256])]
  else if String.eqb abi "fund_escrow" then
    [("depositFunds", [Str; Address; Address; Uint256]);
     ("releaseFunds", [Str]);
     ("processRefund", [Str; Address]);
     ("escrowAccounts", [Str])]
  else [].

Fixpoint abi_inputs (fn : string) (fns : list (string * list AbiType))
    : option (list AbiType) :=
  match fns with
  | [] => None
  | (name, inputs) :: rest =>
      if String.eqb name fn then Some inputs else abi_inputs fn rest
  end.

(** A contract bound to an address, [w3.eth.contract(address=.., abi=..)]. *)
Record Contract := mkContract {
  c_abi : string;
  c_address : string;
}.

(** [PolygonEdgeClient]: the attributes set by [__init__]. *)
Record PolygonEdgeClient := mkClient {
  account : option string;               (* address of the deployer key *)
  deployer_address : option string;
  chain_id : Z;
  contracts : list (string * option string);
}.

Section Ledger.

Variable w3 : Web3.
Variable settings : Settings.

  (** Whether web3.py can encode the argument as a value of the type. *)
Definition encodable (ty : AbiType) (a : Arg) : bool :=
    match ty, a with
    | Str, AStr _ => true
    | Uint256, AInt n => Z.leb 0 n && Z.ltb n (2 ^ 256)
    | Address, AStr s => is_address w3 s
    | _, _ => false
    end.

Fixpoint all_encodable (inputs : list AbiType) (args : list Arg) : bool :=
    match inputs, args with
    | [], [] => true
    | ty :: inputs, a :: args => encodable ty a && all_encodable inputs args
    | _, _ => false
    end.

  (** [contract.functions.<fn>(args)]: web3.py raises [ABIFunctionNotFound]
      for a name that is not in the ABI of the contract, and its validation
      error when the arguments do not fit the inputs of the function. *)
Definition functions (c : Contract) (fn : string) (args : list Arg)
    : res ContractCall :=
    match abi_inputs fn (abi_functions (c_abi c)) with
    | None => Raise (ABIFunctionNotFound fn)
    | Some inputs =>
        if all_encodable inputs args
        then Ok (mkCall (c_abi c) (c_address c) fn args)
        else Raise (Web3ValidationError fn)
    end.

  (** [Account.from_key(private_key).address], from eth_account. *)
Variable from_key : string -> string.

  (** [PolygonEdgeClient.__init__]. *)
Definition client : PolygonEdgeClient :=
    let private_key := DEPLOYER_PRIVATE_KEY settings in
    mkClient
      (if truthy private_key then from_key <$> private_key else None)
      (if truthy private_key then from_key <$> private_key
       else DEPLOYER_ADDRESS settings)
      (CHAIN_ID settings)
      [("issuer_registry", ISSUER_REGISTRY settings);
       ("campaign_factory", CAMPAIGN_FACTORY settings);
       ("fund_escrow", FUND_ESCROW settings);
       ("nft_certificate", NFT_CERTIFICATE settings)].

  (** [self.contracts.get(contract_name)]. *)
Fixpoint contracts_get (name : string) (d : list (string * option string))
    : option string :=
    match d with
    | [] => None
    | (k, v) :: rest => if String.eqb k name then v else contracts_get name rest
    end.

  (** [PolygonEdgeClient.get_contract_instance]. *)
Definition get_contract_instance (contract_name : string)
      (address : option string) : res Contract :=
    let contract_address :=
      if truthy address then address
      else contracts_get contract_name (contracts client) in
    if negb (truthy contract_address)
    then Raise (ValueError ("Contract address not found for " ++ contract_name))
    else
      match get_abi contract_name with
      | Raise _ =>
          Raise (ValueError ("ABI not found for contract: " ++ contract_name))
      | Ok abi => Ok (mkContract abi (default "" contract_address))
      end.

  (** The first half of [PolygonEdgeClient.send_transaction]: the gas price,
    then the dictionary given to [build_transaction], whose [nonce] entry is
    the node's transaction count of the sender at that moment. *)
Definition build_transaction (contract_function : ContractCall)
    (from_address : option string) (value : Z) (gas_limit : option Z) : M Tx :=
  let from_address :=
    if truthy from_address then from_address
    else deployer_address client in
  w <- get_world ;;
  network_gas_price <- lift (gas_price w3 (sent w)) ;;
  let gas_price :=
    match GAS_PRICE settings with
    | Some configured =>
        if Z.eqb configured 0 then network_gas_price
        else Z.max network_gas_price configured
    | None => network_gas_price
    end in
  let gas :=
    match gas_limit with
    | Some g => if Z.eqb g 0 then GAS_LIMIT settings else g
    | None => GAS_LIMIT settings
    end in
  nonce <- lift (get_transaction_count w3 (sent w) (default "" from_address)) ;;
  ret (mkTx contract_function (default "" from_address) value gas
         gas_price nonce (chain_id client)).

(** [self.account.sign_transaction(tx)]: eth_account refuses a
    transaction whose [from] is not the address of the key. *)
Definition sign_transaction (tx : Tx) : res Tx :=
  if String.eqb (tx_from tx) (default "" (account client)) then Ok tx
  else Raise (TypeError "from field must match key's address").

(** The second half: sign, broadcast, wait up to 120 seconds for the
    receipt, and classify it. *)
Definition broadcast (tx : Tx) : M TxResult :=
  tx <- lift (sign_transaction tx) ;;
  w <- get_world ;;
  tx_hash <- lift (send_raw_transaction w3 (sent w) tx) ;;
  _ <- (fun w => (Ok tt, set_sent (sent w ++ [tx]) w)) ;;
  w' <- get_world ;;
  receipt <-
    match wait_for_transaction_receipt w3 (sent w') tx_hash 120 with
    | Raise TimeoutError =>
        raise (BlockchainTimeout ("Transaction timeout: " ++ tx_hash))
    | r => lift r
    end ;;
  if Z.eqb (r_status receipt) 0
  then raise (TransactionFailed ("Transaction failed: " ++ tx_hash))
  else ret (mkTxResult tx_hash (r_blockNumber receipt)
              (r_gasUsed receipt) (r_status receipt)
              (r_contractAddress receipt)
              (default [] (r_logs receipt)) None None None).

(** [PolygonEdgeClient.send_transaction]. *)
Definition send_transaction (contract_function : ContractCall)
    (from_address : option string) (value : Z) (gas_limit : option Z)
  : M TxResult :=
  match account client with
  | None => raise (ValueError "Private key not configured")
  | Some _ =>
      tx <- build_transaction contract_function from_address value gas_limit ;;
      broadcast tx
  end.

(** *** Concurrent callers of [send_transaction]

    Worker processes share the node and the deployer account but nothing
    else; the code takes no lock.  A caller is between its two halves once
    it has built its transaction.  A schedule names, step by step, which
    caller moves next. *)
Inductive Caller :=
| NotStarted (contract_function : ContractCall)
| Built (tx : Tx)
| Returned (tx : Tx) (r : res TxResult)
| Refused (e : Exc).

Definition caller_step (c : Caller) : World -> Caller * World :=
  fun w =>
    match c with
    | NotStarted contract_function =>
        match account client with
        | None => (Refused (ValueError "Private key not configured"), w)
        | Some _ =>
            match build_transaction contract_function None 0 None w with
            | (Ok tx, w') => (Built tx, w')
            | (Raise e, w') => (Refused e, w')
            end
        end
    | Built tx =>
        match broadcast tx w with
        | (r, w') => (Returned tx r, w')
        end
    | _ => (c, w)
    end.

Fixpoint run_schedule (schedule : list nat) (callers : list Caller)
    (w : World) : list Caller * World :=
  match schedule with
  | [] => (callers, w)
  | i :: rest =>
      match callers !! i with
      | None => run_schedule rest callers w
      | Some c =>
          match caller_step c w with
          | (c', w') => run_schedule rest (<[i := c']> callers) w'
          end
      end
  end.

(** The nonce a caller put into its transaction, once it has built one. *)
Definition nonce_of (c : Caller) : option Z :=
  match c with
  | Built tx | Returned tx _ => Some (tx_nonce tx)
  | _ => None
  end.

(** Every caller has come back from [send_transaction]. *)
Definition all_returned (callers : list Caller) : bool :=
  forallb (fun c => match c with
                    | Returned _ _ | Refused _ => true
                    | _ => false
                    end) callers.

(** The sequential schedule: caller 0 runs both halves, then caller 1, ... *)
Fixpoint sequential (n : nat) : list nat :=
  match n with
  | O => []
  | S k => sequential k ++ [k; k]
  end.

(** [PolygonEdgeClient.parse_event_log]: any exception becomes [None]. *)
Definition parse_event_log (contract_name event_name : string) (log : Log)
    : option EventData :=
    match get_contract_instance contract_name None with
    | Raise _ => None
    | Ok contract =>
        match process_log w3 (c_abi contract) event_name log with
        | Raise _ => None
        | Ok event => Some event
        end
    end.

  (** ** blockchain/services.py *)

  (** [IssuerBlockchainService.register_issuer]. *)
Definition register_issuer (issuer_address vc_hash ipfs_hash : string)
    : M TxResult :=
    contract <- lift (get_contract_instance "issuer_registry" None) ;;
    tx <- lift (functions contract "registerIssuer"
                  [AStr issuer_address; AStr vc_hash; AStr ipfs_hash]) ;;
    send_transaction tx None 0 None.

  (** The loop of [CampaignBlockchainService._parse_campaign_created_event]:
      a log that fails to decode, or decodes without the wanted argument, is
      skipped by the bare [except: continue]; the first log that yields the
      address ends the scan. *)
Fixpoint scan_campaign_created (abi : string) (logs : list Log) : res string :=
    match logs with
    | [] => Raise (ValueError "CampaignCreated event not found in receipt")
    | log :: rest =>
        match process_log w3 abi "CampaignCreated" log with
        | Ok event =>
            match dict_get "campaignAddress" (ev_args event) with
            | Some campaign_address => Ok campaign_address
            | None => scan_campaign_created abi rest
            end
        | Raise _ => scan_campaign_created abi rest
        end
    end.

  (** [CampaignBlockchainService._parse_campaign_created_event]. *)
Definition _parse_campaign_created_event (receipt : Receipt) : res string :=
    match get_contract_instance "campaign_factory" None with
    | Raise e => Raise e
    | Ok contract =>
        scan_campaign_created (c_abi contract) (default [] (r_logs receipt))
    end.

  (** [CampaignBlockchainService.create_campaign]. *)
Definition create_campaign (campaign_id company_name description : string)
      (funding_goal duration_days : Z) (document_hash : string) : M TxResult :=
    contract <- lift (get_contract_instance "campaign_factory" None) ;;
    funding_goal_wei <- lift (to_wei funding_goal) ;;
    let duration_seconds := duration_days * 24 * 60 * 60 in
    tx <- lift (functions contract "createCampaign"
                  [AStr campaign_id; AStr company_name; AStr description;
                   AInt funding_goal_wei; AInt duration_seconds;
                   AStr document_hash]) ;;
    result <- send_transaction tx None 0 None ;;
    w <- get_world ;;
    receipt <- lift (get_transaction_receipt w3 (sent w) (txHash result)) ;;
    campaign_address <- lift (_parse_campaign_created_event receipt) ;;
    ret (mkTxResult (txHash result) (blockNumber result) (gasUsed result)
           (status result) (contractAddress result) (logs result)
           (Some campaign_address) (tokenId result) (refundAmount result)).

  (** [NFTCertificateService._parse_certificate_issued_event]: the receipt
      is not looked at. *)
Definition _parse_certificate_issued_event (receipt : Receipt) : res string :=
    Ok "1".

  (** [NFTCertificateService.mint_certificate]. *)
Definition mint_certificate (investor_address : option string)
      (campaign_id company_name : string) (investment_amount_eth share_count : Z)
      (token_uri : string) : M TxResult :=
    contract <- lift (get_contract_instance "nft_certificate" None) ;;
    investment_wei <- lift (to_wei investment_amount_eth) ;;
    tx <- lift (functions contract "issueCertificate"
                  [arg_of investor_address; AStr campaign_id; AStr company_name;
                   AInt investment_wei; AInt share_count; AStr token_uri]) ;;
    result <- send_transaction tx None 0 None ;;
    w <- get_world ;;
    receipt <- lift (get_transaction_receipt w3 (sent w) (txHash result)) ;;
    token_id <- lift (_parse_certificate_issued_event receipt) ;;
    ret (mkTxResult (txHash result) (blockNumber result) (gasUsed result)
           (status result) (contractAddress result) (logs result)
           (campaignAddress result) (Some token_id) (refundAmount result)).


  (** [CampaignBlockchainService.record_investment]: the contract is bound
      at the address of the campaign with the ABI of the factory. *)
Definition record_investment (campaign_address investor_address : option string)
      (amount : Z) (payment_method transaction_ref : string) : M TxResult :=
    contract <- lift (get_contract_instance "campaign_factory" campaign_address) ;;
    amount_wei <- lift (to_wei amount) ;;
    if String.eqb payment_method "crypto"
    then
      tx <- lift (functions contract "investCrypto" []) ;;
      send_transaction tx None amount_wei None
    else
      tx <- lift (functions contract "recordInvestment"
                    [arg_of investor_address; AInt amount_wei;
                     AStr payment_method; AStr transaction_ref]) ;;
      send_transaction tx None 0 None.

  (** [CampaignBlockchainService.release_funds]. *)
Definition release_funds (campaign_address : option string) : M TxResult :=
    contract <- lift (get_contract_instance "campaign_factory" campaign_address) ;;
    tx <- lift (functions contract "releaseFunds" []) ;;
    send_transaction tx None 0 None.

  (** ** investments/services.py, campaigns_module/services.py, escrow/services.py *)

  (** [Campaign.is_successful], a comparison of binary floating point
      numbers; taken as given. *)
Variable is_successful : Campaign.t -> bool.

  (** [self.client._get_abi(name)] in the services of investments and
      escrow: the client is the [PolygonEdgeClient] that
      [get_blockchain_client] returns, and that class has no attribute
      [_get_abi]; reading it raises [AttributeError]. *)
Definition _get_abi (name : string) : res string :=
    Raise (AttributeError "'PolygonEdgeClient' object has no attribute '_get_abi'").

  (** [InvestmentBlockchainService.record_investment]. *)
Definition investments_record_investment
      (campaign_address investor_address : option string) (amount : Z)
    : M TxResult :=
    contract_address <- lift (to_checksum_address w3 campaign_address) ;;
    abi <- lift (_get_abi "campaign_implementation") ;;
    let contract := mkContract abi contract_address in
    amount_wei <- lift (to_wei amount) ;;
    tx <- lift (functions contract "invest"
                  [arg_of investor_address; AInt amount_wei]) ;;
    send_transaction tx None 0 None.

  (** [campaigns_module.services.CampaignBlockchainService.
      _parse_campaign_created_event]. *)
Definition campaigns_parse_campaign_created_event (receipt : Receipt)
      (factory_contract : Contract) : res string :=
    match process_receipt w3 (c_abi factory_contract) "CampaignCreated" receipt with
    | Raise e => Raise e
    | Ok [] => Raise (ValueError "CampaignCreated event not found in receipt")
    | Ok (first :: _) =>
        match dict_get "campaignAddress" (ev_args first) with
        | Some a => Ok a
        | None => Raise (KeyError "campaignAddress")
        end
    end.

  (** [campaigns_module.services.CampaignBlockchainService.deploy_campaign]. *)
Definition deploy_campaign (campaign_id company_name description : string)
      (funding_goal duration_days : Z) (document_hash : string) : M TxResult :=
    contract <- lift (get_contract_instance "campaign_factory" None) ;;
    funding_goal_wei <- lift (to_wei funding_goal) ;;
    let duration_seconds := duration_days * 24 * 60 * 60 in
    tx <- lift (functions contract "createCampaign"
                  [AStr campaign_id; AStr company_name; AStr description;
                   AInt funding_goal_wei; AInt duration_seconds;
                   AStr document_hash]) ;;
    result <- send_transaction tx None 0 None ;;
    w <- get_world ;;
    receipt <- lift (get_transaction_receipt w3 (sent w) (txHash result)) ;;
    campaign_address <-
      lift (campaigns_parse_campaign_created_event receipt contract) ;;
    ret (mkTxResult (txHash result) (blockNumber result) (gasUsed result)
           (status result) (contractAddress result) (logs result)
           (Some campaign_address) (tokenId result) (refundAmount result)).

  (** [EscrowBlockchainService.release_funds]. *)
Definition escrow_release_funds (campaign_address recipient_address : option string)
    : M TxResult :=
    contract_address <- lift (to_checksum_address w3 campaign_address) ;;
    abi <- lift (_get_abi "campaign_implementation") ;;
    let contract := mkContract abi contract_address in
    recipient <- lift (to_checksum_address w3 recipient_address) ;;
    tx <- lift (functions contract "releaseFunds" [AStr recipient]) ;;
    send_transaction tx None 0 None.

  (** [EscrowBlockchainService.initiate_refund]. *)
Definition initiate_refund (campaign_address : option string) : M TxResult :=
    contract_address <- lift (to_checksum_address w3 campaign_address) ;;
    abi <- lift (_get_abi "campaign_implementation") ;;
    let contract := mkContract abi contract_address in
    tx <- lift (functions contract "initiateRefund" []) ;;
    send_transaction tx None 0 None.

  (** [EscrowBlockchainService.process_investor_refund]; the refund amount
      it adds to the result is kept in wei. *)
Definition process_investor_refund (campaign_address investor_address : option string)
    : M TxResult :=
    contract_address <- lift (to_checksum_address w3 campaign_address) ;;
    abi <- lift (_get_abi "campaign_implementation") ;;
    let contract := mkContract abi contract_address in
    investor <- lift (to_checksum_address w3 investor_address) ;;
    contributions <- lift (functions contract "contributions" [AStr investor]) ;;
    w <- get_world ;;
    contribution_wei <- lift (eth_call w3 (sent w) contributions) ;;
    tx <- lift (functions contract "refund" [AStr investor]) ;;
    result <- send_transaction tx None 0 None ;;
    ret (mkTxResult (txHash result) (blockNumber result) (gasUsed result)
           (status result) (contractAddress result) (logs result)
           (campaignAddress result) (tokenId result) (Some contribution_wei)).

  (** ** Celery *)

  (** [self.request] of a bound task: which task runs, on which argument,
      and how many times it has been retried. *)
Record Request := mkRequest {
    task : string;
    arg : string;
    retries : Z;
  }.

  (** What a task hands back: [None], the result dictionary of the service,
      a dictionary with a [success] entry and further string entries, the
      dictionary of the refund task with its count, or the handle of a task
      it has sent. *)
Inductive TaskReturn :=
  | RNone
  | RResult (r : TxResult)
  | RDict (success : bool) (entries : list (string * string))
  | RRefunds (escrow_id : string) (refunds_processed : Z)
  | RAsyncResult (q : Queued).

  (** The [success] entry of the returned value, when it has one. *)
Definition success_entry (r : TaskReturn) : option bool :=
    match r with
    | RDict b _ => Some b
    | RRefunds _ _ => Some true
    | _ => None
    end.

  (** [self.retry(exc=exc, countdown=countdown)] of celery.app.task.Task (the
      library, not this repository): when the request has already been
      retried [max_retries] times the original exception is raised;
      otherwise the task is sent again with the countdown and one more
      retry on its count, and [Retry] is raised; when the broker refuses
      the message, [Reject] is raised in its place. *)
Definition retry {A} (self : Request) (max_retries : Z) (exc : Exc)
      (countdown : Z) : M A :=
    let retries := retries self + 1 in
    if Z.ltb max_retries retries then raise exc
    else
      _ <- try_except
             (enqueue (mkQueued (task self) (arg self) countdown retries))
             (fun e => raise (Reject e)) ;;
      raise (Retry exc countdown).

  (** [Model.objects.get(id=pk)]. *)
Definition objects_get {R} (model : string) (table : Store -> gmap string R)
      (pk : string) : M R :=
    fun w => match table (db w) !! pk with
             | Some row => (Ok row, w)
             | None => (Raise (DoesNotExist model), w)
             end.

(** ** The post-save receivers

    The receivers that the [ready] methods of the installed apps connect, in
    the order of [INSTALLED_APPS]: issuers, campaigns_module, investments,
    escrow.  nft/signals.py holds one more receiver of Campaign, but the nft
    app is commented out of [INSTALLED_APPS] in settings.py, so nothing
    imports it and it is never connected. *)

(** [issuers/signals.py: sync_company_to_blockchain], the receiver of
    Company. *)
Definition sync_company_to_blockchain (instance_id : string)
    (instance : Company.t) (created : bool) : M unit :=
  if created
  then
    user <- objects_get "User" users (Company.user instance) ;;
    if truthy (User.wallet_address user)
       && negb (Company.registered_on_blockchain instance)
    then enqueue (delay "blockchain.tasks.register_issuer_on_blockchain"
                    instance_id)
    else ret tt
  else ret tt.

(** What the two receivers of Campaign enqueue when a campaign row is
    saved, in the order in which they are called. *)
Definition campaign_post_save (s : Store) (instance_id : string)
    (instance : Campaign.t) : list Queued :=
  sync_campaign_to_blockchain s instance_id instance
  ++ handle_campaign_completion is_successful s instance_id instance.

(** The receivers of Campaign as they run inside [save]: an exception of
    [.delay] leaves the receiver and the [save]. *)
Definition post_save_campaign (instance_id : string) (instance : Campaign.t)
    : M unit :=
  w <- get_world ;;
  send_all (campaign_post_save (db w) instance_id instance).

(** [investments/signals.py: sync_investment_to_blockchain], the receiver of
    Investment; [campaign] reads [instance.campaign].  The receiver catches
    whatever [.delay] raises. *)
Definition sync_investment_to_blockchain (instance_id : string)
    (instance : Investment.t) (campaign : M Campaign.t) : M unit :=
  if String.eqb (Investment.status instance) "confirmed"
     && negb (truthy (Investment.blockchain_tx_hash instance))
  then
    campaign <- campaign ;;
    if negb (truthy (Campaign.smart_contract_address campaign))
    then ret tt
    else
      try_except
        (enqueue (delay "investments.tasks.record_investment_on_blockchain"
                    instance_id))
        (fun _ => ret tt)
  else ret tt.

(** ** blockchain/tasks.py *)

(** The handlers shared by the tasks of blockchain/tasks.py:
    [except <Model>.DoesNotExist: raise] followed by
    [except Exception as e: raise self.retry(exc=e, countdown=60)], on a
    task declared with [max_retries=3]. *)
Definition blockchain_task_handlers {A} (self : Request) (model : string)
    (e : Exc) : M A :=
  match e with
  | DoesNotExist m =>
      if String.eqb m model then raise e else retry self 3 e 60
  | _ => retry self 3 e 60
  end.

(** [blockchain.tasks.register_issuer_on_blockchain]. *)
Definition register_issuer_on_blockchain_body (company_id : string)
  : M TaskReturn :=
  company <- objects_get "Company" companies company_id ;;
  user <- objects_get "User" users (Company.user company) ;;
  if negb (truthy (User.wallet_address user))
  then raise (ValueError ("Company " ++ company_id ++ " has no wallet address"))
  else
    result <- register_issuer (default "" (User.wallet_address user))
                (or_empty (User.vc_hash user))
                (or_empty (Company.ipfs_document_hash company)) ;;
    _ <- atomic
           (t <- timezone_now ;;
            let update row :=
              Company.set_blockchain_address (User.wallet_address user)
                (Company.set_registered_on_blockchain true
                   (Company.set_blockchain_tx_hash (Some (txHash result))
                      (Company.set_blockchain_registered_at (Some t) row))) in
            save (fun s => set_companies
                             (alter update company_id (companies s)) s)
              (sync_company_to_blockchain company_id (update company) false)) ;;
    ret (RResult result).

(** The task: the body above inside its [try], with the handlers of its
    [except] clauses. *)
Definition register_issuer_on_blockchain (self : Request) (company_id : string)
  : M TaskReturn :=
  try_except (register_issuer_on_blockchain_body company_id)
    (blockchain_task_handlers self "Company").

(** [blockchain.tasks.deploy_campaign_to_blockchain]. *)
Definition deploy_campaign_to_blockchain_body (campaign_id : string)
  : M TaskReturn :=
  campaign <- objects_get "Campaign" campaigns campaign_id ;;
  if Campaign.deployed_on_blockchain campaign
  then ret (RDict false [("message", "Already deployed")])
  else
    company <- objects_get "Company" companies (Campaign.company campaign) ;;
    result <- create_campaign campaign_id (Company.name company)
                (String.substring 0 500 (Campaign.description campaign))
                (Campaign.funding_goal campaign) (Campaign.duration campaign)
                (or_empty (Campaign.ipfs_document_hash campaign)) ;;
    _ <- atomic
           (campaign_address <- getitem "campaignAddress" (campaignAddress result) ;;
            t <- timezone_now ;;
            let update row :=
              Campaign.set_smart_contract_address (Some campaign_address)
                (Campaign.set_deployment_tx_hash (Some (txHash result))
                   (Campaign.set_deployed_on_blockchain true
                      (Campaign.set_blockchain_deployed_at (Some t)
                         (Campaign.set_status "active" row)))) in
            save (fun s => set_campaigns
                             (alter update campaign_id (campaigns s)) s)
              (post_save_campaign campaign_id (update campaign))) ;;
    ret (RResult result).

(** The task: the body above inside its [try], with the handlers of its
    [except] clauses. *)
Definition deploy_campaign_to_blockchain (self : Request) (campaign_id : string)
  : M TaskReturn :=
  try_except (deploy_campaign_to_blockchain_body campaign_id)
    (blockchain_task_handlers self "Campaign").

(** [blockchain.tasks.record_investment_on_blockchain].  The call passes the
    keyword [transaction_reference], which
    [CampaignBlockchainService.record_investment] does not accept (its
    parameter is [transaction_ref]): once the arguments are evaluated the
    call raises [TypeError]. *)
Definition record_investment_on_blockchain_body (investment_id : string)
  : M TaskReturn :=
  investment <- objects_get "Investment" investments investment_id ;;
  if truthy (Investment.blockchain_tx_hash investment)
  then ret (RDict false [("message", "Already recorded")])
  else
    _ <- objects_get "Campaign" campaigns (Investment.campaign investment) ;;
    _ <- objects_get "User" users (Investment.user investment) ;;
    raise (TypeError "record_investment() got an unexpected keyword argument 'transaction_reference'").

(** The task: the body above inside its [try], with the handlers of its
    [except] clauses. *)
Definition record_investment_on_blockchain (self : Request) (investment_id : string)
  : M TaskReturn :=
  try_except (record_investment_on_blockchain_body investment_id)
    (blockchain_task_handlers self "Investment").

(** [hasattr(investment, 'nft_certificate')]: the certificate table is keyed
    by the investment of its one-to-one column. *)
Definition has_nft_certificate (s : Store) (investment_id : string) : bool :=
  bool_decide (is_Some (nft_certificates s !! investment_id)).

(** [blockchain.tasks.mint_nft_certificate].  The call passes the keyword
    [investment_amount], which [NFTCertificateService.mint_certificate] does
    not accept (its parameter is [investment_amount_eth]): it raises
    [TypeError]. *)
Definition mint_nft_certificate_body (investment_id : string)
  : M TaskReturn :=
  investment <- objects_get "Investment" investments investment_id ;;
  w <- get_world ;;
  if has_nft_certificate (db w) investment_id
  then ret (RDict false [("message", "Already minted")])
  else
    _ <- objects_get "User" users (Investment.user investment) ;;
    campaign <- objects_get "Campaign" campaigns (Investment.campaign investment) ;;
    _ <- objects_get "Company" companies (Campaign.company campaign) ;;
    raise (TypeError "mint_certificate() got an unexpected keyword argument 'investment_amount'").

(** The task: the body above inside its [try], with the handlers of its
    [except] clauses. *)
Definition mint_nft_certificate (self : Request) (investment_id : string)
  : M TaskReturn :=
  try_except (mint_nft_certificate_body investment_id)
    (blockchain_task_handlers self "Investment").

(** [blockchain.tasks.release_campaign_funds]. *)
Definition release_campaign_funds_body (campaign_id : string)
  : M TaskReturn :=
  campaign <- objects_get "Campaign" campaigns campaign_id ;;
  if String.eqb (Campaign.status campaign) "successful"
  then ret (RDict false [("message", "Already released")])
  else
    result <- release_funds (Campaign.smart_contract_address campaign) ;;
    _ <- atomic
           (t <- timezone_now ;;
            let update row :=
              Campaign.set_funds_release_tx_hash (Some (txHash result))
                (Campaign.set_funds_released_at (Some t)
                   (Campaign.set_status "successful" row)) in
            save (fun s => set_campaigns
                             (alter update campaign_id (campaigns s)) s)
              (post_save_campaign campaign_id (update campaign))) ;;
    ret (RResult result).

(** The task: the body above inside its [try], with the handlers of its
    [except] clauses. *)
Definition release_campaign_funds (self : Request) (campaign_id : string)
  : M TaskReturn :=
  try_except (release_campaign_funds_body campaign_id)
    (blockchain_task_handlers self "Campaign").

(** ** investments/tasks.py *)

(** The row filter of the query that counts the investor's earlier recorded
    investments: same campaign, same user, [status='confirmed'],
    [blockchain_tx_hash] not NULL, and not the investment itself. *)
Definition is_previous_confirmed (campaign_id user_id investment_id : string)
    (kv : string * Investment.t) : bool :=
  String.eqb (Investment.campaign (snd kv)) campaign_id
  && String.eqb (Investment.user (snd kv)) user_id
  && String.eqb (Investment.status (snd kv)) "confirmed"
  && bool_decide (is_Some (Investment.blockchain_tx_hash (snd kv)))
  && negb (String.eqb (fst kv) investment_id).

Definition previous_confirmed_count (s : Store)
    (campaign_id user_id investment_id : string) : Z :=
  Z.of_nat (length (List.filter
    (is_previous_confirmed campaign_id user_id investment_id)
    (map_to_list (investments s)))).

(** [investments.tasks.record_investment_on_blockchain].  The whole of the
    idempotence check, the chain call and both saves sit in one
    [transaction.atomic] block; [inl] is the early [return] from inside
    it.  [select_related] loads the campaign and the user with the
    investment.  After the block the task reads the investment and its
    campaign back with [refresh_from_db] and sends the certificate task. *)
Definition investments_record_investment_on_blockchain_body (investment_id : string)
  : M TaskReturn :=
  block <- atomic
    (investment <- objects_get "Investment" investments investment_id ;;
     campaign0 <- objects_get "Investment" campaigns
                    (Investment.campaign investment) ;;
     user <- objects_get "Investment" users (Investment.user investment) ;;
     if truthy (Investment.blockchain_tx_hash investment)
     then ret (inl (RDict true
                 [("already_recorded", "True");
                  ("tx_hash", default "" (Investment.blockchain_tx_hash investment))]))
     else if negb (truthy (Campaign.smart_contract_address campaign0))
     then raise (ValueError ("Campaign " ++ Investment.campaign investment
                             ++ " not deployed to blockchain"))
     else
       result <- investments_record_investment
                   (Campaign.smart_contract_address campaign0)
                   (User.wallet_address user) (Investment.amount investment) ;;
       t <- timezone_now ;;
       let investment :=
         Investment.set_blockchain_recorded_at (Some t)
           (Investment.set_blockchain_tx_hash (Some (txHash result)) investment) in
       _ <- save (fun s =>
                    set_investments
                      (<[investment_id := investment]> (investments s)) s)
              (sync_investment_to_blockchain investment_id investment
                 (ret campaign0)) ;;
       campaign <- objects_get "Campaign" campaigns (Investment.campaign investment) ;;
       let campaign :=
         Campaign.set_current_funding
           (Campaign.current_funding campaign + Investment.amount investment)
           campaign in
       w <- get_world ;;
       let count := previous_confirmed_count (db w)
                      (Investment.campaign investment) (Investment.user investment)
                      investment_id in
       let campaign :=
         if Z.eqb count 0
         then Campaign.set_investor_count (Campaign.investor_count campaign + 1) campaign
         else campaign in
       _ <- save (fun s =>
                    set_campaigns
                      (<[Investment.campaign investment := campaign]>
                         (campaigns s)) s)
              (post_save_campaign (Investment.campaign investment) campaign) ;;
       ret (inr (investment, result, is_successful campaign))) ;;
  match block with
  | inl early => ret early
  | inr (investment, result, campaign_is_successful) =>
      _ <- objects_get "Investment" investments investment_id ;;
      _ <- objects_get "Campaign" campaigns (Investment.campaign investment) ;;
      _ <- (if campaign_is_successful && negb (Investment.nft_minted investment)
            then enqueue (delay "blockchain.tasks.mint_nft_certificate" investment_id)
            else ret tt) ;;
      ret (RDict true [("investment_id", investment_id);
                       ("tx_hash", txHash result)])
  end.

(** The task: the body above inside its [try], with the handlers of its
    [except] clauses. *)
Definition investments_record_investment_on_blockchain (self : Request) (investment_id : string)
  : M TaskReturn :=
  try_except (investments_record_investment_on_blockchain_body investment_id)
    (fun e => retry self 3 e 60).

(** ** campaigns_module/tasks.py *)

(** [campaigns_module.tasks.deploy_campaign_to_blockchain]. *)
Definition campaigns_deploy_campaign_to_blockchain_body (campaign_id : string)
  : M TaskReturn :=
  campaign <- objects_get "Campaign" campaigns campaign_id ;;
  if Campaign.deployed_on_blockchain campaign
  then ret RNone
  else
    company <- objects_get "Company" companies (Campaign.company campaign) ;;
    result <- deploy_campaign campaign_id (Company.name company)
                (Campaign.description campaign)
                (Campaign.funding_goal campaign) (Campaign.duration campaign)
                (or_empty (Campaign.ipfs_document_hash campaign)) ;;
    campaign_address <- getitem "campaignAddress" (campaignAddress result) ;;
    t <- timezone_now ;;
    let campaign :=
      Campaign.set_start_date (Some t)
        (Campaign.set_status "active"
           (Campaign.set_blockchain_deployed_at (Some t)
              (Campaign.set_deployed_on_blockchain true
                 (Campaign.set_deployment_tx_hash (Some (txHash result))
                    (Campaign.set_smart_contract_address
                       (Some campaign_address) campaign))))) in
    _ <- save (fun s =>
                 set_campaigns (<[campaign_id := campaign]> (campaigns s)) s)
           (post_save_campaign campaign_id campaign) ;;
    ret (RDict true [("campaign_id", campaign_id);
                     ("contract_address", campaign_address);
                     ("tx_hash", txHash result)]).

(** The task: the body above inside its [try], with the handlers of its
    [except] clauses. *)
Definition campaigns_deploy_campaign_to_blockchain (self : Request) (campaign_id : string)
  : M TaskReturn :=
  try_except (campaigns_deploy_campaign_to_blockchain_body campaign_id)
    (fun e => retry self 3 e 60).

(** ** escrow/tasks.py *)

(** [company.wallet_address]: [issuers.models.Company] has no field,
    property or method of that name ([wallet_address] is a field of
    [User]); reading it raises [AttributeError]. *)
Definition Company_wallet_address (company : Company.t) : M (option string) :=
  raise (AttributeError "'Company' object has no attribute 'wallet_address'").

(** [escrow.tasks.release_funds_to_issuer].  The escrow is loaded with
    [select_related('campaign__company')]; the two saves are not inside a
    transaction; FundEscrow has no post-save receiver. *)
Definition release_funds_to_issuer_body (escrow_id : string)
  : M TaskReturn :=
  escrow <- objects_get "FundEscrow" escrows escrow_id ;;
  campaign <- objects_get "FundEscrow" campaigns (FundEscrow.campaign escrow) ;;
  company <- objects_get "FundEscrow" companies (Campaign.company campaign) ;;
  if FundEscrow.funds_released escrow
  then ret RNone
  else if negb (truthy (Campaign.smart_contract_address campaign))
  then raise (ValueError "Campaign not deployed to blockchain")
  else
    recipient_address <- Company_wallet_address company ;;
    result <- escrow_release_funds (Campaign.smart_contract_address campaign)
                recipient_address ;;
    t <- timezone_now ;;
    released_to_address <- Company_wallet_address company ;;
    let escrow :=
      FundEscrow.set_status "released"
        (FundEscrow.set_released_to_address released_to_address
           (FundEscrow.set_release_tx_hash (Some (txHash result))
              (FundEscrow.set_funds_released_at (Some t)
                 (FundEscrow.set_funds_released true escrow)))) in
    _ <- save (fun s => set_escrows (<[escrow_id := escrow]> (escrows s)) s)
           (ret tt) ;;
    t <- timezone_now ;;
    let campaign :=
      Campaign.set_funds_release_tx_hash (Some (txHash result))
        (Campaign.set_funds_released_at (Some t)
           (Campaign.set_funds_released true campaign)) in
    _ <- save (fun s =>
                 set_campaigns
                   (<[FundEscrow.campaign escrow := campaign]> (campaigns s)) s)
           (post_save_campaign (FundEscrow.campaign escrow) campaign) ;;
    ret (RDict true [("escrow_id", escrow_id);
                     ("tx_hash", txHash result);
                     ("recipient", default "" released_to_address)]).

(** The task: the body above inside its [try], with the handlers of its
    [except] clauses. *)
Definition release_funds_to_issuer (self : Request) (escrow_id : string)
  : M TaskReturn :=
  try_except (release_funds_to_issuer_body escrow_id)
    (fun e => retry self 3 e 60).

(** The rows of [Investment.objects.filter(campaign=.., status='confirmed')]. *)
Definition confirmed_investments (s : Store) (campaign_id : string)
    : list (string * Investment.t) :=
  List.filter
    (fun kv => String.eqb (Investment.campaign (snd kv)) campaign_id
               && String.eqb (Investment.status (snd kv)) "confirmed")
    (map_to_list (investments s)).

(** One turn of the loop of [process_campaign_refunds]: the refund of one
    investment inside its own [try]; whatever it raises is logged and the
    loop goes on ([except Exception: continue]).  The result says whether
    the refund was counted. *)
Definition refund_investment (escrow_id : string) (campaign : Campaign.t)
    (kv : string * Investment.t) : M bool :=
  let '(investment_id, investment) := kv in
  try_except
    (user <- objects_get "User" users (Investment.user investment) ;;
     refund_result <- process_investor_refund
                        (Campaign.smart_contract_address campaign)
                        (User.wallet_address user) ;;
     t <- timezone_now ;;
     _ <- save (fun s =>
                  set_refund_transactions
                    (refund_transactions s
                     ++ [RefundTransaction.mk escrow_id (Investment.user investment)
                           (Investment.amount investment) (txHash refund_result) t])
                    s)
            (ret tt) ;;
     t <- timezone_now ;;
     let investment :=
       Investment.set_refunded_at (Some t)
         (Investment.set_status "refunded" investment) in
     _ <- save (fun s =>
                  set_investments
                    (<[investment_id := investment]> (investments s)) s)
            (sync_investment_to_blockchain investment_id investment
               (objects_get "Campaign" campaigns (Investment.campaign investment))) ;;
     ret true)
    (fun _ => ret false).

Fixpoint refund_investments (escrow_id : string) (campaign : Campaign.t)
    (investments : list (string * Investment.t)) (refund_count : Z) : M Z :=
  match investments with
  | [] => ret refund_count
  | kv :: rest =>
      refunded <- refund_investment escrow_id campaign kv ;;
      refund_investments escrow_id campaign rest
        (if refunded then refund_count + 1 else refund_count)
  end.

(** [escrow.tasks.process_campaign_refunds].  The escrow is loaded with
    [select_related('campaign')]; nothing is inside a transaction. *)
Definition process_campaign_refunds_body (escrow_id : string)
  : M TaskReturn :=
  escrow <- objects_get "FundEscrow" escrows escrow_id ;;
  campaign <- objects_get "FundEscrow" campaigns (FundEscrow.campaign escrow) ;;
  if FundEscrow.refund_completed escrow
  then ret RNone
  else if negb (truthy (Campaign.smart_contract_address campaign))
  then raise (ValueError "Campaign not deployed to blockchain")
  else
    escrow <-
      (if negb (FundEscrow.refund_initiated escrow)
       then
         initiate_result <- initiate_refund
                              (Campaign.smart_contract_address campaign) ;;
         let escrow :=
           FundEscrow.set_refund_tx_hash (Some (txHash initiate_result))
             (FundEscrow.set_refund_initiated true escrow) in
         _ <- save (fun s =>
                      set_escrows (<[escrow_id := escrow]> (escrows s)) s)
                (ret tt) ;;
         ret escrow
       else ret escrow) ;;
    w <- get_world ;;
    refund_count <- refund_investments escrow_id campaign
                      (confirmed_investments (db w) (FundEscrow.campaign escrow))
                      0 ;;
    t <- timezone_now ;;
    let escrow :=
      FundEscrow.set_status "refunded"
        (FundEscrow.set_refunded_at (Some t)
           (FundEscrow.set_refund_completed true escrow)) in
    _ <- save (fun s => set_escrows (<[escrow_id := escrow]> (escrows s)) s)
           (ret tt) ;;
    ret (RRefunds escrow_id refund_count).

(** The task: the body above inside its [try], with the handlers of its
    [except] clauses. *)
Definition process_campaign_refunds (self : Request) (escrow_id : string)
  : M TaskReturn :=
  try_except (process_campaign_refunds_body escrow_id)
    (fun e => retry self 3 e 60).

(** [escrow.tasks.process_refunds], the alias: it sends
    [process_campaign_refunds] and has no handler. *)
Definition process_refunds (self : Request) (escrow_id : string)
  : M TaskReturn :=
  let message := delay "escrow.tasks.process_campaign_refunds" escrow_id in
  _ <- enqueue message ;;
  ret (RAsyncResult message).

(** ** The family of mirror tasks *)

Inductive MirrorTask :=
| RegisterIssuer                (* blockchain.tasks.register_issuer_on_blockchain *)
| DeployCampaign                (* blockchain.tasks.deploy_campaign_to_blockchain *)
| RecordInvestment              (* blockchain.tasks.record_investment_on_blockchain *)
| MintCertificate               (* blockchain.tasks.mint_nft_certificate *)
| InvestmentsRecordInvestment   (* investments.tasks.record_investment_on_blockchain *)
| CampaignsDeployCampaign       (* campaigns_module.tasks.deploy_campaign_to_blockchain *)
| EscrowReleaseFunds.           (* escrow.tasks.release_funds_to_issuer *)

Definition run (t : MirrorTask) : Request -> string -> M TaskReturn :=
  match t with
  | RegisterIssuer => register_issuer_on_blockchain
  | DeployCampaign => deploy_campaign_to_blockchain
  | RecordInvestment => record_investment_on_blockchain
  | MintCertificate => mint_nft_certificate
  | InvestmentsRecordInvestment => investments_record_investment_on_blockchain
  | CampaignsDeployCampaign => campaigns_deploy_campaign_to_blockchain
  | EscrowReleaseFunds => release_funds_to_issuer
  end.

(** The body of the [try] statement of each task. *)
Definition task_body (t : MirrorTask) : string -> M TaskReturn :=
  match t with
  | RegisterIssuer => register_issuer_on_blockchain_body
  | DeployCampaign => deploy_campaign_to_blockchain_body
  | RecordInvestment => record_investment_on_blockchain_body
  | MintCertificate => mint_nft_certificate_body
  | InvestmentsRecordInvestment => investments_record_investment_on_blockchain_body
  | CampaignsDeployCampaign => campaigns_deploy_campaign_to_blockchain_body
  | EscrowReleaseFunds => release_funds_to_issuer_body
  end.

(** The model whose [DoesNotExist] the tasks of blockchain/tasks.py re-raise. *)
Definition entity_model (t : MirrorTask) : string :=
  match t with
  | RegisterIssuer => "Company"
  | DeployCampaign | CampaignsDeployCampaign => "Campaign"
  | RecordInvestment | MintCertificate | InvestmentsRecordInvestment => "Investment"
  | EscrowReleaseFunds => "FundEscrow"
  end.

(** The tasks of blockchain/tasks.py, which re-raise [DoesNotExist]. *)
Definition in_blockchain_tasks (t : MirrorTask) : bool :=
  match t with
  | RegisterIssuer | DeployCampaign | RecordInvestment | MintCertificate => true
  | _ => false
  end.

(** The exception a task re-raises at once: its own model's
    [DoesNotExist], in blockchain/tasks.py only. *)
Definition reraised_at_once (t : MirrorTask) (e : Exc) : bool :=
  in_blockchain_tasks t
  && match e with
     | DoesNotExist m => String.eqb m (entity_model t)
     | _ => false
     end.

(** The entity a task mirrors is already mirrored: its row is there and its
    chain-mirror field (registered flag, deployed flag, transaction hash,
    certificate, released flag) is set. *)
Definition already_mirrored (t : MirrorTask) (s : Store) (pk : string) : bool :=
  match t with
  | RegisterIssuer =>
      match companies s !! pk with
      | Some company => Company.registered_on_blockchain company
      | None => false
      end
  | DeployCampaign | CampaignsDeployCampaign =>
      match campaigns s !! pk with
      | Some campaign => Campaign.deployed_on_blockchain campaign
      | None => false
      end
  | RecordInvestment | InvestmentsRecordInvestment =>
      match investments s !! pk with
      | Some investment => truthy (Investment.blockchain_tx_hash investment)
      | None => false
      end
  | MintCertificate =>
      match investments s !! pk with
      | Some _ => has_nft_certificate s pk
      | None => false
      end
  | EscrowReleaseFunds =>
      match escrows s !! pk with
      | Some escrow => FundEscrow.funds_released escrow
      | None => false
      end
  end.

(** What a task hands back from its idempotence guard. *)
Definition guard_return (t : MirrorTask) (s : Store) (pk : string) : TaskReturn :=
  match t with
  | RegisterIssuer => RNone
  | DeployCampaign => RDict false [("message", "Already deployed")]
  | RecordInvestment => RDict false [("message", "Already recorded")]
  | MintCertificate => RDict false [("message", "Already minted")]
  | InvestmentsRecordInvestment =>
      RDict true
        [("already_recorded", "True");
         ("tx_hash",
          default "" (investments s !! pk ≫= Investment.blockchain_tx_hash))]
  | CampaignsDeployCampaign => RNone
  | EscrowReleaseFunds => RNone
  end.

(** Referential integrity, as the foreign key constraints of the database
    enforce it. *)
Definition foreign_keys_ok (s : Store) : Prop :=
  map_Forall (fun _ row => is_Some (users s !! Company.user row)) (companies s)
  /\ map_Forall (fun _ row => is_Some (companies s !! Campaign.company row))
       (campaigns s)
  /\ map_Forall (fun _ row =>
                   is_Some (campaigns s !! Investment.campaign row)
                   /\ is_Some (users s !! Investment.user row))
       (investments s)
  /\ map_Forall (fun _ row => is_Some (campaigns s !! FundEscrow.campaign row))
       (escrows s).

#[global] Instance foreign_keys_ok_dec (s : Store) : Decision (foreign_keys_ok s).
Proof. unfold foreign_keys_ok. apply _. Defined.

(** The investment tasks of a list of investments, run one after the other,
    each as a fresh request; the outcomes come back in the same order. *)
Fixpoint record_all (investment_ids : list string) (w : World)
  : list (res TaskReturn) * World :=
  match investment_ids with
  | [] => ([], w)
  | pk :: rest =>
      let '(r, w1) :=
        investments_record_investment_on_blockchain
          (mkRequest "investments.tasks.record_investment_on_blockchain" pk 0)
          pk w in
      let '(rs, w2) := record_all rest w1 in
      (r :: rs, w2)
  end.

(** ** The whole family

    The tasks that write to the chain and back: the seven above,
    [blockchain.tasks.release_campaign_funds] and
    [escrow.tasks.process_campaign_refunds]. *)

Inductive Task :=
| Mirror (t : MirrorTask)
| ReleaseCampaignFunds          (* blockchain.tasks.release_campaign_funds *)
| ProcessCampaignRefunds.       (* escrow.tasks.process_campaign_refunds *)

Definition run_task (t : Task) : Request -> string -> M TaskReturn :=
  match t with
  | Mirror t => run t
  | ReleaseCampaignFunds => release_campaign_funds
  | ProcessCampaignRefunds => process_campaign_refunds
  end.

(** The body of the [try] statement of each task of the family. *)
Definition body_of (t : Task) : string -> M TaskReturn :=
  match t with
  | Mirror t => task_body t
  | ReleaseCampaignFunds => release_campaign_funds_body
  | ProcessCampaignRefunds => process_campaign_refunds_body
  end.

(** The exception a task of the family re-raises at once. *)
Definition reraised (t : Task) (e : Exc) : bool :=
  match t with
  | Mirror t => reraised_at_once t e
  | ReleaseCampaignFunds =>
      match e with
      | DoesNotExist m => String.eqb m "Campaign"
      | _ => false
      end
  | ProcessCampaignRefunds => false
  end.

(** ** escrow/views.py *)

(** What a view answers: the status code of the response. *)
Inductive Response :=
| HTTP_200
| HTTP_400 (error : string)
| HTTP_404.

(** [FundEscrowViewSet.release_funds], the manual trigger.  It enqueues the
    release task with the key of the campaign of the escrow. *)
Definition release_funds_view (escrow_id : string) : M Response :=
  w <- get_world ;;
  match escrows (db w) !! escrow_id with
  | None => ret HTTP_404
  | Some escrow =>
      if String.eqb (FundEscrow.status escrow) "released"
      then ret (HTTP_400 "Funds already released")
      else
        campaign <- objects_get "Campaign" campaigns (FundEscrow.campaign escrow) ;;
        if negb (is_successful campaign)
        then ret (HTTP_400 "Campaign did not meet success threshold")
        else
          _ <- enqueue (delay "escrow.tasks.release_funds_to_issuer"
                          (FundEscrow.campaign escrow)) ;;
          ret HTTP_200
  end.

End Ledger.

Definition is_ok {A} (r : res A) : bool :=
  match r with
  | Ok _ => true
  | Raise _ => false
  end.

(** The amount and the investor of an investment row of the store. *)
Definition amount_of (s : Store) (pk : string) : Z :=
  default 0 (Investment.amount <$> investments s !! pk).

Definition investor_of (s : Store) (pk : string) : string :=
  default "" (Investment.user <$> investments s !! pk).

Definition sum_amounts (s : Store) (investment_ids : list string) : Z :=
  foldr Z.add 0 (amount_of s <$> investment_ids).

Definition distinct_investors (s : Store) (investment_ids : list string) : Z :=
  Z.of_nat (length (remove_dups (investor_of s <$> investment_ids))).

(** The invariant of a company row: a registered company carries the hash
    and the time of its registration. *)
Definition registration_recorded (company : Company.t) : Prop :=
  Company.registered_on_blockchain company = true ->
  is_Some (Company.blockchain_tx_hash company)
  /\ is_Some (Company.blockchain_registered_at company).

(** The aggregates of a campaign row that the write-back of an investment
    maintains: [current_funding] and [investor_count]. *)
Definition aggregates (campaign : Campaign.t) : Z * Z :=
  (Campaign.current_funding campaign, Campaign.investor_count campaign).

(** ** A concrete node, configuration and store

    Used to run the code on explicit inputs. *)
Module Demo.

(** The addresses of the demo, in checksum form; the deployer's is the
    address of its key.  Transaction hashes, topics and data are
    abbreviated. *)
Definition registry_address : string :=
  "0x1000000000000000000000000000000000000001".
Definition factory_address : string :=
  "0x1000000000000000000000000000000000000002".
Definition nft_address : string :=
  "0x1000000000000000000000000000000000000003".
Definition deployer_key : string :=
  "0x0000000000000000000000000000000000000000000000000000000000000001".
Definition deployer : string :=
  "0x7E5F4552091A69125d5DfCb7b8C2659029395Bdf".
Definition alice_wallet : string :=
  "0x3000000000000000000000000000000000000001".
Definition carol_wallet : string :=
  "0x3000000000000000000000000000000000000003".
Definition campaign1_address : string :=
  "0x4000000000000000000000000000000000000001".
Definition campaign2_address : string :=
  "0x4000000000000000000000000000000000000002".
Definition campaign3_address : string :=
  "0x4000000000000000000000000000000000000003".
Definition campaign4_address : string :=
  "0x4000000000000000000000000000000000000004".
Definition other_address : string :=
  "0x5000000000000000000000000000000000000001".

Definition log0 : Log := mkLog factory_address ["0xtopic"] "0xdata".

Definition receipt_of (h : string) : Receipt :=
  mkReceipt h 7 21000 1 None (Some [log0]).

(** A node on which every transaction is mined with status 1 before the
    caller's wait ends: the sender's transaction count is the number of
    transactions broadcast so far, and a transaction whose nonce is not
    that count is refused.  Receipts carry one log; decoding a log or a
    receipt yields a CampaignCreated event.  An address is a string of 42
    characters, and the addresses of the demo are their own checksum
    form. *)
Definition node : Web3 :=
  mkWeb3
    (fun _ => Ok 5)
    (fun history _ => Ok (Z.of_nat (length history)))
    (fun history tx =>
       if Z.eqb (tx_nonce tx) (Z.of_nat (length history))
       then Ok "0xdeadbeef"
       else Raise (ValueError "nonce too low"))
    (fun _ h _ => Ok (receipt_of h))
    (fun _ h => Ok (receipt_of h))
    (fun _ _ _ =>
       Ok (mkEvent "CampaignCreated" [("campaignAddress", campaign1_address)]))
    (fun _ _ _ =>
       Ok [mkEvent "CampaignCreated" [("campaignAddress", campaign1_address)]])
    (fun a => match a with
              | Some s =>
                  if Nat.eqb (String.length s) 42 then Ok s
                  else Raise (ValueError "to_checksum_address")
              | None => Raise (TypeError "to_checksum_address")
              end)
    (fun s => Nat.eqb (String.length s) 42)
    (fun _ _ => Ok 0).

Definition settings : Settings :=
  mkSettings 100 (Some deployer_key) None 8000000 (Some 1000000000)
    (Some registry_address) (Some factory_address) None (Some nft_address).

Definition from_key (k : string) : string := deployer.

Definition is_successful (c : Campaign.t) : bool :=
  Z.leb (Campaign.success_threshold c * Campaign.funding_goal c)
        (Campaign.current_funding c * 100).

Definition call : ContractCall :=
  mkCall "issuer_registry" registry_address "updateInformationMemorandum"
    [AStr "QmMemorandum"].

Definition world0 (s : Store) : World := mkWorld s [] [] 1000 None None.

Definition users0 : gmap string User.t :=
  <["u1" := User.mk "alice" (Some alice_wallet) (Some "vc1")]>
  (<["u2" := User.mk "bob" None None]>
  (<["u3" := User.mk "carol" (Some carol_wallet) None]> ∅)).

Definition companies0 : gmap string Company.t :=
  <["co1" := Company.mk "u1" "Acme" None None false None None]>
  (<["co2" := Company.mk "u2" "Bobs" None None false None None]>
  (<["co3" := Company.mk "u3" "Carols" None (Some carol_wallet) true
               (Some "0xold") (Some 900)]> ∅)).

Definition campaign1 : Campaign.t :=
  Campaign.mk "co1" "Solar" "Solar panels" 10000000 0 30 75 "approved"
    None None None None false None None true false None None 0.

Definition campaign2 : Campaign.t :=
  Campaign.mk "co1" "Wind" "Wind farm" 10000000 0 30 75 "active"
    (Some 500) None (Some campaign2_address) (Some "0xd2") true (Some 500) None true
    false None None 0.

Definition campaign3 : Campaign.t :=
  Campaign.mk "co3" "Hydro" "Hydro plant" 10000000 100000 30 75 "active"
    (Some 600) None (Some campaign3_address) (Some "0xd3") true (Some 600) None true
    false None None 1.

Definition campaigns0 : gmap string Campaign.t :=
  <["c1" := campaign1]> (<["c2" := campaign2]> (<["c3" := campaign3]> ∅)).

Definition investments0 : gmap string Investment.t :=
  <["i1" := Investment.mk "c2" "u1" 4000000 "telebirr" "confirmed" None None
               None false None]>
  (<["i2" := Investment.mk "c2" "u3" 3800000 "cbe" "confirmed" None None None
                false None]>
  (<["i3" := Investment.mk "c2" "u1" 500000 "cbe" "confirmed" None None None
                false None]>
  (<["i0" := Investment.mk "c3" "u1" 100000 "cbe" "confirmed" (Some "0xold")
               (Some 700) None false None]> ∅))).

Definition escrows0 : gmap string FundEscrow.t :=
  <["e2" := FundEscrow.mk "c2" 0 "escrowed" false None None None false false
               None None]>
  (<["e3" := FundEscrow.mk "c3" 100000 "released" true (Some 800) (Some "0xr3")
               (Some carol_wallet) false false None None]> ∅).

Definition nft_certificates0 : gmap string NFTShareCertificate.t :=
  <["i0" := NFTShareCertificate.mk "i0" "1" "0xm0" 750]> ∅.

Definition store0 : Store :=
  mkStore users0 companies0 campaigns0 investments0 escrows0 nft_certificates0
    [].

Definition request (task pk : string) : Request := mkRequest task pk 0.


Definition world_without_broker : World :=
  mkWorld store0 [] [] 1000 None (Some 0%nat).

(** A node on which no transaction is mined before the caller's wait ends:
    web3.py raises [TimeExhausted]. *)
Definition silent_node : Web3 :=
  mkWeb3
    (gas_price node) (get_transaction_count node) (send_raw_transaction node)
    (fun _ _ _ => Raise TimeExhausted) (get_transaction_receipt node)
    (process_log node) (process_receipt node) (to_checksum_address node)
    (is_address node) (eth_call node).

(** A node that decodes only the logs of the factory, and a receipt whose
    first log is of another contract. *)
Definition log_other : Log := mkLog other_address ["0xtopic"] "0xdata".

Definition picky_node : Web3 :=
  mkWeb3
    (gas_price node) (get_transaction_count node) (send_raw_transaction node)
    (wait_for_transaction_receipt node) (get_transaction_receipt node)
    (fun _ _ log =>
       if String.eqb (log_address log) factory_address
       then Ok (mkEvent "CampaignCreated" [("campaignAddress", campaign1_address)])
       else Raise (ValueError "MismatchedABI"))
    (process_receipt node) (to_checksum_address node)
    (is_address node) (eth_call node).

Definition receipt_mixed : Receipt :=
  mkReceipt "0xdeadbeef" 7 21000 1 None (Some [log_other; log0]).

(** What the demo node answers for a mined transaction. *)
Definition result0 : TxResult :=
  mkTxResult "0xdeadbeef" 7 21000 1 None [log0] None None None.

(** A failed campaign "c4" with one confirmed investment "i4"; the refund
    of its escrow "e4" has been initiated. *)
Definition campaign4 : Campaign.t :=
  Campaign.mk "co3" "Tidal" "Tidal plant" 10000000 200000 30 75 "failed"
    (Some 600) (Some 900) (Some campaign4_address) (Some "0xd4") true (Some 600) None
    true false None None 1.

Definition store_failed : Store :=
  set_escrows
    (<["e4" := FundEscrow.mk "c4" 200000 "escrowed" false None None None true
                 false (Some "0xri") None]> escrows0)
    (set_investments
       (<["i4" := Investment.mk "c4" "u1" 200000 "cbe" "confirmed" None None
                    None false None]> investments0)
       (set_campaigns (<["c4" := campaign4]> campaigns0) store0)).

(** The store in which campaign "c2" has raised 80000.00 of its goal of
    100000.00, above its threshold of 75 percent. *)
Definition store_funded : Store :=
  set_campaigns
    (<["c2" := Campaign.set_current_funding 8000000 campaign2]> campaigns0)
    store0.

End Demo.

(** * Properties *)

(** ** Escrow predicates and the completion hook *)

(** C5: [can_release_funds] and [can_refund] are never both true, and each
    of them being true implies that the escrow's status is 'escrowed'.  This
    holds for every escrow row and every campaign row, hence in every
    reachable state, and whatever [is_successful] computes. *)
Theorem can_release_funds_can_refund_exclusive :
  forall (is_successful : Campaign.t -> bool)
         (escrow : FundEscrow.t) (campaign : Campaign.t),
    (can_release_funds is_successful escrow campaign
       && can_refund escrow campaign = false)
    /\ (can_release_funds is_successful escrow campaign = true ->
        FundEscrow.status escrow = "escrowed")
    /\ (can_refund escrow campaign = true ->
        FundEscrow.status escrow = "escrowed").
Proof.
  intros is_successful escrow campaign.
  unfold can_release_funds, can_refund, str_in. simpl.
  destruct (String.eqb_spec (FundEscrow.status escrow) "escrowed") as [He | He];
    simpl; [| repeat split; discriminate].
  repeat split; auto.
  destruct (String.eqb_spec (Campaign.status campaign) "active") as [Ha | Ha].
  - rewrite Ha. simpl. rewrite !andb_false_r. reflexivity.
  - rewrite !andb_false_r. reflexivity.
Qed.

Lemma successful_excludes_release :
  forall (is_successful : Campaign.t -> bool)
         (escrow : FundEscrow.t) (instance : Campaign.t),
    String.eqb (Campaign.status instance) "successful"
      && can_release_funds is_successful escrow instance = false.
Proof.
  intros is_successful escrow instance. unfold can_release_funds.
  destruct (String.eqb_spec (Campaign.status instance) "successful") as [Hs | Hs];
    [| reflexivity].
  rewrite Hs. simpl. rewrite andb_false_r. reflexivity.
Qed.

(** C10: the condition under which the post-save hook enqueues the fund
    release, [instance.status == 'successful' and escrow.can_release_funds],
    is false for every campaign and escrow, because [can_release_funds]
    requires the status 'active'; so no message the hook puts on the queue
    is for [release_funds_to_issuer]. *)
Theorem handle_campaign_completion_never_releases :
  forall (is_successful : Campaign.t -> bool) (db : Store)
         (instance_id : string) (instance : Campaign.t),
    (forall escrow : FundEscrow.t,
        can_release_funds is_successful escrow instance = true ->
        Campaign.status instance = "active")
    /\ (forall escrow : FundEscrow.t,
          String.eqb (Campaign.status instance) "successful"
            && can_release_funds is_successful escrow instance = false)
    /\ Forall (fun q => q_task q <> "escrow.tasks.release_funds_to_issuer")
         (handle_campaign_completion is_successful db instance_id instance).
Proof.
  intros is_successful db instance_id instance. split; [| split].
  - intros escrow H. unfold can_release_funds in H.
    apply andb_true_iff in H as [_ H]. apply String.eqb_eq in H. exact H.
  - intros escrow. apply successful_excludes_release.
  - unfold handle_campaign_completion.
    destruct (reverse_escrow db instance_id) as [[escrow_id escrow] |];
      [| constructor].
    rewrite successful_excludes_release.
    destruct (str_in (Campaign.status instance) ["failed"; "cancelled"]
              && can_refund escrow instance).
    + constructor; [| constructor]. simpl. discriminate.
    + constructor.
Qed.

(** ** The ledger client *)

Section LedgerProperties.

Context (w3 : Web3) (settings : Settings) (from_key : string -> string).

Local Abbreviation client := (client settings from_key).
Local Abbreviation build_transaction := (build_transaction w3 settings from_key).
Local Abbreviation sign_transaction := (sign_transaction settings from_key).
Local Abbreviation broadcast := (broadcast w3 settings from_key).
Local Abbreviation send_transaction := (send_transaction w3 settings from_key).

(** Building the transaction reads the node and leaves the world as it is. *)
Lemma build_transaction_world :
  forall contract_function from_address value gas_limit w,
    snd (build_transaction contract_function from_address value gas_limit w) = w.
Proof.
  intros cf fa v gl w. unfold build_transaction, bind, get_world, lift, ret.
  destruct (gas_price w3 (sent w)); simpl; [| reflexivity].
  destruct (get_transaction_count w3 (sent w) _); reflexivity.
Qed.

(** The sender of the transaction that is built. *)
Lemma build_transaction_from :
  forall contract_function from_address value gas_limit w tx,
    fst (build_transaction contract_function from_address value gas_limit w) = Ok tx ->
    tx_from tx = default "" (if truthy from_address then from_address
                             else deployer_address client).
Proof.
  intros cf fa v gl w tx. unfold build_transaction, bind, get_world, lift, ret.
  destruct (gas_price w3 (sent w)); simpl; [| discriminate].
  destruct (get_transaction_count w3 (sent w) _); simpl; [| discriminate].
  intros [= <-]. reflexivity.
Qed.

(** With a configured key the default sender is the account of the key. *)
Lemma deployer_is_account :
  forall acct, account client = Some acct -> deployer_address client = Some acct.
Proof.
  intros acct. unfold client. simpl.
  destruct (truthy (DEPLOYER_PRIVATE_KEY settings)); [auto | discriminate].
Qed.

(** A transaction built without an explicit sender is signed as it is. *)
Lemma sign_default_sender :
  forall contract_function value gas_limit w tx acct,
    account client = Some acct ->
    fst (build_transaction contract_function None value gas_limit w) = Ok tx ->
    sign_transaction tx = Ok tx.
Proof.
  intros cf v gl w tx acct Hacct Hbuild.
  apply build_transaction_from in Hbuild. cbn [truthy] in Hbuild.
  rewrite (deployer_is_account acct Hacct) in Hbuild.
  unfold sign_transaction. rewrite Hbuild, Hacct.
  rewrite String.eqb_refl. reflexivity.
Qed.

(** What [broadcast] answers once the transaction is signed and the node
    has accepted it. *)
Lemma broadcast_accepted :
  forall tx w tx_hash,
    sign_transaction tx = Ok tx ->
    send_raw_transaction w3 (sent w) tx = Ok tx_hash ->
    broadcast tx w =
      (match wait_for_transaction_receipt w3 (sent w ++ [tx]) tx_hash 120 with
       | Raise TimeoutError =>
           Raise (BlockchainTimeout ("Transaction timeout: " ++ tx_hash))
       | Raise e => Raise e
       | Ok receipt =>
           if Z.eqb (r_status receipt) 0
           then Raise (TransactionFailed ("Transaction failed: " ++ tx_hash))
           else Ok (mkTxResult tx_hash (r_blockNumber receipt)
                      (r_gasUsed receipt) (r_status receipt)
                      (r_contractAddress receipt)
                      (default [] (r_logs receipt)) None None None)
       end, set_sent (sent w ++ [tx]) w).
Proof.
  intros tx w tx_hash Hsign Hsend.
  unfold broadcast, bind, get_world, lift, ret, raise. rewrite Hsign. simpl.
  rewrite Hsend. simpl.
  destruct (wait_for_transaction_receipt w3 (sent w ++ [tx]) tx_hash 120)
    as [receipt | e]; simpl.
  - destruct (Z.eqb (r_status receipt) 0); reflexivity.
  - destruct e; reflexivity.
Qed.

(** X24: how [send_transaction] classifies the end of the wait, for a
    call that got its transaction onto the node: a builtin [TimeoutError]
    of the wait becomes [BlockchainTimeout]; every other exception of the
    wait, web3's [TimeExhausted] among them, leaves the call as it is; a
    receipt of status 0 becomes [TransactionFailed]; any other receipt
    gives the result with the transaction hash and the receipt's block
    number, gas used, status and logs. *)
Theorem send_transaction_classifies_receipt :
  forall contract_function from_address value gas_limit (w : World)
         (acct : string) (tx : Tx) (tx_hash : string),
    account client = Some acct ->
    fst (build_transaction contract_function from_address value gas_limit w) = Ok tx ->
    sign_transaction tx = Ok tx ->
    send_raw_transaction w3 (sent w) tx = Ok tx_hash ->
    let wait := wait_for_transaction_receipt w3 (sent w ++ [tx]) tx_hash 120 in
    let outcome := fst (send_transaction contract_function from_address value gas_limit w) in
    (wait = Raise TimeoutError ->
     outcome = Raise (BlockchainTimeout ("Transaction timeout: " ++ tx_hash)))
    /\ (forall e, wait = Raise e -> e <> TimeoutError -> outcome = Raise e)
    /\ (forall receipt, wait = Ok receipt -> r_status receipt = 0 ->
        outcome = Raise (TransactionFailed ("Transaction failed: " ++ tx_hash)))
    /\ (forall receipt, wait = Ok receipt -> r_status receipt <> 0 ->
        exists result,
          outcome = Ok result
          /\ txHash result = tx_hash
          /\ blockNumber result = r_blockNumber receipt
          /\ gasUsed result = r_gasUsed receipt
          /\ status result = r_status receipt
          /\ logs result = default [] (r_logs receipt)).
Proof.
  intros cf fa v gl w acct tx tx_hash Hacct Hbuild Hsign Hsend wait outcome.
  assert (Hout : outcome =
            match wait with
            | Raise TimeoutError =>
                Raise (BlockchainTimeout ("Transaction timeout: " ++ tx_hash))
            | Raise e => Raise e
            | Ok receipt =>
                if Z.eqb (r_status receipt) 0
                then Raise (TransactionFailed ("Transaction failed: " ++ tx_hash))
                else Ok (mkTxResult tx_hash (r_blockNumber receipt)
                           (r_gasUsed receipt) (r_status receipt)
                           (r_contractAddress receipt)
                           (default [] (r_logs receipt)) None None None)
            end).
  { subst outcome wait. unfold send_transaction. rewrite Hacct.
    unfold bind at 1.
    pose proof (build_transaction_world cf fa v gl w) as Hw.
    destruct (build_transaction cf fa v gl w) as [r w1]. simpl in Hbuild, Hw.
    subst r w1. rewrite (broadcast_accepted tx w tx_hash Hsign Hsend).
    reflexivity. }
  rewrite Hout. repeat split.
  - intros ->. reflexivity.
  - intros e -> He. destruct e; try reflexivity. contradiction.
  - intros receipt -> Hst. rewrite Hst. reflexivity.
  - intros receipt -> Hst.
    destruct (Z.eqb_spec (r_status receipt) 0) as [E | E]; [contradiction |].
    eexists. split; [reflexivity |]. simpl. repeat split.
Qed.

(** [parse_event_log] never raises: a log that does not decode gives [None]. *)
Lemma parse_event_log_mismatch :
  forall contract_name event_name log abi e,
    get_abi contract_name = Ok abi ->
    process_log w3 abi event_name log = Raise e ->
    parse_event_log w3 settings from_key contract_name event_name log = None.
Proof.
  intros contract_name event_name log abi e Habi Hlog. unfold parse_event_log.
  unfold get_contract_instance. destruct (negb _); [reflexivity |].
  rewrite Habi. simpl. rewrite Hlog. reflexivity.
Qed.

(** The scan behind [_parse_campaign_created_event] skips the logs that do
    not yield the address and goes on with the rest. *)
Lemma scan_campaign_created_skips :
  forall abi skipped rest,
    Forall (fun log =>
              match process_log w3 abi "CampaignCreated" log with
              | Ok event => dict_get "campaignAddress" (ev_args event) = None
              | Raise _ => True
              end) skipped ->
    scan_campaign_created w3 abi (skipped ++ rest) = scan_campaign_created w3 abi rest.
Proof.
  intros abi skipped rest H. induction H as [| log skipped Hlog _ IH]; [reflexivity |].
  simpl. destruct (process_log w3 abi "CampaignCreated" log) as [event | e].
  - rewrite Hlog. exact IH.
  - exact IH.
Qed.

(** A receipt none of whose logs yields the address makes the campaign
    parser raise. *)
Lemma parse_campaign_created_event_not_found :
  forall receipt,
    Forall (fun log =>
              match process_log w3 "campaign_factory" "CampaignCreated" log with
              | Ok event => dict_get "campaignAddress" (ev_args event) = None
              | Raise _ => True
              end) (default [] (r_logs receipt)) ->
    exists e, _parse_campaign_created_event w3 settings from_key receipt = Raise e.
Proof.
  intros receipt H. unfold _parse_campaign_created_event, get_contract_instance.
  destruct (negb _); [eexists; reflexivity |]. simpl.
  rewrite <- (app_nil_r (default [] (r_logs receipt))).
  rewrite scan_campaign_created_skips by exact H. eexists; reflexivity.
Qed.

(** C8, on the NFT side: [_parse_certificate_issued_event] answers the
    token id "1" for every receipt, so a receipt without any log, where the
    campaign parser raises, is reported as a successful mint. *)
Theorem parse_certificate_issued_event_ignores_logs :
  let receipt := mkReceipt "0xdeadbeef" 7 21000 1 None (Some []) in
  _parse_certificate_issued_event receipt = Ok "1"
  /\ exists e, _parse_campaign_created_event w3 settings from_key receipt = Raise e.
Proof.
  split; [reflexivity |].
  apply parse_campaign_created_event_not_found. constructor.
Qed.

End LedgerProperties.

(** ** The mirror tasks: idempotence guard and retry *)

Section TaskProperties.

Context (w3 : Web3) (settings : Settings) (from_key : string -> string)
        (is_successful : Campaign.t -> bool).

Local Abbreviation run := (run w3 settings from_key is_successful).
Local Abbreviation task_body := (task_body w3 settings from_key is_successful).
Local Abbreviation run_task := (run_task w3 settings from_key is_successful).
Local Abbreviation body_of := (body_of w3 settings from_key is_successful).
Local Abbreviation refund_investment :=
  (refund_investment w3 settings from_key).

(** A task is its body inside [try_except], with one of two handlers. *)
Lemma run_unfold :
  forall t self pk,
    run t self pk =
    try_except (task_body t pk)
      (if in_blockchain_tasks t
       then blockchain_task_handlers self (entity_model t)
       else fun e => retry self 3 e 60).
Proof. intros [] self pk; reflexivity. Qed.

(** The guard of every guarded task body returns at once. *)
Lemma task_body_guard :
  forall t pk w,
    t <> RegisterIssuer ->
    foreign_keys_ok (db w) ->
    already_mirrored t (db w) pk = true ->
    task_body t pk w = (Ok (guard_return t (db w) pk), w).
Proof.
  intros t pk w Ht (Hco & Hca & Hin & Hes) Hm.
  destruct t; try congruence; clear Ht; simpl in Hm |- *.
  - (* DeployCampaign *)
    unfold deploy_campaign_to_blockchain_body, bind, objects_get, ret.
    destruct (campaigns (db w) !! pk) as [c |]; [| discriminate].
    rewrite Hm. reflexivity.
  - (* RecordInvestment *)
    unfold record_investment_on_blockchain_body, bind, objects_get, ret.
    destruct (investments (db w) !! pk) as [i |]; [| discriminate].
    rewrite Hm. reflexivity.
  - (* MintCertificate *)
    unfold mint_nft_certificate_body, bind, objects_get, get_world, ret.
    destruct (investments (db w) !! pk) as [i |]; [| discriminate].
    rewrite Hm. reflexivity.
  - (* InvestmentsRecordInvestment *)
    unfold investments_record_investment_on_blockchain_body, bind, atomic,
      objects_get, ret.
    destruct (investments (db w) !! pk) as [i |] eqn:Hi; [| discriminate].
    destruct (Hin pk i Hi) as [[c Hc] [u Hu]]. rewrite Hc, Hu, Hm.
    reflexivity.
  - (* CampaignsDeployCampaign *)
    unfold campaigns_deploy_campaign_to_blockchain_body, bind, objects_get, ret.
    destruct (campaigns (db w) !! pk) as [c |]; [| discriminate].
    rewrite Hm. reflexivity.
  - (* EscrowReleaseFunds *)
    unfold release_funds_to_issuer_body, bind, objects_get, ret.
    destruct (escrows (db w) !! pk) as [e |] eqn:He; [| discriminate].
    destruct (Hes pk e He) as [c Hc]. rewrite Hc.
    destruct (Hca _ c Hc) as [co Hco']. rewrite Hco', Hm. reflexivity.
Qed.

(** C1, as the code has it: every mirror task that starts with an
    idempotence guard (campaign deployment and investment recording in both
    modules, certificate minting, fund release) returns from the guard when
    its entity is already mirrored, leaving the store, the node and the
    queue untouched.  The value it returns has [success = True] only for
    [investments.tasks.record_investment_on_blockchain]; the tasks of
    blockchain/tasks.py return [success = False] with an 'Already ...'
    message, and the campaigns_module and escrow tasks return [None]. *)
Theorem guarded_task_on_mirrored_entity_is_noop :
  forall (t : MirrorTask) (self : Request) (pk : string) (w : World),
    t <> RegisterIssuer ->
    foreign_keys_ok (db w) ->
    already_mirrored t (db w) pk = true ->
    run t self pk w = (Ok (guard_return t (db w) pk), w)
    /\ success_entry (guard_return t (db w) pk) =
         match t with
         | InvestmentsRecordInvestment => Some true
         | DeployCampaign | RecordInvestment | MintCertificate => Some false
         | _ => None
         end.
Proof.
  intros t self pk w Ht Hfk Hm. split.
  - rewrite run_unfold. unfold try_except.
    rewrite (task_body_guard t pk w Ht Hfk Hm). reflexivity.
  - destruct t; try congruence; reflexivity.
Qed.

(** [self.retry] always raises.  It sends the task again exactly when the
    request has been retried fewer than [max_retries] times, and then
    raises [Retry], or [Reject] when the broker refused the message. *)
Lemma retry_outcome :
  forall (self : Request) (max_retries countdown : Z) (e : Exc) (w : World),
    @retry TaskReturn self max_retries e countdown w =
    if Z.ltb (retries self) max_retries
    then
      let message :=
        mkQueued (task self) (arg self) countdown (retries self + 1) in
      match broker w with
      | Some O => (Raise (Reject OperationalError), set_broker None w)
      | Some (S n) =>
          (Raise (Retry e countdown),
           set_queue (queue w ++ [message]) (set_broker (Some n) w))
      | None => (Raise (Retry e countdown), set_queue (queue w ++ [message]) w)
      end
    else (Raise e, w).
Proof.
  intros self max_retries countdown e w. unfold retry.
  destruct (Z.ltb_spec max_retries (retries self + 1));
    destruct (Z.ltb_spec (retries self) max_retries); try lia;
    [reflexivity |].
  unfold bind, try_except, enqueue, raise.
  destruct (broker w) as [[| n] |]; reflexivity.
Qed.

(** One investor's refund inside the loop of [process_campaign_refunds]
    never raises: whatever fails in it is caught there. *)
Lemma refund_investment_returns :
  forall escrow_id campaign kv w,
    exists counted w',
      refund_investment escrow_id campaign kv w = (Ok counted, w').
Proof.
  intros escrow_id campaign [investment_id investment] w.
  unfold refund_investment, try_except.
  match goal with
  | |- context [match ?m w with _ => _ end] => destruct (m w) as [[b | e] w']
  end; eexists _, _; reflexivity.
Qed.

(** C2, as the code has it.  Whatever exception leaves the [try] body of a
    task of the family (registration, campaign deployment and investment
    recording in both modules, certificate minting, the two fund releases
    and the campaign refunds) is handed to [self.retry] with a countdown of
    60 seconds: the task is sent again while the request has been retried
    fewer than 3 times, raising [Retry], or [Reject] when the broker
    refuses the message, and the exception itself is raised after that; it
    makes no difference whether the failure is transient or permanent.
    The one exception is the [DoesNotExist] of the task's own model in
    blockchain/tasks.py, which is raised at once and never retried.
    Inside [process_campaign_refunds] the failure of one investor's refund
    never leaves the loop: it is caught there, neither retried nor raised.
    [process_refunds], which only sends [process_campaign_refunds], has no
    handler: what its [.delay] raises is raised as it is. *)
Theorem task_failure_is_retried_unless_entity_missing :
  (forall (t : Task) (self : Request) (pk : string) (w w1 : World) (e : Exc),
      body_of t pk w = (Raise e, w1) ->
      run_task t self pk w =
        if reraised t e then (Raise e, w1)
        else if Z.ltb (retries self) 3
        then
          let message :=
            mkQueued (task self) (arg self) 60 (retries self + 1) in
          match broker w1 with
          | Some O => (Raise (Reject OperationalError), set_broker None w1)
          | Some (S n) =>
              (Raise (Retry e 60),
               set_queue (queue w1 ++ [message]) (set_broker (Some n) w1))
          | None => (Raise (Retry e 60), set_queue (queue w1 ++ [message]) w1)
          end
        else (Raise e, w1))
  /\ (forall escrow_id campaign kv w,
        exists counted w',
          refund_investment escrow_id campaign kv w = (Ok counted, w'))
  /\ (forall (self : Request) (escrow_id : string) (w w1 : World) (e : Exc),
        enqueue (delay "escrow.tasks.process_campaign_refunds" escrow_id) w
          = (Raise e, w1) ->
        process_refunds self escrow_id w = (Raise e, w1)).
Proof.
  split; [| split].
  - intros t self pk w w1 e Hbody.
    assert (Hblock :
      forall model,
        @blockchain_task_handlers TaskReturn self model e w1 =
        if match e with
           | DoesNotExist m => String.eqb m model
           | _ => false
           end
        then (Raise e, w1) else retry self 3 e 60 w1).
    { intros model. unfold blockchain_task_handlers.
      destruct e; try reflexivity.
      destruct (String.eqb model0 model); reflexivity. }
    destruct t as [t | |]; simpl in Hbody |- *.
    + rewrite run_unfold. unfold try_except. rewrite Hbody.
      unfold reraised_at_once.
      destruct (in_blockchain_tasks t); simpl.
      * rewrite Hblock.
        destruct (match e with DoesNotExist m => _ | _ => false end);
          [reflexivity | apply retry_outcome].
      * apply retry_outcome.
    + unfold release_campaign_funds, try_except. rewrite Hbody, Hblock.
      destruct (match e with DoesNotExist m => _ | _ => false end);
        [reflexivity | apply retry_outcome].
    + unfold process_campaign_refunds, try_except. rewrite Hbody.
      apply retry_outcome.
  - apply refund_investment_returns.
  - intros self escrow_id w w1 e He. unfold process_refunds, bind.
    rewrite He. reflexivity.
Qed.

End TaskProperties.

(** ** Nonces under sequential and interleaved callers *)

Section NonceProperties.

Context (w3 : Web3) (settings : Settings) (from_key : string -> string).

Local Abbreviation client := (client settings from_key).
Local Abbreviation caller_step := (caller_step w3 settings from_key).
Local Abbreviation run_schedule := (run_schedule w3 settings from_key).

Lemma run_schedule_app :
  forall s1 s2 callers w,
    run_schedule (s1 ++ s2) callers w =
    let '(callers1, w1) := run_schedule s1 callers w in
    run_schedule s2 callers1 w1.
Proof.
  induction s1 as [| i s1 IH]; intros s2 callers w; simpl.
  - reflexivity.
  - destruct (callers !! i) as [c |]; [| apply IH].
    destruct (caller_step c w) as [c' w']. apply IH.
Qed.

(** The node of a single sender whose transactions are all mined before the
    next call starts: the sender's transaction count is [n0] plus the number
    of transactions broadcast, and a transaction carrying that count as its
    nonce is accepted. *)
Variable n0 : Z.
Hypothesis count_is_mined :
  forall history address,
    get_transaction_count w3 history address = Ok (n0 + Z.of_nat (length history)).
Hypothesis gas_price_known :
  forall history, is_ok (gas_price w3 history) = true.
Hypothesis next_nonce_accepted :
  forall history tx,
    tx_nonce tx = n0 + Z.of_nat (length history) ->
    is_ok (send_raw_transaction w3 history tx) = true.
Hypothesis key_configured : is_Some (account client).

(** One whole call on this node: the transaction carries the current count
    and the count grows by one. *)
Lemma caller_two_steps :
  forall contract_function w,
    exists tx r w2,
      caller_step (NotStarted contract_function) w = (Built tx, w)
      /\ caller_step (Built tx) w = (Returned tx r, w2)
      /\ tx_nonce tx = n0 + Z.of_nat (length (sent w))
      /\ length (sent w2) = S (length (sent w)).
Proof.
  intros cf w. destruct key_configured as [acct Hacct].
  pose proof (gas_price_known (sent w)) as Hg.
  destruct (gas_price w3 (sent w)) as [g | ?] eqn:Eg; [| discriminate].
  assert (Hb : exists tx,
             build_transaction w3 settings from_key cf None 0 None w = (Ok tx, w)
             /\ tx_nonce tx = n0 + Z.of_nat (length (sent w))).
  { unfold build_transaction, bind, get_world, lift, ret. rewrite Eg. simpl.
    rewrite count_is_mined. simpl. eexists; split; reflexivity. }
  destruct Hb as (tx & Hb & Hn).
  pose proof (next_nonce_accepted (sent w) tx Hn) as Hs.
  destruct (send_raw_transaction w3 (sent w) tx) as [h | ?] eqn:Es;
    [| discriminate].
  assert (Hsign : sign_transaction settings from_key tx = Ok tx).
  { apply (sign_default_sender w3 settings from_key cf 0 None w tx acct Hacct).
    rewrite Hb. reflexivity. }
  assert (Hbr : exists r w2,
             broadcast w3 settings from_key tx w = (r, w2)
             /\ length (sent w2) = S (length (sent w))).
  { rewrite (broadcast_accepted w3 settings from_key tx w h Hsign Es).
    eexists _, _. split; [reflexivity |].
    simpl. rewrite length_app. simpl. lia. }
  destruct Hbr as (r & w2 & Hbr & Hlen).
  exists tx, r, w2. unfold caller_step. rewrite Hacct, Hb, Hbr.
  repeat split; assumption.
Qed.

Lemma run_schedule_cons :
  forall i rest callers w c c1 w1,
    callers !! i = Some c ->
    caller_step c w = (c1, w1) ->
    run_schedule (i :: rest) callers w = run_schedule rest (<[i := c1]> callers) w1.
Proof.
  intros i rest callers w c c1 w1 Hi H1. simpl. rewrite Hi, H1. reflexivity.
Qed.

Lemma run_schedule_twice :
  forall k callers w c c1 w1 c2 w2,
    callers !! k = Some c ->
    caller_step c w = (c1, w1) ->
    caller_step c1 w1 = (c2, w2) ->
    run_schedule [k; k] callers w = (<[k := c2]> callers, w2).
Proof.
  intros k callers w c c1 w1 c2 w2 Hk H1 H2.
  assert (Hlt : (k < length callers)%nat) by (eapply lookup_lt_Some; exact Hk).
  rewrite (run_schedule_cons k [k] callers w c c1 w1 Hk H1).
  rewrite (run_schedule_cons k [] (<[k := c1]> callers) w1 c1 c2 w2);
    [| apply list_lookup_insert_eq; exact Hlt | exact H2].
  rewrite list_insert_insert_eq. reflexivity.
Qed.

(** Run in sequence, the first [k] callers come back with the nonces
    [n0 + base], [n0 + base + 1], ... and the others have not started. *)
Lemma sequential_prefix :
  forall (calls : list ContractCall) (w : World) (k : nat),
    (k <= length calls)%nat ->
    exists callers w',
      run_schedule (sequential k) (NotStarted <$> calls) w = (callers, w')
      /\ length (sent w') = (length (sent w) + k)%nat
      /\ length callers = length calls
      /\ (forall i, (i < k)%nat ->
            exists tx r, callers !! i = Some (Returned tx r)
                         /\ tx_nonce tx = n0 + Z.of_nat (length (sent w)) + Z.of_nat i)
      /\ (forall i, (k <= i)%nat -> callers !! i = (NotStarted <$> calls) !! i).
Proof.
  intros calls w k. induction k as [| k IH]; intros Hk.
  - exists (NotStarted <$> calls), w. simpl. repeat split.
    + lia.
    + apply length_fmap.
    + intros i Hi. lia.
  - destruct IH as (callers & w1 & Hrun & Hlen & Hsize & Hdone & Hrest); [lia |].
    change (sequential (S k)) with (sequential k ++ [k; k])%list.
    rewrite run_schedule_app, Hrun.
    assert (Hk' : (k < length calls)%nat) by lia.
    destruct (lookup_lt_is_Some_2 calls k Hk') as [cf Hcf].
    assert (Hck : callers !! k = Some (NotStarted cf)).
    { rewrite (Hrest k) by lia. rewrite list_lookup_fmap, Hcf. reflexivity. }
    destruct (caller_two_steps cf w1) as (tx & r & w2 & H1 & H2 & Hn & Hl).
    rewrite (run_schedule_twice k callers w1 _ _ _ _ _ Hck H1 H2).
    eexists _, _. split; [reflexivity |]. repeat split.
    + lia.
    + rewrite length_insert. exact Hsize.
    + intros i Hi. destruct (decide (i = k)) as [-> | Hne].
      * exists tx, r. rewrite list_lookup_insert_eq by (rewrite Hsize; lia).
        split; [reflexivity | lia].
      * rewrite list_lookup_insert_ne by congruence. apply Hdone. lia.
    + intros i Hi. rewrite list_lookup_insert_ne by lia. apply Hrest. lia.
Qed.

(** C6, as the code has it: [send_transaction] reads the nonce from the
    node's transaction count and takes no lock.  When the calls run one
    after the other, each to its end, on a node that has mined every
    earlier transaction, the N transactions carry the nonces [n0 + base],
    [n0 + base + 1], ..., one apart and pairwise distinct. *)
Theorem sequential_calls_use_sequential_nonces :
  forall (calls : list ContractCall) (w : World),
    let callers :=
      fst (run_schedule (sequential (length calls)) (NotStarted <$> calls) w) in
    all_returned callers = true
    /\ forall i, (i < length calls)%nat ->
         nonce_of <$> callers !! i
           = Some (Some (n0 + Z.of_nat (length (sent w)) + Z.of_nat i)).
Proof.
  intros calls w.
  destruct (sequential_prefix calls w (length calls)) as
    (callers & w' & Hrun & _ & Hsize & Hdone & _); [lia |].
  rewrite Hrun. simpl. split.
  - unfold all_returned. apply forallb_forall. intros c Hc.
    apply list_elem_of_In, list_elem_of_lookup in Hc. destruct Hc as [i Hi].
    assert (Hlt : (i < length calls)%nat).
    { rewrite <- Hsize. eapply lookup_lt_Some. exact Hi. }
    destruct (Hdone i Hlt) as (tx & r & Hi' & _). rewrite Hi in Hi'.
    injection Hi' as ->. reflexivity.
  - intros i Hi. destruct (Hdone i Hi) as (tx & r & Hi' & Hn).
    rewrite Hi'. simpl. rewrite Hn. reflexivity.
Qed.

End NonceProperties.

(** ** What the services and the receivers do to the world *)

Section Effects.

Context (w3 : Web3) (settings : Settings) (from_key : string -> string)
        (is_successful : Campaign.t -> bool).

(** The handlers change neither the store nor the node. *)
Lemma retry_keeps_world {A} self max_retries e countdown w :
  let outcome := @retry A self max_retries e countdown w in
  db (snd outcome) = db w /\ sent (snd outcome) = sent w
  /\ now (snd outcome) = now w /\ faults (snd outcome) = faults w
  /\ is_ok (fst outcome) = false.
Proof.
  unfold retry, bind, try_except, enqueue, raise.
  destruct (Z.ltb max_retries (retries self + 1)); [simpl; repeat split |].
  destruct (broker w) as [[| n] |]; simpl; repeat split.
Qed.

Lemma handlers_keep_world {A} self model e w :
  let outcome := @blockchain_task_handlers A self model e w in
  db (snd outcome) = db w /\ sent (snd outcome) = sent w
  /\ now (snd outcome) = now w /\ faults (snd outcome) = faults w
  /\ is_ok (fst outcome) = false.
Proof.
  unfold blockchain_task_handlers.
  destruct e; try apply retry_keeps_world.
  destruct (String.eqb model0 model); [simpl; repeat split |].
  apply retry_keeps_world.
Qed.

Lemma broadcast_only_sent tx w :
  only_sent w (snd (broadcast w3 settings from_key tx w)).
Proof.
  unfold broadcast, bind, get_world, lift, ret, raise, only_sent.
  destruct (sign_transaction settings from_key tx) as [tx' | e]; simpl; [| done].
  destruct (send_raw_transaction w3 (sent w) tx') as [h | e]; simpl; [| done].
  destruct (wait_for_transaction_receipt w3 (sent w ++ [tx']) h 120) as [rc | e];
    [destruct (Z.eqb (r_status rc) 0) | destruct e]; simpl; done.
Qed.

Lemma send_transaction_only_sent cf fa v gl w :
  only_sent w (snd (send_transaction w3 settings from_key cf fa v gl w)).
Proof.
  unfold send_transaction. destruct (account _); [| done].
  unfold bind at 1.
  pose proof (build_transaction_world w3 settings from_key cf fa v gl w) as Hw.
  destruct (build_transaction w3 settings from_key cf fa v gl w) as [[tx | e] w1];
    simpl in Hw; subst w1; [| done].
  apply broadcast_only_sent.
Qed.

(** The contract that [get_contract_instance] binds carries the ABI of the
    name it was asked for. *)
Lemma get_contract_instance_abi name address contract :
  get_contract_instance settings from_key name address = Ok contract ->
  c_abi contract = name.
Proof.
  unfold get_contract_instance. destruct (negb _); [discriminate |].
  unfold get_abi. destruct (str_in name _); [| discriminate].
  intros [= <-]. reflexivity.
Qed.

(** What the two conversions answer when they answer. *)
Lemma to_wei_ok hundredths wei :
  to_wei hundredths = Ok wei -> wei = hundredths * 10 ^ 16.
Proof.
  unfold to_wei. destruct (_ || _); [discriminate |].
  intros [= <-]. reflexivity.
Qed.

Lemma functions_ok contract fn args contract_function :
  functions w3 contract fn args = Ok contract_function ->
  contract_function = mkCall (c_abi contract) (c_address contract) fn args.
Proof.
  unfold functions. destruct (abi_inputs fn _); [| discriminate].
  destruct (all_encodable w3 _ _); [| discriminate].
  intros [= <-]. reflexivity.
Qed.

Lemma register_issuer_only_sent a b c w :
  only_sent w (snd (register_issuer w3 settings from_key a b c w)).
Proof.
  unfold register_issuer, bind, lift.
  destruct (get_contract_instance settings from_key "issuer_registry" None);
    [| done].
  destruct (functions w3 _ _ _); [| done].
  apply send_transaction_only_sent.
Qed.

Lemma create_campaign_only_sent a b c d e f w :
  only_sent w (snd (create_campaign w3 settings from_key a b c d e f w)).
Proof.
  unfold create_campaign, bind, lift, get_world, ret.
  destruct (get_contract_instance settings from_key "campaign_factory" None)
    as [contract | ?]; [| done].
  destruct (to_wei d); [| done].
  destruct (functions w3 _ _ _) as [cf | ?]; [| done].
  pose proof (send_transaction_only_sent cf None 0 None w) as H.
  destruct (send_transaction w3 settings from_key cf None 0 None w)
    as [[result | ?] w1]; simpl in H |- *; [| exact H].
  destruct (get_transaction_receipt w3 (sent w1) (txHash result)); [| exact H].
  simpl. destruct (_parse_campaign_created_event w3 settings from_key _); exact H.
Qed.

Lemma deploy_campaign_only_sent a b c d e f w :
  only_sent w (snd (deploy_campaign w3 settings from_key a b c d e f w)).
Proof.
  unfold deploy_campaign, bind, lift, get_world, ret.
  destruct (get_contract_instance settings from_key "campaign_factory" None)
    as [contract | ?]; [| done].
  destruct (to_wei d); [| done].
  destruct (functions w3 _ _ _) as [cf | ?]; [| done].
  pose proof (send_transaction_only_sent cf None 0 None w) as H.
  destruct (send_transaction w3 settings from_key cf None 0 None w)
    as [[result | ?] w1]; simpl in H |- *; [| exact H].
  destruct (get_transaction_receipt w3 (sent w1) (txHash result)); [| exact H].
  simpl. destruct (campaigns_parse_campaign_created_event w3 _ _); exact H.
Qed.

(** *** The services that never reach the node

    The services of investments and escrow read [self.client._get_abi],
    which does not exist; the two services of blockchain/services.py that
    bind a campaign contract with the ABI of the factory ask it for a
    function that ABI does not have.  Each of them raises before any
    transaction is built. *)

Lemma investments_record_investment_fails ca ia a w :
  exists e,
    investments_record_investment w3 settings from_key ca ia a w = (Raise e, w).
Proof.
  unfold investments_record_investment, bind, lift, _get_abi.
  destruct (to_checksum_address w3 ca); eexists; reflexivity.
Qed.

Lemma escrow_release_funds_fails ca ra w :
  exists e, escrow_release_funds w3 settings from_key ca ra w = (Raise e, w).
Proof.
  unfold escrow_release_funds, bind, lift, _get_abi.
  destruct (to_checksum_address w3 ca); eexists; reflexivity.
Qed.

Lemma initiate_refund_fails ca w :
  exists e, initiate_refund w3 settings from_key ca w = (Raise e, w).
Proof.
  unfold initiate_refund, bind, lift, _get_abi.
  destruct (to_checksum_address w3 ca); eexists; reflexivity.
Qed.

Lemma process_investor_refund_fails ca ia w :
  exists e, process_investor_refund w3 settings from_key ca ia w = (Raise e, w).
Proof.
  unfold process_investor_refund, bind, lift, _get_abi.
  destruct (to_checksum_address w3 ca); eexists; reflexivity.
Qed.

Lemma release_funds_fails ca w :
  exists e, release_funds w3 settings from_key ca w = (Raise e, w).
Proof.
  unfold release_funds, bind, lift.
  destruct (get_contract_instance settings from_key "campaign_factory" ca)
    as [contract | e] eqn:Hc; [| eexists; reflexivity].
  unfold functions. rewrite (get_contract_instance_abi _ _ _ Hc). simpl.
  eexists; reflexivity.
Qed.

Lemma record_investment_fails ca ia a pm ref w :
  exists e,
    record_investment w3 settings from_key ca ia a pm ref w = (Raise e, w).
Proof.
  unfold record_investment, bind, lift.
  destruct (get_contract_instance settings from_key "campaign_factory" ca)
    as [contract | e] eqn:Hc; [| eexists; reflexivity].
  destruct (to_wei a); [| eexists; reflexivity].
  unfold functions. rewrite (get_contract_instance_abi _ _ _ Hc).
  destruct (String.eqb pm "crypto"); simpl; eexists; reflexivity.
Qed.

(** *** The receivers *)

(** Saving an active campaign queues nothing: deployment is for approved
    campaigns and the refund for failed or cancelled ones. *)
Lemma campaign_post_save_active s instance_id instance :
  Campaign.status instance = "active" ->
  campaign_post_save is_successful s instance_id instance = [].
Proof.
  intros Hst.
  unfold campaign_post_save, sync_campaign_to_blockchain,
    handle_campaign_completion, can_deploy_to_blockchain.
  rewrite Hst. simpl.
  destruct (companies s !! Campaign.company instance);
    destruct (reverse_escrow s instance_id) as [[? ?] |]; reflexivity.
Qed.

Lemma post_save_campaign_active instance_id instance w :
  Campaign.status instance = "active" ->
  post_save_campaign is_successful instance_id instance w = (Ok tt, w).
Proof.
  intros Hst. unfold post_save_campaign, bind, get_world.
  rewrite (campaign_post_save_active _ _ _ Hst). reflexivity.
Qed.

(** *** The tasks that write back *)

(** The row that the write-back of the registration stores. *)
Lemma register_body_cases pk w r w' :
  register_issuer_on_blockchain_body w3 settings from_key pk w = (r, w') ->
  (is_ok r = false /\ db w' = db w)
  \/ (exists company user result,
        companies (db w) !! pk = Some company
        /\ users (db w) !! Company.user company = Some user
        /\ truthy (User.wallet_address user) = true
        /\ r = Ok (RResult result)
        /\ db w'
           = set_companies
               (<[pk := Company.set_blockchain_address (User.wallet_address user)
                          (Company.set_registered_on_blockchain true
                             (Company.set_blockchain_tx_hash (Some (txHash result))
                                (Company.set_blockchain_registered_at
                                   (Some (now w)) company)))]>
                  (companies (db w)))
               (db w)).
Proof.
  unfold register_issuer_on_blockchain_body.
  unfold bind at 1. unfold objects_get at 1.
  destruct (companies (db w) !! pk) as [co |] eqn:Hco.
  2: { intros [= <- <-]. left. done. }
  unfold bind at 1. unfold objects_get at 1.
  destruct (users (db w) !! Company.user co) as [u |] eqn:Hu.
  2: { intros [= <- <-]. left. done. }
  destruct (truthy (User.wallet_address u)) eqn:Hwallet; cbn [negb].
  2: { intros [= <- <-]. left. done. }
  unfold bind at 1.
  match goal with
  | |- context [register_issuer w3 settings from_key ?a ?b ?c w] =>
      pose proof (register_issuer_only_sent a b c w) as (Hdb & _ & Hnow & Hf & _);
      destruct (register_issuer w3 settings from_key a b c w)
        as [[result | ?] w1]
  end; simpl in Hdb, Hnow, Hf.
  2: { intros [= <- <-]. left. done. }
  unfold bind at 1. unfold atomic. unfold bind at 1. unfold timezone_now at 1.
  unfold save, bind, db_write, sync_company_to_blockchain, ret.
  destruct (faults w1) as [[| n] |]; simpl.
  1: { intros [= <- <-]. left. done. }
  all: intros [= <- <-]; right; exists co, u, result;
    (repeat split; try done); simpl; rewrite Hdb, Hnow; f_equal;
    apply map_eq; intros k; rewrite lookup_alter;
    (destruct (decide (pk = k)) as [<- | Hne];
     [rewrite lookup_insert_eq, Hco; reflexivity
     | rewrite lookup_insert_ne by exact Hne; reflexivity]).
Qed.

(** The three ways the body of [blockchain.tasks.
    deploy_campaign_to_blockchain] can end. *)
Lemma deploy_body_cases pk w r w' :
  deploy_campaign_to_blockchain_body w3 settings from_key is_successful pk w
    = (r, w') ->
  (is_ok r = false /\ db w' = db w)
  \/ (exists c,
        campaigns (db w) !! pk = Some c
        /\ Campaign.deployed_on_blockchain c = true
        /\ r = Ok (RDict false [("message", "Already deployed")])
        /\ w' = w)
  \/ (exists c result addr,
        campaigns (db w) !! pk = Some c
        /\ Campaign.deployed_on_blockchain c = false
        /\ campaignAddress result = Some addr
        /\ r = Ok (RResult result)
        /\ db w'
           = set_campaigns
               (<[pk := Campaign.set_smart_contract_address (Some addr)
                          (Campaign.set_deployment_tx_hash (Some (txHash result))
                             (Campaign.set_deployed_on_blockchain true
                                (Campaign.set_blockchain_deployed_at (Some (now w))
                                   (Campaign.set_status "active" c))))]>
                  (campaigns (db w)))
               (db w)).
Proof.
  unfold deploy_campaign_to_blockchain_body.
  unfold bind at 1. unfold objects_get at 1.
  destruct (campaigns (db w) !! pk) as [c |] eqn:Hc.
  2: { intros [= <- <-]. left. done. }
  destruct (Campaign.deployed_on_blockchain c) eqn:Hdep.
  1: { intros [= <- <-]. right; left. exists c. done. }
  unfold bind at 1. unfold objects_get at 1.
  destruct (companies (db w) !! Campaign.company c) as [co |].
  2: { intros [= <- <-]. left. done. }
  unfold bind at 1.
  match goal with
  | |- context [create_campaign w3 settings from_key ?a ?b ?c ?d ?e ?f w] =>
      pose proof (create_campaign_only_sent a b c d e f w)
        as (Hdb & _ & Hnow & Hf & _);
      destruct (create_campaign w3 settings from_key a b c d e f w)
        as [[result | ?] w1]
  end; simpl in Hdb, Hnow, Hf.
  2: { intros [= <- <-]. left. done. }
  unfold bind at 1. unfold atomic. unfold bind at 1. unfold getitem.
  destruct (campaignAddress result) as [addr |] eqn:Haddr.
  2: { simpl. intros [= <- <-]. left. simpl. done. }
  unfold ret at 1. unfold bind at 1. unfold timezone_now at 1.
  unfold save. unfold bind at 1. unfold db_write at 1.
  destruct (faults w1) as [[| n] |].
  1: { simpl. intros [= <- <-]. left. done. }
  all: rewrite post_save_campaign_active by reflexivity;
    unfold bind, ret; intros [= <- <-]; right; right; exists c, result, addr;
    (repeat split; try done); simpl; rewrite Hdb, Hnow; f_equal;
    apply map_eq; intros k; rewrite lookup_alter;
    (destruct (decide (pk = k)) as [<- | Hne];
     [rewrite lookup_insert_eq, Hc; reflexivity
     | rewrite lookup_insert_ne by exact Hne; reflexivity]).
Qed.

(** The three ways the body of [campaigns_module.tasks.
    deploy_campaign_to_blockchain] can end. *)
Lemma campaigns_deploy_body_cases pk w r w' :
  campaigns_deploy_campaign_to_blockchain_body w3 settings from_key
    is_successful pk w = (r, w') ->
  (is_ok r = false /\ db w' = db w)
  \/ (exists c,
        campaigns (db w) !! pk = Some c
        /\ Campaign.deployed_on_blockchain c = true
        /\ r = Ok RNone
        /\ w' = w)
  \/ (exists c result addr,
        campaigns (db w) !! pk = Some c
        /\ Campaign.deployed_on_blockchain c = false
        /\ campaignAddress result = Some addr
        /\ r = Ok (RDict true [("campaign_id", pk);
                               ("contract_address", addr);
                               ("tx_hash", txHash result)])
        /\ db w'
           = set_campaigns
               (<[pk := Campaign.set_start_date (Some (now w))
                          (Campaign.set_status "active"
                             (Campaign.set_blockchain_deployed_at (Some (now w))
                                (Campaign.set_deployed_on_blockchain true
                                   (Campaign.set_deployment_tx_hash
                                      (Some (txHash result))
                                      (Campaign.set_smart_contract_address
                                         (Some addr) c)))))]>
                  (campaigns (db w)))
               (db w)).
Proof.
  unfold campaigns_deploy_campaign_to_blockchain_body.
  unfold bind at 1. unfold objects_get at 1.
  destruct (campaigns (db w) !! pk) as [c |] eqn:Hc.
  2: { intros [= <- <-]. left. done. }
  destruct (Campaign.deployed_on_blockchain c) eqn:Hdep.
  1: { intros [= <- <-]. right; left. exists c. done. }
  unfold bind at 1. unfold objects_get at 1.
  destruct (companies (db w) !! Campaign.company c) as [co |].
  2: { intros [= <- <-]. left. done. }
  unfold bind at 1.
  match goal with
  | |- context [deploy_campaign w3 settings from_key ?a ?b ?c ?d ?e ?f w] =>
      pose proof (deploy_campaign_only_sent a b c d e f w)
        as (Hdb & _ & Hnow & Hf & _);
      destruct (deploy_campaign w3 settings from_key a b c d e f w)
        as [[result | ?] w1]
  end; simpl in Hdb, Hnow, Hf.
  2: { intros [= <- <-]. left. done. }
  unfold bind at 1. unfold getitem.
  destruct (campaignAddress result) as [addr |] eqn:Haddr.
  2: { simpl. intros [= <- <-]. left. simpl. done. }
  unfold ret at 1. unfold bind at 1. unfold timezone_now at 1.
  unfold bind at 1. unfold save. unfold bind at 1. unfold db_write at 1.
  destruct (faults w1) as [[| n] |].
  1: { simpl. intros [= <- <-]. left. done. }
  all: rewrite post_save_campaign_active by reflexivity;
    unfold ret; intros [= <- <-]; right; right; exists c, result, addr;
    (repeat split; try done); simpl; rewrite Hdb, Hnow; reflexivity.
Qed.

(** *** The tasks that never write back *)

Lemma set_db_same w : set_db (db w) w = w.
Proof. destruct w; reflexivity. Qed.

(** The body of [blockchain.tasks.record_investment_on_blockchain] leaves
    the world as it is and returns only from its guard. *)
Lemma record_body_keeps_world pk w :
  exists r,
    record_investment_on_blockchain_body pk w = (r, w)
    /\ (is_ok r = true -> already_mirrored RecordInvestment (db w) pk = true).
Proof.
  unfold record_investment_on_blockchain_body, bind, objects_get, ret, raise.
  cbn [already_mirrored].
  destruct (investments (db w) !! pk) as [i |];
    [| eexists; split; [reflexivity | discriminate]].
  destruct (truthy (Investment.blockchain_tx_hash i));
    [eexists; split; [reflexivity | done] |].
  destruct (campaigns (db w) !! Investment.campaign i);
    [| eexists; split; [reflexivity | discriminate]].
  destruct (users (db w) !! Investment.user i);
    eexists; (split; [reflexivity | discriminate]).
Qed.

(** The body of [blockchain.tasks.mint_nft_certificate] likewise. *)
Lemma mint_body_keeps_world pk w :
  exists r,
    mint_nft_certificate_body pk w = (r, w)
    /\ (is_ok r = true -> already_mirrored MintCertificate (db w) pk = true).
Proof.
  unfold mint_nft_certificate_body, bind, objects_get, get_world, ret, raise.
  cbn [already_mirrored].
  destruct (investments (db w) !! pk) as [i |];
    [| eexists; split; [reflexivity | discriminate]].
  destruct (has_nft_certificate (db w) pk);
    [eexists; split; [reflexivity | done] |].
  destruct (users (db w) !! Investment.user i);
    [| eexists; split; [reflexivity | discriminate]].
  destruct (campaigns (db w) !! Investment.campaign i) as [c |];
    [| eexists; split; [reflexivity | discriminate]].
  destruct (companies (db w) !! Campaign.company c);
    eexists; (split; [reflexivity | discriminate]).
Qed.

(** The body of [investments.tasks.record_investment_on_blockchain]: its
    service raises before any transaction is built, so the body leaves the
    world as it is and returns only from its guard. *)
Lemma investments_record_body_keeps_world pk w :
  exists r,
    investments_record_investment_on_blockchain_body w3 settings from_key
      is_successful pk w = (r, w)
    /\ (forall v, r = Ok v ->
        exists investment,
          investments (db w) !! pk = Some investment
          /\ truthy (Investment.blockchain_tx_hash investment) = true
          /\ v = RDict true
                   [("already_recorded", "True");
                    ("tx_hash",
                     default "" (Investment.blockchain_tx_hash investment))]).
Proof.
  unfold investments_record_investment_on_blockchain_body.
  unfold bind at 1. unfold atomic.
  unfold bind at 1. unfold objects_get at 1.
  destruct (investments (db w) !! pk) as [i |] eqn:Hi.
  2: { rewrite set_db_same. eexists; split; [reflexivity | discriminate]. }
  unfold bind at 1. unfold objects_get at 1.
  destruct (campaigns (db w) !! Investment.campaign i) as [c |].
  2: { rewrite set_db_same. eexists; split; [reflexivity | discriminate]. }
  unfold bind at 1. unfold objects_get at 1.
  destruct (users (db w) !! Investment.user i) as [u |].
  2: { rewrite set_db_same. eexists; split; [reflexivity | discriminate]. }
  destruct (truthy (Investment.blockchain_tx_hash i)) eqn:Htx.
  1: { unfold ret. eexists; split; [reflexivity |].
       intros v [= <-]. exists i. done. }
  destruct (negb (truthy (Campaign.smart_contract_address c))).
  1: { unfold raise. rewrite set_db_same.
       eexists; split; [reflexivity | discriminate]. }
  unfold bind at 1.
  destruct (investments_record_investment_fails
              (Campaign.smart_contract_address c) (User.wallet_address u)
              (Investment.amount i) w) as [e ->].
  rewrite set_db_same. eexists; split; [reflexivity | discriminate].
Qed.

(** The body of [escrow.tasks.release_funds_to_issuer]: reading
    [company.wallet_address] raises, so the body leaves the world as it is
    and returns only from its guard. *)
Lemma release_body_keeps_world pk w :
  exists r,
    release_funds_to_issuer_body w3 settings from_key is_successful pk w = (r, w)
    /\ (forall v, r = Ok v ->
        v = RNone /\ already_mirrored EscrowReleaseFunds (db w) pk = true).
Proof.
  unfold release_funds_to_issuer_body, bind, objects_get, ret, raise,
    Company_wallet_address.
  cbn [already_mirrored].
  destruct (escrows (db w) !! pk) as [escrow |];
    [| eexists; split; [reflexivity | discriminate]].
  destruct (campaigns (db w) !! FundEscrow.campaign escrow) as [c |];
    [| eexists; split; [reflexivity | discriminate]].
  destruct (companies (db w) !! Campaign.company c);
    [| eexists; split; [reflexivity | discriminate]].
  destruct (FundEscrow.funds_released escrow);
    [eexists; split; [reflexivity | intros v [= <-]; done] |].
  destruct (negb (truthy (Campaign.smart_contract_address c)));
    eexists; (split; [reflexivity | discriminate]).
Qed.

(** The body of [blockchain.tasks.release_campaign_funds]: the ABI of the
    factory has no [releaseFunds], so the body leaves the world as it is and
    returns only 'Already released'. *)
Lemma release_campaign_body_keeps_world pk w :
  exists r,
    release_campaign_funds_body w3 settings from_key is_successful pk w = (r, w)
    /\ (forall v, r = Ok v ->
        v = RDict false [("message", "Already released")]
        /\ Campaign.status <$> campaigns (db w) !! pk = Some "successful").
Proof.
  unfold release_campaign_funds_body.
  unfold bind at 1. unfold objects_get at 1.
  destruct (campaigns (db w) !! pk) as [c |];
    [| eexists; split; [reflexivity | discriminate]].
  destruct (String.eqb_spec (Campaign.status c) "successful") as [Hs | Hs].
  - unfold ret. eexists; split; [reflexivity |].
    intros v [= <-]. simpl. rewrite Hs. done.
  - unfold bind at 1.
    destruct (release_funds_fails (Campaign.smart_contract_address c) w)
      as [e ->].
    eexists; split; [reflexivity | discriminate].
Qed.

(** *** The refund task *)

(** One turn of the refund loop counts nothing and leaves the world as it
    is: the service raises, and the loop catches it. *)
Lemma refund_investment_skips escrow_id campaign kv w :
  refund_investment w3 settings from_key escrow_id campaign kv w = (Ok false, w).
Proof.
  destruct kv as [investment_id investment].
  unfold refund_investment, try_except.
  unfold bind at 1. unfold objects_get at 1.
  destruct (users (db w) !! Investment.user investment) as [u |];
    [| reflexivity].
  unfold bind at 1.
  destruct (process_investor_refund_fails
              (Campaign.smart_contract_address campaign)
              (User.wallet_address u) w) as [e ->].
  reflexivity.
Qed.

Lemma refund_investments_skips escrow_id campaign rows refund_count w :
  refund_investments w3 settings from_key escrow_id campaign rows refund_count w
  = (Ok refund_count, w).
Proof.
  revert refund_count.
  induction rows as [| kv rows IH]; intros refund_count; [reflexivity |].
  simpl. unfold bind. rewrite refund_investment_skips. apply IH.
Qed.

(** The three ways the body of [escrow.tasks.process_campaign_refunds] can
    end: it raises and the store is as before; it finds the refund
    completed; or, for a refund that was initiated before, it marks the
    escrow refunded with a count of zero. *)
Lemma refunds_body_cases pk w r w' :
  process_campaign_refunds_body w3 settings from_key pk w = (r, w') ->
  (is_ok r = false /\ db w' = db w /\ sent w' = sent w)
  \/ (exists escrow,
        escrows (db w) !! pk = Some escrow
        /\ FundEscrow.refund_completed escrow = true
        /\ r = Ok RNone
        /\ w' = w)
  \/ (exists escrow campaign,
        escrows (db w) !! pk = Some escrow
        /\ campaigns (db w) !! FundEscrow.campaign escrow = Some campaign
        /\ FundEscrow.refund_completed escrow = false
        /\ FundEscrow.refund_initiated escrow = true
        /\ r = Ok (RRefunds pk 0)
        /\ sent w' = sent w
        /\ db w'
           = set_escrows
               (<[pk := FundEscrow.set_status "refunded"
                          (FundEscrow.set_refunded_at (Some (now w))
                             (FundEscrow.set_refund_completed true escrow))]>
                  (escrows (db w)))
               (db w)).
Proof.
  unfold process_campaign_refunds_body.
  unfold bind at 1. unfold objects_get at 1.
  destruct (escrows (db w) !! pk) as [escrow |] eqn:He.
  2: { intros [= <- <-]. left. done. }
  unfold bind at 1. unfold objects_get at 1.
  destruct (campaigns (db w) !! FundEscrow.campaign escrow) as [c |] eqn:Hc.
  2: { intros [= <- <-]. left. done. }
  destruct (FundEscrow.refund_completed escrow) eqn:Hdone.
  1: { intros [= <- <-]. right; left. exists escrow. done. }
  destruct (negb (truthy (Campaign.smart_contract_address c))).
  1: { intros [= <- <-]. left. done. }
  destruct (FundEscrow.refund_initiated escrow) eqn:Hinit; cbn [negb].
  - unfold bind at 1. unfold ret at 1.
    unfold bind at 1. unfold get_world at 1.
    unfold bind at 1. rewrite refund_investments_skips.
    unfold bind at 1. unfold timezone_now at 1.
    unfold bind at 1. unfold save, bind, db_write, ret.
    destruct (faults w) as [[| n] |]; simpl.
    1: { intros [= <- <-]. left. done. }
    all: intros [= <- <-]; right; right; exists escrow, c; done.
  - unfold bind at 1. unfold bind at 1.
    destruct (initiate_refund_fails (Campaign.smart_contract_address c) w)
      as [e ->].
    intros [= <- <-]. left. done.
Qed.

End Effects.

(** ** The write-back of the whole family *)

Section WriteBack.

Context (w3 : Web3) (settings : Settings) (from_key : string -> string)
        (is_successful : Campaign.t -> bool).

Local Abbreviation run_task := (run_task w3 settings from_key is_successful).
Local Abbreviation body_of := (body_of w3 settings from_key is_successful).



(** The investment rows and the aggregates of the campaign rows are the
    same in both stores. *)
Local Abbreviation same_aggregates := (fun s s' : Store =>
  investments s' = investments s
  /\ forall campaign_id,
       aggregates <$> campaigns s' !! campaign_id
       = aggregates <$> campaigns s !! campaign_id).


End WriteBack.

(** ** The deployment tasks and the campaign dates *)

Section DeployProperties.

Context (w3 : Web3) (settings : Settings) (from_key : string -> string)
        (is_successful : Campaign.t -> bool).

(** Whatever the node answers and whatever happens to the task,
    [campaigns_module.tasks.deploy_campaign_to_blockchain] leaves the
    [end_date] of every campaign as it was. *)
Lemma campaigns_deploy_keeps_end_date self pk w campaign_id :
  Campaign.end_date
    <$> campaigns (db (snd (campaigns_deploy_campaign_to_blockchain
                              w3 settings from_key is_successful self pk w)))
          !! campaign_id
  = Campaign.end_date <$> campaigns (db w) !! campaign_id.
Proof.
  unfold campaigns_deploy_campaign_to_blockchain, try_except.
  destruct (campaigns_deploy_campaign_to_blockchain_body w3 settings from_key
              is_successful pk w) as [r w1] eqn:Hbody.
  apply campaigns_deploy_body_cases in Hbody.
  destruct Hbody as [[Hr Hdb]
                    | [(c & _ & _ & -> & ->)
                      | (c & result & addr & Hc & _ & _ & -> & Hdb)]].
  - destruct r as [v | e]; [discriminate |].
    destruct (retry_keeps_world (A:=TaskReturn) self 3 e 60 w1) as (Hdb' & _).
    rewrite Hdb', Hdb. reflexivity.
  - reflexivity.
  - simpl. rewrite Hdb. simpl.
    destruct (decide (pk = campaign_id)) as [<- | Hne].
    + rewrite lookup_insert_eq, Hc. reflexivity.
    + rewrite lookup_insert_ne by exact Hne. reflexivity.
Qed.

(** [blockchain.tasks.deploy_campaign_to_blockchain] leaves both dates of
    every campaign as they were. *)
Lemma deploy_keeps_dates self pk w campaign_id :
  (fun c => (Campaign.start_date c, Campaign.end_date c))
    <$> campaigns (db (snd (deploy_campaign_to_blockchain
                              w3 settings from_key is_successful self pk w)))
          !! campaign_id
  = (fun c => (Campaign.start_date c, Campaign.end_date c))
      <$> campaigns (db w) !! campaign_id.
Proof.
  unfold deploy_campaign_to_blockchain, try_except.
  destruct (deploy_campaign_to_blockchain_body w3 settings from_key
              is_successful pk w) as [r w1] eqn:Hbody.
  apply deploy_body_cases in Hbody.
  destruct Hbody as [[Hr Hdb]
                    | [(c & _ & _ & -> & ->)
                      | (c & result & addr & Hc & _ & _ & -> & Hdb)]].
  - destruct r as [v | e]; [discriminate |].
    destruct (handlers_keep_world (A:=TaskReturn) self "Campaign" e w1)
      as (Hdb' & _).
    rewrite Hdb', Hdb. reflexivity.
  - reflexivity.
  - simpl. rewrite Hdb. simpl.
    destruct (decide (pk = campaign_id)) as [<- | Hne].
    + rewrite lookup_insert_eq, Hc. reflexivity.
    + rewrite lookup_insert_ne by exact Hne. reflexivity.
Qed.

End DeployProperties.

(** ** Runs on explicit inputs *)

Section Runs.

Import Demo.

Local Abbreviation run := (run node settings from_key is_successful).
Local Abbreviation run_task := (run_task node settings from_key is_successful).
Local Abbreviation record_all :=
  (record_all node settings from_key is_successful).
Local Abbreviation run_schedule := (run_schedule node settings from_key).

Lemma store0_foreign_keys_ok : foreign_keys_ok store0.
Proof. apply (bool_decide_eq_true_1 _). vm_compute. reflexivity. Qed.

(** C1 at an input: the recorded investment "i0" is skipped with
    [success = True] by the task of investments/tasks.py. *)
Lemma guarded_task_on_mirrored_entity_is_noop_witness :
  run InvestmentsRecordInvestment
    (request "investments.tasks.record_investment_on_blockchain" "i0")
    "i0" (world0 store0)
  = (Ok (RDict true [("already_recorded", "True"); ("tx_hash", "0xold")]),
     world0 store0).
Proof.
  refine (proj1 (guarded_task_on_mirrored_entity_is_noop node settings from_key
                   is_successful InvestmentsRecordInvestment
                   (request "investments.tasks.record_investment_on_blockchain" "i0")
                   "i0" (world0 store0) _ _ _)).
  - discriminate.
  - apply (bool_decide_eq_true_1 _). vm_compute. reflexivity.
  - vm_compute. reflexivity.
Defined.

(** C1 fails as stated: the campaign "c2" is deployed already, and
    [blockchain.tasks.deploy_campaign_to_blockchain] answers
    [{'success': False, 'message': 'Already deployed'}], which does not
    report success. *)
Lemma already_deployed_campaign_reports_failure :
  let w := world0 store0 in
  let outcome :=
    run DeployCampaign
      (request "blockchain.tasks.deploy_campaign_to_blockchain" "c2") "c2" w in
  already_mirrored DeployCampaign (db w) "c2" = true
  /\ outcome = (Ok (RDict false [("message", "Already deployed")]), w)
  /\ ~ (exists r, fst outcome = Ok r /\ success_entry r = Some true).
Proof.
  split; [vm_compute; reflexivity |]. split; [vm_compute; reflexivity |].
  intros (r & Hr & Hs). vm_compute in Hr. injection Hr as <-. discriminate.
Qed.

(** The task that registers issuers has no guard: the company "co3" is
    registered already, and running the task sends a second transaction and
    overwrites the recorded hash. *)
Lemma registered_issuer_is_registered_again :
  let w := world0 store0 in
  let w' :=
    snd (run RegisterIssuer
           (request "blockchain.tasks.register_issuer_on_blockchain" "co3")
           "co3" w) in
  already_mirrored RegisterIssuer (db w) "co3" = true
  /\ length (sent w') = 1%nat
  /\ (Company.blockchain_tx_hash <$> companies (db w) !! "co3") = Some (Some "0xold")
  /\ (Company.blockchain_tx_hash <$> companies (db w') !! "co3")
     = Some (Some "0xdeadbeef").
Proof. repeat split; vm_compute; reflexivity. Qed.

(** C2 at an input: the investment "nope" does not exist, and the task of
    investments/tasks.py asks for a retry in 60 seconds. *)
Lemma task_failure_is_retried_unless_entity_missing_witness :
  let self := request "investments.tasks.record_investment_on_blockchain" "nope" in
  let w := world0 store0 in
  run_task (Mirror InvestmentsRecordInvestment) self "nope" w
  = (Raise (Retry (DoesNotExist "Investment") 60),
     set_queue [mkQueued "investments.tasks.record_investment_on_blockchain"
                  "nope" 60 1] w).
Proof.
  exact (proj1 (task_failure_is_retried_unless_entity_missing node settings
                  from_key is_successful)
           (Mirror InvestmentsRecordInvestment)
           (request "investments.tasks.record_investment_on_blockchain" "nope")
           "nope" (world0 store0) (world0 store0) (DoesNotExist "Investment")
           eq_refl).
Defined.

(** C2 fails as stated: the user of company "co2" has no wallet address, a
    precondition violation, and [register_issuer_on_blockchain] does not
    raise it at once but asks for a retry in 60 seconds. *)
Lemma missing_wallet_address_is_retried :
  let self := request "blockchain.tasks.register_issuer_on_blockchain" "co2" in
  let w := world0 store0 in
  (exists company user,
      companies (db w) !! "co2" = Some company
      /\ users (db w) !! Company.user company = Some user
      /\ User.wallet_address user = None)
  /\ run_task (Mirror RegisterIssuer) self "co2" w
     = (Raise (Retry (ValueError "Company co2 has no wallet address") 60),
        set_queue [mkQueued "blockchain.tasks.register_issuer_on_blockchain"
                     "co2" 60 1] w).
Proof.
  split.
  - eexists _, _. repeat split; vm_compute; reflexivity.
  - vm_compute. reflexivity.
Qed.


(** C4 fails on the code.  The campaign "c2" is deployed and has three
    confirmed investments, two of them by the same investor; their
    investment tasks run second, first, third.  Every run stops in
    [InvestmentBlockchainService.record_investment] at
    [self.client._get_abi], which [PolygonEdgeClient] does not define, and
    asks for a retry: nothing is broadcast, no row changes, and the
    campaign's [current_funding] and [investor_count] stay 0 where the sum
    of the amounts is 8300000 (in hundredths) and the investors are 2. *)
Theorem investments_are_never_recorded :
  let ids := ["i2"; "i1"; "i3"] in
  let w := world0 store0 in
  let outcome := record_all ids w in
  let missing :=
    AttributeError "'PolygonEdgeClient' object has no attribute '_get_abi'" in
  Forall (fun pk =>
            (fun i => (Investment.campaign i, Investment.status i,
                       Investment.blockchain_tx_hash i))
              <$> investments store0 !! pk
            = Some ("c2", "confirmed", None)) ids
  /\ Campaign.smart_contract_address <$> campaigns store0 !! "c2"
     = Some (Some campaign2_address)
  /\ fst outcome = [Raise (Retry missing 60); Raise (Retry missing 60);
                    Raise (Retry missing 60)]
  /\ sent (snd outcome) = []
  /\ db (snd outcome) = store0
  /\ aggregates <$> campaigns (db (snd outcome)) !! "c2" = Some (0, 0)
  /\ sum_amounts store0 ids = 8300000
  /\ distinct_investors store0 ids = 2.
Proof.
  split; [repeat constructor |].
  repeat split; vm_compute; reflexivity.
Qed.

(** C6 at an input: two calls, one after the other, on a fresh node. *)
Lemma sequential_calls_use_sequential_nonces_witness :
  nonce_of <$> fst (run_schedule (sequential 2) (NotStarted <$> [call; call])
                      (world0 store0)) !! 1%nat
  = Some (Some (0 + Z.of_nat 0 + Z.of_nat 1)).
Proof.
  refine (proj2 (sequential_calls_use_sequential_nonces node settings from_key 0
                   _ _ _ _ [call; call] (world0 store0)) 1%nat _).
  - intros; reflexivity.
  - intros; reflexivity.
  - intros history tx H. simpl. rewrite H. rewrite Z.eqb_refl. reflexivity.
  - vm_compute. eexists. reflexivity.
  - simpl. lia.
Defined.

(** C6 fails as stated: two callers that both build their transaction
    before either broadcasts put the same nonce into it; the node refuses
    the second transaction. *)
Lemma interleaved_calls_share_a_nonce :
  let callers :=
    fst (run_schedule [0; 1; 0; 1]%nat [NotStarted call; NotStarted call]
           (world0 store0)) in
  all_returned callers = true
  /\ nonce_of <$> callers = [Some 0; Some 0]
  /\ exists tx0 tx1 r,
       callers = [Returned tx0 (Ok r);
                  Returned tx1 (Raise (ValueError "nonce too low"))].
Proof.
  split; [vm_compute; reflexivity |]. split; [vm_compute; reflexivity |].
  vm_compute. eexists _, _, _. reflexivity.
Qed.

(** C7 fails on the code.  On a node that does not mine the transaction
    within the 120 seconds, web3's [wait_for_transaction_receipt] raises
    [web3.exceptions.TimeExhausted], which is not a [TimeoutError]; the
    handler [except TimeoutError] of [send_transaction] does not catch it,
    and the call fails with [TimeExhausted] instead of the
    [BlockchainTimeout] of its docstring, its transaction being sent. *)
Theorem unmined_transaction_raises_time_exhausted :
  let w := world0 store0 in
  let outcome :=
    send_transaction silent_node settings from_key call None 0 None w in
  (exists tx,
      sent (snd outcome) = [tx]
      /\ send_raw_transaction silent_node (sent w) tx = Ok "0xdeadbeef"
      /\ wait_for_transaction_receipt silent_node (sent (snd outcome))
           "0xdeadbeef" 120 = Raise TimeExhausted)
  /\ fst outcome = Raise TimeExhausted
  /\ fst outcome <> Raise (BlockchainTimeout "Transaction timeout: 0xdeadbeef").
Proof.
  split; [| split].
  - eexists. repeat split; vm_compute; reflexivity.
  - vm_compute. reflexivity.
  - vm_compute. discriminate.
Qed.

(** C9 at an input: the approved campaign "c1", with a duration of 30 days,
    is deployed at time 1000.  The write-back of
    [campaigns_module.tasks.deploy_campaign_to_blockchain] makes it active
    and sets [start_date] to 1000 but leaves [end_date] unset, where the
    transition is specified to set it to 1000 + 30 days; the write-back of
    [blockchain.tasks.deploy_campaign_to_blockchain] sets neither date.  The
    administrator's [activate] action on the same campaign sets both. *)
Theorem deploy_write_back_leaves_end_date_unset :
  let w := world0 store0 in
  let summary (c : Campaign.t) :=
    (Campaign.status c, Campaign.duration c,
     Campaign.start_date c, Campaign.end_date c) in
  let dates (w' : World) := summary <$> campaigns (db w') !! "c1" in
  dates w = Some ("approved", 30, None, None)
  /\ summary <$> activate 1000 campaign1
     = Some ("active", 30, Some 1000, Some (1000 + 30 * 86400))
  /\ dates (snd (run CampaignsDeployCampaign
                   (request "campaigns_module.tasks.deploy_campaign_to_blockchain" "c1")
                   "c1" w))
     = Some ("active", 30, Some 1000, None)
  /\ dates (snd (run DeployCampaign
                   (request "blockchain.tasks.deploy_campaign_to_blockchain" "c1")
                   "c1" w))
     = Some ("active", 30, None, None).
Proof. repeat split; vm_compute; reflexivity. Qed.

End Runs.

(** ** More on the ledger client and the services *)

Section LedgerFurther.

Context (w3 : Web3) (settings : Settings) (from_key : string -> string).

Local Abbreviation client := (client settings from_key).
Local Abbreviation build_transaction := (build_transaction w3 settings from_key).
Local Abbreviation broadcast := (broadcast w3 settings from_key).
Local Abbreviation release_funds := (release_funds w3 settings from_key).
Local Abbreviation send_transaction := (send_transaction w3 settings from_key).
Local Abbreviation get_contract_instance :=
  (get_contract_instance settings from_key).
Local Abbreviation parse_event_log := (parse_event_log w3 settings from_key).
Local Abbreviation _parse_campaign_created_event :=
  (_parse_campaign_created_event w3 settings from_key).
Local Abbreviation create_campaign := (create_campaign w3 settings from_key).
Local Abbreviation record_investment := (record_investment w3 settings from_key).

(** The gas price the code puts into a transaction when the node suggests
    [g]. *)
Lemma build_transaction_fields :
  forall cf fa v gl w tx,
    fst (build_transaction cf fa v gl w) = Ok tx ->
    tx_call tx = cf
    /\ tx_value tx = v
    /\ tx_chainId tx = CHAIN_ID settings
    /\ tx_gas tx = match gl with
                   | Some g => if Z.eqb g 0 then GAS_LIMIT settings else g
                   | None => GAS_LIMIT settings
                   end
    /\ exists g,
         gas_price w3 (sent w) = Ok g
         /\ tx_gasPrice tx = match GAS_PRICE settings with
                             | Some c => if Z.eqb c 0 then g else Z.max g c
                             | None => g
                             end
         /\ get_transaction_count w3 (sent w) (tx_from tx) = Ok (tx_nonce tx).
Proof.
  intros cf fa v gl w tx. unfold build_transaction, bind, get_world, lift, ret.
  destruct (gas_price w3 (sent w)) as [g | ?] eqn:Eg; simpl; [| discriminate].
  match goal with
  | |- context [get_transaction_count w3 (sent w) ?a] =>
      destruct (get_transaction_count w3 (sent w) a) as [n | ?] eqn:En
  end; simpl; [| discriminate].
  intros [= <-]. simpl. repeat split. exists g. repeat split. exact En.
Qed.

(** How a call of [send_transaction] can end: without a broadcast and with
    an exception, or with exactly one transaction broadcast. *)
Lemma send_transaction_cases :
  forall cf fa v gl w,
    let outcome := send_transaction cf fa v gl w in
    (is_ok (fst outcome) = false /\ snd outcome = w)
    \/ (exists tx h,
          fst (build_transaction cf fa v gl w) = Ok tx
          /\ send_raw_transaction w3 (sent w) tx = Ok h
          /\ snd outcome = set_sent (sent w ++ [tx]) w
          /\ forall result, fst outcome = Ok result -> txHash result = h).
Proof.
  intros cf fa v gl w outcome. subst outcome.
  destruct (send_transaction cf fa v gl w) as [r w'] eqn:E. simpl.
  unfold send_transaction in E.
  destruct (account client); [| injection E as <- <-; left; split; reflexivity].
  unfold bind at 1 in E.
  pose proof (build_transaction_world w3 settings from_key cf fa v gl w) as Hw.
  destruct (build_transaction cf fa v gl w) as [[tx | e] w1]; simpl in Hw; subst w1;
    [| injection E as <- <-; left; split; reflexivity].
  unfold broadcast, bind, get_world, lift, ret, raise in E.
  unfold sign_transaction in E.
  destruct (String.eqb (tx_from tx) _); simpl in E;
    [| injection E as <- <-; left; split; reflexivity].
  destruct (send_raw_transaction w3 (sent w) tx) as [h | e] eqn:Es; simpl in E;
    [| injection E as <- <-; left; split; reflexivity].
  right. exists tx, h. split; [reflexivity |]. split; [exact Es |].
  destruct (wait_for_transaction_receipt w3 (sent w ++ [tx])%list h 120)
    as [rc | e];
    [destruct (Z.eqb (r_status rc) 0) | destruct e]; simpl in E;
    injection E as <- <-; (split; [reflexivity |]);
    intros result [=]; subst; reflexivity.
Qed.

(** X1: a call of [send_transaction] never touches the store, the queue or
    the clock, and broadcasts at most one transaction.  A call that returns
    has broadcast exactly one, which carries the contract call and the value
    it was given; a call without a configured key broadcasts nothing. *)
Theorem send_transaction_broadcasts_at_most_once :
  forall cf fa v gl w,
    let outcome := send_transaction cf fa v gl w in
    only_sent w (snd outcome)
    /\ (sent (snd outcome) = sent w
        \/ exists tx, sent (snd outcome) = (sent w ++ [tx])%list)
    /\ (is_ok (fst outcome) = true ->
        exists tx, sent (snd outcome) = (sent w ++ [tx])%list
                   /\ tx_call tx = cf /\ tx_value tx = v)
    /\ (account client = None -> sent (snd outcome) = sent w).
Proof.
  intros cf fa v gl w outcome.
  pose proof (send_transaction_cases cf fa v gl w) as H. fold outcome in H.
  assert (Hno : account client = None -> snd outcome = w).
  { intros Hacct. subst outcome. unfold send_transaction. rewrite Hacct.
    reflexivity. }
  destruct H as [[Hr Hw] | (tx & h & Hb & Hs & Hw & _)].
  - rewrite Hw. repeat split; auto. congruence.
  - rewrite Hw. simpl. repeat split.
    + right. exists tx. reflexivity.
    + intros _. exists tx. split; [reflexivity |].
      destruct (build_transaction_fields cf fa v gl w tx Hb) as (Hc & Hv & _).
      split; assumption.
    + intros Hacct. rewrite (Hno Hacct) in Hw.
      apply (f_equal sent) in Hw. simpl in Hw. symmetry. exact Hw.
Qed.

(** X2: the transaction that [send_transaction] broadcasts is priced at no
    less than the node's suggestion and, when a non-zero price is
    configured, at no less than that: it is the larger of the two.  Its gas
    limit is the caller's when that is given and not zero and the configured
    one otherwise, its chain id is the configured one, and its nonce is the
    node's transaction count of the sender. *)
Theorem broadcast_transaction_honours_gas_settings :
  forall cf fa v gl w tx,
    sent (snd (send_transaction cf fa v gl w)) = (sent w ++ [tx])%list ->
    exists g,
      gas_price w3 (sent w) = Ok g
      /\ g <= tx_gasPrice tx
      /\ (forall c, GAS_PRICE settings = Some c -> c <> 0 ->
            c <= tx_gasPrice tx /\ tx_gasPrice tx = Z.max g c)
      /\ (GAS_PRICE settings = None -> tx_gasPrice tx = g)
      /\ tx_gas tx = match gl with
                     | Some l => if Z.eqb l 0 then GAS_LIMIT settings else l
                     | None => GAS_LIMIT settings
                     end
      /\ tx_chainId tx = CHAIN_ID settings
      /\ get_transaction_count w3 (sent w) (tx_from tx) = Ok (tx_nonce tx).
Proof.
  intros cf fa v gl w tx Hsent.
  destruct (send_transaction_cases cf fa v gl w)
    as [[_ Hw] | (tx0 & h & Hb & _ & Hw & _)]; rewrite Hw in Hsent.
  - apply (f_equal length) in Hsent. rewrite length_app in Hsent.
    simpl in Hsent. lia.
  - simpl in Hsent. apply app_inj_tail in Hsent as [_ ->].
    destruct (build_transaction_fields cf fa v gl w tx Hb)
      as (_ & _ & Hchain & Hgas & g & Hg & Hprice & Hnonce).
    exists g. split; [exact Hg |]. rewrite Hprice.
    split; [| split; [| split; [| repeat split; assumption]]].
    + destruct (GAS_PRICE settings) as [c |]; [| lia].
      destruct (Z.eqb c 0); lia.
    + intros c Hcfg Hc. rewrite Hcfg. apply Z.eqb_neq in Hc. rewrite Hc.
      split; lia.
    + intros ->. reflexivity.
Qed.

(** The four contracts with a configured address. *)
Lemma contracts_get_configured :
  forall name,
    truthy (contracts_get name (contracts client)) = true ->
    str_in name ["issuer_registry"; "campaign_factory"; "fund_escrow";
                 "nft_certificate"] = true.
Proof.
  intros name. unfold str_in, client.
  cbn [contracts contracts_get existsb].
  rewrite !(String.eqb_sym name).
  destruct (String.eqb "issuer_registry" name); [reflexivity |].
  destruct (String.eqb "campaign_factory" name); [reflexivity |].
  destruct (String.eqb "fund_escrow" name); [reflexivity |].
  destruct (String.eqb "nft_certificate" name); [reflexivity |].
  cbn [truthy]. intros H. discriminate H.
Qed.

(** X3: [parse_event_log] resolves the contract without an address, so it
    can only ever decode a log for one of the four contracts that have a
    configured address, and only when that address is set; for every other
    name, 'campaign_implementation' included, it answers [None] whatever
    the log.  When it answers an event, that is what the ABI decoder made
    of the log. *)
Theorem parse_event_log_needs_configured_contract :
  forall contract_name event_name log event,
    parse_event_log contract_name event_name log = Some event ->
    str_in contract_name ["issuer_registry"; "campaign_factory"; "fund_escrow";
                          "nft_certificate"] = true
    /\ truthy (contracts_get contract_name (contracts client)) = true
    /\ process_log w3 contract_name event_name log = Ok event.
Proof.
  intros name ev log event. unfold parse_event_log, get_contract_instance.
  cbn [truthy].
  destruct (truthy (contracts_get name (contracts client))) eqn:Haddr;
    cbn [negb]; [| discriminate].
  unfold get_abi. destruct (str_in name _); [| discriminate]. cbn [c_abi].
  destruct (process_log w3 name ev log) as [e |]; [| discriminate].
  intros [= ->]. split; [| split; reflexivity].
  apply contracts_get_configured. exact Haddr.
Qed.

Lemma factory_instance :
  forall c,
    get_contract_instance "campaign_factory" None = Ok c ->
    c = mkContract "campaign_factory" (default "" (CAMPAIGN_FACTORY settings))
    /\ truthy (CAMPAIGN_FACTORY settings) = true.
Proof.
  intros c. unfold get_contract_instance. cbn [truthy].
  change (contracts_get "campaign_factory" (contracts client))
    with (CAMPAIGN_FACTORY settings).
  destruct (truthy (CAMPAIGN_FACTORY settings)); cbn [negb]; [| discriminate].
  simpl. intros [= <-]. split; reflexivity.
Qed.

Lemma factory_instance_configured :
  truthy (CAMPAIGN_FACTORY settings) = true ->
  get_contract_instance "campaign_factory" None
  = Ok (mkContract "campaign_factory" (default "" (CAMPAIGN_FACTORY settings))).
Proof.
  intros H. unfold get_contract_instance. cbn [truthy].
  change (contracts_get "campaign_factory" (contracts client))
    with (CAMPAIGN_FACTORY settings).
  rewrite H. reflexivity.
Qed.

(** X4: [_parse_campaign_created_event] answers the address of the first
    log of the receipt that decodes as CampaignCreated with a
    [campaignAddress] argument: the logs before it that do not are passed
    over, and the logs after it are not looked at. *)
Theorem parse_campaign_created_event_first_match :
  forall receipt skipped log rest event address,
    truthy (CAMPAIGN_FACTORY settings) = true ->
    default [] (r_logs receipt) = (skipped ++ log :: rest)%list ->
    Forall (fun l =>
              match process_log w3 "campaign_factory" "CampaignCreated" l with
              | Ok e => dict_get "campaignAddress" (ev_args e) = None
              | Raise _ => True
              end) skipped ->
    process_log w3 "campaign_factory" "CampaignCreated" log = Ok event ->
    dict_get "campaignAddress" (ev_args event) = Some address ->
    _parse_campaign_created_event receipt = Ok address.
Proof.
  intros receipt skipped log rest event address Hcfg Hlogs Hskip Hlog Harg.
  unfold _parse_campaign_created_event.
  rewrite (factory_instance_configured Hcfg). cbn [c_abi].
  rewrite Hlogs, scan_campaign_created_skips by exact Hskip.
  simpl. rewrite Hlog, Harg. reflexivity.
Qed.

(** X5: when [create_campaign] returns, it has broadcast exactly one
    transaction, a value-free call of [createCampaign] on the configured
    factory with the goal converted to wei and the duration to seconds, and
    the result carries the hash of that transaction and a campaign address
    taken from a decoded event. *)
Theorem create_campaign_success :
  forall campaign_id company_name description funding_goal duration_days
         document_hash w result w',
    create_campaign campaign_id company_name description funding_goal
      duration_days document_hash w = (Ok result, w') ->
    exists tx address,
      w' = set_sent (sent w ++ [tx]) w
      /\ tx_value tx = 0
      /\ tx_call tx
         = mkCall "campaign_factory" (default "" (CAMPAIGN_FACTORY settings))
             "createCampaign"
             [AStr campaign_id; AStr company_name; AStr description;
              AInt (funding_goal * 10 ^ 16); AInt (duration_days * 86400);
              AStr document_hash]
      /\ send_raw_transaction w3 (sent w) tx = Ok (txHash result)
      /\ campaignAddress result = Some address.
Proof.
  intros cid name desc goal days doc w result w'.
  unfold create_campaign. unfold bind at 1. unfold lift at 1.
  destruct (get_contract_instance "campaign_factory" None) as [c |] eqn:Hc;
    [| discriminate].
  apply factory_instance in Hc as [-> _].
  unfold bind at 1. unfold lift at 1.
  destruct (to_wei goal) as [wei |] eqn:Hwei; [| discriminate].
  apply to_wei_ok in Hwei. subst wei.
  unfold bind at 1. unfold lift at 1.
  destruct (functions w3 _ _ _) as [cf |] eqn:Hcf; [| discriminate].
  apply functions_ok in Hcf. subst cf.
  unfold bind at 1.
  match goal with
  | |- context [send_transaction ?cf None 0 None w] =>
      pose proof (send_transaction_cases cf None 0 None w) as Hcases;
      destruct (send_transaction cf None 0 None w) as [[r1 | ?] w1] eqn:Hsend
  end; [| discriminate].
  simpl in Hcases.
  destruct Hcases as [[Hr _] | (tx & h & Hb & Hs & Hw & Hh)]; [discriminate |].
  subst w1. specialize (Hh r1 eq_refl). subst h.
  unfold bind at 1. unfold get_world at 1.
  unfold bind at 1. unfold lift at 1.
  destruct (get_transaction_receipt w3 _ _) as [rc |]; [| discriminate].
  unfold bind at 1. unfold lift at 1.
  destruct (_parse_campaign_created_event rc) as [a |]; [| discriminate].
  unfold ret. intros [= <- <-].
  destruct (build_transaction_fields _ _ _ _ _ _ Hb) as (Hcall & Hval & _).
  exists tx, a. split; [reflexivity |]. split; [exact Hval |].
  split; [| split; [exact Hs | reflexivity]].
  rewrite Hcall. cbn [c_abi c_address].
  replace (days * 24 * 60 * 60) with (days * 86400) by lia. reflexivity.
Qed.


End LedgerFurther.

(** ** More on the mirror tasks *)

Section TaskFurther.

Context (w3 : Web3) (settings : Settings) (from_key : string -> string)
        (is_successful : Campaign.t -> bool).

Local Abbreviation run := (run w3 settings from_key is_successful).
Local Abbreviation register_task :=
  (register_issuer_on_blockchain w3 settings from_key).
Local Abbreviation record_task :=
  (investments_record_investment_on_blockchain w3 settings from_key
     is_successful).
Local Abbreviation release_task :=
  (release_funds_to_issuer w3 settings from_key is_successful).

(** X7: [blockchain.tasks.record_investment_on_blockchain] and
    [blockchain.tasks.mint_nft_certificate] call their service with a
    keyword it does not accept.  Whatever the store and the node, a run of
    either task broadcasts nothing and writes nothing, and it can only
    return when its guard finds the entity mirrored already. *)
Theorem keyword_mismatch_tasks_never_mirror :
  forall (self : Request) (pk : string) (w : World),
    let recorded := record_investment_on_blockchain self pk w in
    let minted := mint_nft_certificate self pk w in
    (db (snd recorded) = db w /\ sent (snd recorded) = sent w
     /\ (is_ok (fst recorded) = true ->
         already_mirrored RecordInvestment (db w) pk = true))
    /\ (db (snd minted) = db w /\ sent (snd minted) = sent w
        /\ (is_ok (fst minted) = true ->
            already_mirrored MintCertificate (db w) pk = true)).
Proof.
  intros self pk w recorded minted. subst recorded minted. split.
  - unfold record_investment_on_blockchain, try_except.
    destruct (record_body_keeps_world pk w) as (r & -> & Hok).
    destruct r as [v | e]; [simpl; auto |].
    destruct (handlers_keep_world (A:=TaskReturn) self "Investment" e w)
      as (Hd & Hs & _ & _ & Hfail).
    rewrite Hfail. split; [exact Hd |]. split; [exact Hs | discriminate].
  - unfold mint_nft_certificate, try_except.
    destruct (mint_body_keeps_world pk w) as (r & -> & Hok).
    destruct r as [v | e]; [simpl; auto |].
    destruct (handlers_keep_world (A:=TaskReturn) self "Investment" e w)
      as (Hd & Hs & _ & _ & Hfail).
    rewrite Hfail. split; [exact Hd |]. split; [exact Hs | discriminate].
Qed.

(** X8: [register_issuer_on_blockchain] writes back all or nothing.  A run
    that fails leaves the store as it was.  A run that returns has stored,
    on the company and on no other row, the registered flag, the hash of the
    transaction, the time and the wallet address of the company's user.  In
    either case every company row that carried hash and time whenever it
    was registered still does. *)
Theorem register_issuer_write_back :
  forall (self : Request) (pk : string) (w : World),
    let outcome := register_task self pk w in
    (is_ok (fst outcome) = false -> db (snd outcome) = db w)
    /\ (forall result, fst outcome = Ok (RResult result) ->
        exists company user,
          companies (db w) !! pk = Some company
          /\ users (db w) !! Company.user company = Some user
          /\ companies (db (snd outcome)) !! pk
             = Some (Company.set_blockchain_address (User.wallet_address user)
                       (Company.set_registered_on_blockchain true
                          (Company.set_blockchain_tx_hash (Some (txHash result))
                             (Company.set_blockchain_registered_at
                                (Some (now w)) company))))
          /\ truthy (User.wallet_address user) = true
          /\ (forall other, other <> pk ->
                companies (db (snd outcome)) !! other = companies (db w) !! other)
          /\ campaigns (db (snd outcome)) = campaigns (db w)
          /\ investments (db (snd outcome)) = investments (db w))
    /\ (map_Forall (fun _ => registration_recorded) (companies (db w)) ->
        map_Forall (fun _ => registration_recorded)
          (companies (db (snd outcome)))).
Proof.
  intros self pk w outcome. subst outcome.
  unfold register_issuer_on_blockchain, try_except.
  destruct (register_issuer_on_blockchain_body w3 settings from_key pk w)
    as [r w1] eqn:Hbody.
  apply register_body_cases in Hbody.
  destruct Hbody as [[Hr Hdb] | (co & u & result & Hco & Hu & Hwal & -> & Hdb)].
  - destruct r as [v | e]; [discriminate |].
    destruct (handlers_keep_world (A:=TaskReturn) self "Company" e w1)
      as (Hdb' & _ & _ & _ & Hfail).
    rewrite Hdb', Hdb. split; [reflexivity |]. split.
    + intros result Hres. rewrite Hres in Hfail. discriminate.
    + intros H. exact H.
  - simpl. rewrite Hdb. simpl. split; [discriminate |]. split.
    + intros result' [= <-]. exists co, u.
      split; [exact Hco |]. split; [exact Hu |].
      split; [apply lookup_insert_eq |]. split; [exact Hwal |].
      split; [| split; reflexivity].
      intros other Hne. apply lookup_insert_ne. congruence.
    + intros Hinv k row Hrow.
      destruct (decide (pk = k)) as [<- | Hne].
      * rewrite lookup_insert_eq in Hrow. injection Hrow as <-.
        intros _. simpl. split; eexists; reflexivity.
      * rewrite lookup_insert_ne in Hrow by exact Hne. exact (Hinv k row Hrow).
Qed.

Local Abbreviation deploy_task :=
  (deploy_campaign_to_blockchain w3 settings from_key is_successful).
Local Abbreviation campaigns_deploy_task :=
  (campaigns_deploy_campaign_to_blockchain w3 settings from_key is_successful).

(** X9: [blockchain.tasks.deploy_campaign_to_blockchain] looks only at the
    deployed flag of the campaign, never at its status.  A run that fails
    leaves the store as it was; a run that answers with a message has found
    the campaign deployed and changes nothing.  A run that returns the
    result of the chain call has found the campaign not deployed, whatever
    its status was, and has stored on that campaign, and on no other row,
    the status 'active', the deployed flag, the contract address of the
    result, the transaction hash and the time; the two dates are as
    before. *)
Theorem deploy_campaign_write_back :
  forall (self : Request) (pk : string) (w : World),
    let outcome := deploy_task self pk w in
    (is_ok (fst outcome) = false -> db (snd outcome) = db w)
    /\ (forall success entries, fst outcome = Ok (RDict success entries) ->
        snd outcome = w
        /\ success = false
        /\ Campaign.deployed_on_blockchain <$> campaigns (db w) !! pk = Some true)
    /\ (forall result, fst outcome = Ok (RResult result) ->
        exists campaign campaign' address,
          campaigns (db w) !! pk = Some campaign
          /\ Campaign.deployed_on_blockchain campaign = false
          /\ campaignAddress result = Some address
          /\ campaigns (db (snd outcome)) !! pk = Some campaign'
          /\ Campaign.status campaign' = "active"
          /\ Campaign.deployed_on_blockchain campaign' = true
          /\ Campaign.smart_contract_address campaign' = Some address
          /\ Campaign.deployment_tx_hash campaign' = Some (txHash result)
          /\ Campaign.blockchain_deployed_at campaign' = Some (now w)
          /\ Campaign.start_date campaign' = Campaign.start_date campaign
          /\ Campaign.end_date campaign' = Campaign.end_date campaign
          /\ Campaign.current_funding campaign' = Campaign.current_funding campaign
          /\ (forall other, other <> pk ->
                campaigns (db (snd outcome)) !! other = campaigns (db w) !! other)
          /\ companies (db (snd outcome)) = companies (db w)
          /\ investments (db (snd outcome)) = investments (db w)
          /\ escrows (db (snd outcome)) = escrows (db w)).
Proof.
  intros self pk w outcome. subst outcome.
  unfold deploy_campaign_to_blockchain, try_except.
  destruct (deploy_campaign_to_blockchain_body w3 settings from_key
              is_successful pk w) as [r w1] eqn:Hbody.
  apply deploy_body_cases in Hbody.
  destruct Hbody as [[Hr Hdb]
                    | [(c & Hc & Hdep & -> & ->)
                      | (c & result & addr & Hc & Hdep & Haddr & -> & Hdb)]].
  - destruct r as [v | e]; [discriminate |].
    destruct (handlers_keep_world (A:=TaskReturn) self "Campaign" e w1)
      as (Hdb' & _ & _ & _ & Hfail).
    rewrite Hdb', Hdb. split; [reflexivity |].
    split; [intros ? ? Hres | intros ? Hres]; rewrite Hres in Hfail;
      discriminate.
  - simpl. split; [discriminate |]. split.
    + intros success entries [= <- <-]. rewrite Hc. simpl. rewrite Hdep. done.
    + intros result [=].
  - simpl. rewrite Hdb. simpl. split; [discriminate |]. split.
    + intros success entries [=].
    + intros result' [= <-]. eexists c, _, addr.
      split; [exact Hc |]. split; [exact Hdep |]. split; [exact Haddr |].
      split; [apply lookup_insert_eq |].
      do 8 (split; [reflexivity |]).
      split; [| done].
      intros other Hne. apply lookup_insert_ne. congruence.
Qed.


(** X12: the two deployment tasks and the release task are not repeated.
    Once a run of one of them has returned, by its guard or after its
    write-back, the entity counts as mirrored, and a further run of the
    same task on the same key, as whatever request, returns from the guard
    and leaves the store, the node and the queue as they are. *)
Theorem returned_task_is_not_repeated :
  forall (t : MirrorTask) (self self' : Request) (pk : string) (w : World),
    t = DeployCampaign \/ t = CampaignsDeployCampaign \/ t = EscrowReleaseFunds ->
    let first := run t self pk w in
    is_ok (fst first) = true ->
    already_mirrored t (db (snd first)) pk = true
    /\ run t self' pk (snd first)
       = (Ok (guard_return t (db (snd first)) pk), snd first).
Proof.
  intros t self self' pk w [-> | [-> | ->]] first; subst first;
    cbn [run already_mirrored guard_return].
  - unfold deploy_campaign_to_blockchain, try_except.
    destruct (deploy_campaign_to_blockchain_body w3 settings from_key
                is_successful pk w) as [r w1] eqn:Hbody.
    pose proof (deploy_body_cases _ _ _ _ _ _ _ _ Hbody)
      as [[Hr Hdb]
         | [(c & Hc & Hdep & -> & ->)
           | (c & result & addr & Hc & Hdep & Haddr & -> & Hdb)]].
    + destruct r as [v | e]; [discriminate |].
      destruct (handlers_keep_world (A:=TaskReturn) self "Campaign" e w1)
        as (_ & _ & _ & _ & Hfail).
      intros Hok. rewrite Hok in Hfail. discriminate.
    + intros _. cbn [fst snd]. rewrite Hbody, Hc. split; [exact Hdep | reflexivity].
    + intros _. cbn [fst snd].
      unfold deploy_campaign_to_blockchain_body, bind, objects_get.
      rewrite Hdb. cbn [campaigns set_campaigns]. rewrite lookup_insert_eq.
      split; reflexivity.
  - unfold campaigns_deploy_campaign_to_blockchain, try_except.
    destruct (campaigns_deploy_campaign_to_blockchain_body
                w3 settings from_key is_successful pk w) as [r w1] eqn:Hbody.
    pose proof (campaigns_deploy_body_cases _ _ _ _ _ _ _ _ Hbody)
      as [[Hr Hdb]
         | [(c & Hc & Hdep & -> & ->)
           | (c & result & addr & Hc & Hdep & Haddr & -> & Hdb)]].
    + destruct r as [v | e]; [discriminate |].
      destruct (retry_keeps_world (A:=TaskReturn) self 3 e 60 w1)
        as (_ & _ & _ & _ & Hfail).
      intros Hok. rewrite Hok in Hfail. discriminate.
    + intros _. cbn [fst snd]. rewrite Hbody, Hc. split; [exact Hdep | reflexivity].
    + intros _. cbn [fst snd].
      unfold campaigns_deploy_campaign_to_blockchain_body, bind, objects_get.
      rewrite Hdb. cbn [campaigns set_campaigns]. rewrite lookup_insert_eq.
      split; reflexivity.
  - unfold release_funds_to_issuer, try_except.
    destruct (release_body_keeps_world w3 settings from_key is_successful
                pk w) as (r & Hbody & Hok).
    rewrite Hbody. destruct r as [v | e].
    + intros _. cbn [fst snd]. destruct (Hok v eq_refl) as [-> Hm].
      rewrite Hbody. split; [exact Hm | reflexivity].
    + destruct (retry_keeps_world (A:=TaskReturn) self 3 e 60 w)
        as (_ & _ & _ & _ & Hfail).
      intros Hok'. rewrite Hok' in Hfail. discriminate.
Qed.

(** X13: a run of [investments.tasks.record_investment_on_blockchain]
    broadcasts at most one transaction, and it broadcasts one only for an
    investment that carries no transaction hash yet and whose campaign has
    a contract address.  For a recorded investment, a campaign that is not
    deployed or a key without a row, nothing reaches the node. *)
Theorem investment_task_broadcasts_only_when_due :
  forall (self : Request) (pk : string) (w : World),
    let outcome := record_task self pk w in
    exists txs,
      sent (snd outcome) = (sent w ++ txs)%list
      /\ (length txs <= 1)%nat
      /\ (txs <> [] ->
          exists investment campaign,
            investments (db w) !! pk = Some investment
            /\ truthy (Investment.blockchain_tx_hash investment) = false
            /\ campaigns (db w) !! Investment.campaign investment = Some campaign
            /\ truthy (Campaign.smart_contract_address campaign) = true).
Proof.
  intros self pk w outcome. subst outcome. exists [].
  rewrite app_nil_r. split; [| split; [simpl; lia | congruence]].
  unfold investments_record_investment_on_blockchain, try_except.
  destruct (investments_record_body_keeps_world w3 settings from_key
              is_successful pk w) as (r & -> & _).
  destruct r as [v | e]; [reflexivity |].
  apply (retry_keeps_world (A:=TaskReturn) self 3 e 60 w).
Qed.

(** X16: [InvestmentBlockchainService.record_investment] and
    [EscrowBlockchainService.release_funds] ask the client for
    [_get_abi('campaign_implementation')] before they build their
    transaction, and the client has no such method; the release task,
    before it gets there, reads [company.wallet_address], which does not
    exist either.  A run of
    [investments.tasks.record_investment_on_blockchain] or of
    [escrow.tasks.release_funds_to_issuer] broadcasts nothing and writes
    nothing, and it can only return when its guard finds the entity
    mirrored already. *)
Theorem tasks_without_abi_never_mirror :
  forall (self self' : Request) (investment_id escrow_id : string)
         (w : World),
    let recorded := record_task self investment_id w in
    let released := release_task self' escrow_id w in
    (exists e, _get_abi "campaign_implementation" = Raise e)
    /\ (db (snd recorded) = db w /\ sent (snd recorded) = sent w
        /\ (is_ok (fst recorded) = true ->
            already_mirrored InvestmentsRecordInvestment (db w) investment_id
            = true))
    /\ (db (snd released) = db w /\ sent (snd released) = sent w
        /\ (is_ok (fst released) = true ->
            already_mirrored EscrowReleaseFunds (db w) escrow_id = true)).
Proof.
  intros self self' pk pk' w recorded released. subst recorded released.
  split; [eexists; reflexivity |]. split.
  - unfold investments_record_investment_on_blockchain, try_except.
    destruct (investments_record_body_keeps_world w3 settings from_key
                is_successful pk w) as (r & -> & Hok).
    destruct r as [v | e'].
    + destruct (Hok v eq_refl) as (inv & Hinv & Htx & _).
      simpl. rewrite Hinv. auto.
    + destruct (retry_keeps_world (A:=TaskReturn) self 3 e' 60 w)
        as (Hd & Hs & _ & _ & Hfail).
      rewrite Hfail. split; [exact Hd |]. split; [exact Hs | discriminate].
  - unfold release_funds_to_issuer, try_except.
    destruct (release_body_keeps_world w3 settings from_key is_successful
                pk' w) as (r & -> & Hok).
    destruct r as [v | e'].
    + destruct (Hok v eq_refl) as [_ Hm]. simpl. auto.
    + destruct (retry_keeps_world (A:=TaskReturn) self' 3 e' 60 w)
        as (Hd & Hs & _ & _ & Hfail).
      rewrite Hfail. split; [exact Hd |]. split; [exact Hs | discriminate].
Qed.

(** ** Views and post-save receivers *)

Local Abbreviation release_funds_view := (release_funds_view is_successful).
Local Abbreviation campaign_post_save := (campaign_post_save is_successful).
Local Abbreviation release_campaign_funds :=
  (release_campaign_funds w3 settings from_key is_successful).

(** X17: the manual trigger [FundEscrowViewSet.release_funds] writes nothing
    and sends nothing, and it queues a message only when it answers 200:
    for an escrow that is not 'released' and whose campaign is successful.
    The message is [escrow.tasks.release_funds_to_issuer] with the key of
    the campaign, not of the escrow; unless an escrow happens to have that
    key, the task that runs on this message fails without a transaction and
    without a change of the store. *)
Theorem release_funds_view_queues_campaign_key :
  forall (escrow_id : string) (w : World),
    let answered := release_funds_view escrow_id w in
    db (snd answered) = db w
    /\ sent (snd answered) = sent w
    /\ (fst answered <> Ok HTTP_200 -> queue (snd answered) = queue w)
    /\ (fst answered = Ok HTTP_200 ->
        exists escrow campaign,
          escrows (db w) !! escrow_id = Some escrow
          /\ campaigns (db w) !! FundEscrow.campaign escrow = Some campaign
          /\ FundEscrow.status escrow <> "released"
          /\ is_successful campaign = true
          /\ queue (snd answered)
             = (queue w ++ [delay "escrow.tasks.release_funds_to_issuer"
                              (FundEscrow.campaign escrow)])%list
          /\ (escrows (db w) !! FundEscrow.campaign escrow = None ->
              forall self : Request,
                let ran := release_task self (FundEscrow.campaign escrow)
                             (snd answered) in
                is_ok (fst ran) = false
                /\ db (snd ran) = db w
                /\ sent (snd ran) = sent w)).
Proof.
  intros escrow_id w answered. subst answered.
  unfold release_funds_view, bind, get_world.
  destruct (escrows (db w) !! escrow_id) as [es |] eqn:Hes.
  2: { cbn. repeat split; try done. }
  destruct (String.eqb_spec (FundEscrow.status es) "released") as [Hst | Hst].
  1: { cbn. repeat split; try done. }
  unfold objects_get.
  destruct (campaigns (db w) !! FundEscrow.campaign es) as [c |] eqn:Hc.
  2: { cbn. repeat split; try done. }
  destruct (is_successful c) eqn:Hsucc; cbn [negb].
  2: { cbn. repeat split; try done. }
  unfold enqueue, ret.
  destruct (broker w) as [[| n] |];
    cbn [fst snd db sent queue set_queue set_broker].
  1: { repeat split; try done. }
  all: split; [reflexivity |]; split; [reflexivity |]; split; [congruence |];
    intros _; exists es, c;
    do 5 (split; [done |]);
    intros Hnone self;
    unfold release_funds_to_issuer, try_except;
    unfold release_funds_to_issuer_body, bind, objects_get;
    cbn [db set_queue set_broker]; rewrite Hnone;
    match goal with
    | |- context [retry self 3 ?e 60 ?w'] =>
        destruct (retry_keeps_world (A:=TaskReturn) self 3 e 60 w')
          as (Hd & Hs & _ & _ & Hfail)
    end;
    (split; [exact Hfail |]); split; [exact Hd | exact Hs].
Qed.

(** X18: the two post-save receivers that are connected to Campaign (the
    one of nft/signals.py is not: the nft app is not installed) together
    queue at most one task for a saved campaign, chosen by its status: the
    deployment task for an 'approved' campaign that is not deployed, the
    refund task of its escrow for a 'failed' or 'cancelled' campaign whose
    escrow is 'escrowed' and not released.  In every other case, and so
    for an 'active' and for a 'successful' campaign, the save queues
    nothing; the release task is never queued. *)
Theorem campaign_save_queues_at_most_one_task :
  forall (s : Store) (pk : string) (instance : Campaign.t),
    let queued := campaign_post_save s pk instance in
    (queued = []
     \/ (Campaign.status instance = "approved"
         /\ Campaign.deployed_on_blockchain instance = false
         /\ queued
            = [delay "campaigns_module.tasks.deploy_campaign_to_blockchain" pk])
     \/ (exists escrow_id escrow,
           (Campaign.status instance = "failed"
            \/ Campaign.status instance = "cancelled")
           /\ reverse_escrow s pk = Some (escrow_id, escrow)
           /\ FundEscrow.status escrow = "escrowed"
           /\ FundEscrow.funds_released escrow = false
           /\ queued = [delay "escrow.tasks.process_campaign_refunds" escrow_id]))
    /\ (Campaign.status instance = "active" -> queued = [])
    /\ (Campaign.status instance = "successful" -> queued = [])
    /\ Forall (fun q => q_task q <> "escrow.tasks.release_funds_to_issuer")
         queued.
Proof.
  intros s pk c queued. subst queued.
  unfold campaign_post_save, sync_campaign_to_blockchain,
    handle_campaign_completion, can_deploy_to_blockchain, can_refund, str_in.
  cbn [existsb].
  destruct (reverse_escrow s pk) as [[eid es] |] eqn:Hrev;
    rewrite ?(successful_excludes_release is_successful);
  destruct (String.eqb_spec (Campaign.status c) "approved") as [Ha | Ha];
    destruct (String.eqb_spec (Campaign.status c) "failed") as [Hf | Hf];
    destruct (String.eqb_spec (Campaign.status c) "cancelled") as [Hc | Hc];
    try (rewrite Ha in *; discriminate);
    try (rewrite Hf in *; discriminate);
    cbn [andb orb].
  all: destruct (companies s !! Campaign.company c) as [co |];
    try destruct (Campaign.deployed_on_blockchain c) eqn:Hdep;
    try destruct (Company.registered_on_blockchain co);
    try destruct (String.eqb_spec (FundEscrow.status es) "escrowed") as [He | He];
    try destruct (FundEscrow.funds_released es) eqn:Hrel;
    cbn [andb negb app].
  all: split;
    [ first
        [ left; reflexivity
        | right; left; done
        | right; right; exists eid, es;
          split; [first [left; assumption | right; assumption] | done] ]
    | split; [intros Hact; first [reflexivity | congruence] |];
      split; [intros Hact; first [reflexivity | congruence] |];
      repeat constructor; discriminate ].
Qed.

(** X19: [blockchain.tasks.release_campaign_funds] never releases.  Its
    service binds the campaign contract with the ABI of the factory, which
    has no [releaseFunds], so a run broadcasts nothing and writes nothing:
    for a campaign of status 'successful' it answers 'Already released',
    and for every other campaign it fails. *)
Theorem release_campaign_funds_never_releases :
  forall (self : Request) (pk : string) (w : World),
    let outcome := release_campaign_funds self pk w in
    db (snd outcome) = db w
    /\ sent (snd outcome) = sent w
    /\ (forall v, fst outcome = Ok v ->
        v = RDict false [("message", "Already released")]
        /\ snd outcome = w
        /\ Campaign.status <$> campaigns (db w) !! pk = Some "successful")
    /\ (Campaign.status <$> campaigns (db w) !! pk <> Some "successful" ->
        is_ok (fst outcome) = false).
Proof.
  intros self pk w outcome. subst outcome.
  unfold release_campaign_funds, try_except.
  destruct (release_campaign_body_keeps_world w3 settings from_key
              is_successful pk w) as (r & -> & Hok).
  destruct r as [v | e].
  - destruct (Hok v eq_refl) as [-> Hst]. simpl.
    split; [reflexivity |]. split; [reflexivity |]. split.
    + intros v [= <-]. done.
    + intros Hne. contradiction.
  - destruct (handlers_keep_world (A:=TaskReturn) self "Campaign" e w)
      as (Hd & Hs & _ & _ & Hfail).
    split; [exact Hd |]. split; [exact Hs |]. split.
    + intros v Hv. rewrite Hv in Hfail. discriminate.
    + intros _. exact Hfail.
Qed.

Lemma registry_instance c :
  get_contract_instance settings from_key "issuer_registry" None = Ok c ->
  c = mkContract "issuer_registry" (default "" (ISSUER_REGISTRY settings))
  /\ truthy (ISSUER_REGISTRY settings) = true.
Proof.
  unfold get_contract_instance. cbn [truthy].
  change (contracts_get "issuer_registry" (contracts (client settings from_key)))
    with (ISSUER_REGISTRY settings).
  destruct (truthy (ISSUER_REGISTRY settings)); cbn [negb]; [| discriminate].
  simpl. intros [= <-]. split; reflexivity.
Qed.

Lemma register_issuer_success a b c w result w' :
  register_issuer w3 settings from_key a b c w = (Ok result, w') ->
  exists tx,
    w' = set_sent (sent w ++ [tx]) w
    /\ tx_value tx = 0
    /\ tx_call tx
       = mkCall "issuer_registry" (default "" (ISSUER_REGISTRY settings))
           "registerIssuer" [AStr a; AStr b; AStr c]
    /\ send_raw_transaction w3 (sent w) tx = Ok (txHash result)
    /\ truthy (ISSUER_REGISTRY settings) = true.
Proof.
  unfold register_issuer. unfold bind at 1. unfold lift at 1.
  destruct (get_contract_instance settings from_key "issuer_registry" None)
    as [contract |] eqn:Hc; [| discriminate].
  apply registry_instance in Hc as [-> Hreg].
  unfold bind at 1. unfold lift at 1.
  destruct (functions w3 _ _ _) as [cf |] eqn:Hcf; [| discriminate].
  apply functions_ok in Hcf. subst cf. cbn [c_abi c_address].
  match goal with
  | |- context [send_transaction w3 settings from_key ?cf None 0 None w] =>
      pose proof (send_transaction_cases w3 settings from_key cf None 0 None w)
        as Hcases;
      destruct (send_transaction w3 settings from_key cf None 0 None w)
        as [[r1 | ?] w1] eqn:Hsend
  end; [| discriminate].
  simpl in Hcases. intros [= <- <-].
  destruct Hcases as [[Hr _] | (tx & h & Hb & Hs & Hw & Hh)]; [discriminate |].
  specialize (Hh r1 eq_refl). subst h.
  destruct (build_transaction_fields _ _ _ _ _ _ _ _ _ Hb) as (Hcall & Hval & _).
  exists tx. split; [exact Hw |]. split; [exact Hval |].
  split; [exact Hcall |]. split; [exact Hs | exact Hreg].
Qed.

(** X20: when [blockchain.tasks.register_issuer_on_blockchain] returns the
    result of the chain call, it has broadcast exactly one transaction, the
    one whose hash it returns: a call of [registerIssuer] on the configured
    issuer registry, without value, with the non-empty wallet address of
    the company's user, the user's credential hash and the company's
    document hash, a missing hash being sent as the empty string.  The
    task does not look at the registered flag of the company. *)
Theorem register_issuer_transaction :
  forall (self : Request) (pk : string) (w : World) (result : TxResult),
    fst (register_task self pk w) = Ok (RResult result) ->
    exists company user wallet tx,
      companies (db w) !! pk = Some company
      /\ users (db w) !! Company.user company = Some user
      /\ User.wallet_address user = Some wallet
      /\ wallet <> ""
      /\ truthy (ISSUER_REGISTRY settings) = true
      /\ sent (snd (register_task self pk w)) = (sent w ++ [tx])%list
      /\ send_raw_transaction w3 (sent w) tx = Ok (txHash result)
      /\ tx_value tx = 0
      /\ tx_call tx
         = mkCall "issuer_registry" (default "" (ISSUER_REGISTRY settings))
             "registerIssuer"
             [AStr wallet; AStr (or_empty (User.vc_hash user));
              AStr (or_empty (Company.ipfs_document_hash company))].
Proof.
  intros self pk w result.
  destruct (register_task self pk w) as [r0 w0] eqn:Hrun. cbn [fst snd].
  intros ->.
  unfold register_issuer_on_blockchain, try_except in Hrun.
  destruct (register_issuer_on_blockchain_body w3 settings from_key pk w)
    as [r w1] eqn:Hbody.
  destruct r as [v | e].
  2: { destruct (handlers_keep_world (A:=TaskReturn) self "Company" e w1)
         as (_ & _ & _ & _ & Hfail).
       rewrite Hrun in Hfail. discriminate. }
  injection Hrun as -> ->.
  revert Hbody. unfold register_issuer_on_blockchain_body.
  unfold bind at 1. unfold objects_get at 1.
  destruct (companies (db w) !! pk) as [co |] eqn:Hco; [| discriminate].
  unfold bind at 1. unfold objects_get at 1.
  destruct (users (db w) !! Company.user co) as [u |] eqn:Hu; [| discriminate].
  destruct (truthy (User.wallet_address u)) eqn:Hwallet; cbn [negb];
    [| discriminate].
  destruct (User.wallet_address u) as [wallet |] eqn:Hwa; [| discriminate].
  change (default "" (Some wallet)) with wallet.
  unfold bind at 1.
  destruct (register_issuer w3 settings from_key wallet
              (or_empty (User.vc_hash u))
              (or_empty (Company.ipfs_document_hash co)) w)
    as [[res1 | ?] w2] eqn:Hreg; [| intros [=]].
  apply register_issuer_success in Hreg
    as (tx & -> & Hval & Hcall & Hraw & Hcfg).
  unfold bind at 1. unfold atomic. unfold bind at 1. unfold timezone_now at 1.
  unfold save, bind, db_write, sync_company_to_blockchain, ret.
  cbn [faults set_sent].
  destruct (faults w) as [[| n] |]; simpl; [intros [=] | intros [= <- <-] ..].
  all: exists co, u, wallet, tx; repeat split; try done.
  all: intros ->; discriminate.
Qed.

(** X22: a campaign that a deployment task has just deployed cannot be
    given its dates afterwards.  After a run of either deployment task
    that returned for a campaign not deployed before, the campaign is
    'active' with the end date it had before, and the activation of
    [CampaignReviewViewSet.activate], the code that sets the end date,
    refuses it at any time. *)
Theorem deployed_campaign_is_not_activated :
  forall (t : MirrorTask) (self : Request) (pk : string) (w : World)
         (campaign : Campaign.t),
    t = DeployCampaign \/ t = CampaignsDeployCampaign ->
    campaigns (db w) !! pk = Some campaign ->
    Campaign.deployed_on_blockchain campaign = false ->
    is_ok (fst (run t self pk w)) = true ->
    exists campaign',
      campaigns (db (snd (run t self pk w))) !! pk = Some campaign'
      /\ Campaign.status campaign' = "active"
      /\ Campaign.deployed_on_blockchain campaign' = true
      /\ Campaign.end_date campaign' = Campaign.end_date campaign
      /\ forall t', activate t' campaign' = None.
Proof.
  intros t self pk w campaign [-> | ->] Hrow Hnot; cbn [run].
  - unfold deploy_campaign_to_blockchain, try_except.
    destruct (deploy_campaign_to_blockchain_body w3 settings from_key
                is_successful pk w) as [r w1] eqn:Hbody.
    apply deploy_body_cases in Hbody.
    destruct Hbody as [[Hr Hdb]
                      | [(c & Hc & Hdep & -> & ->)
                        | (c & result & addr & Hc & Hdep & Haddr & -> & Hdb)]].
    + destruct r as [v | e]; [discriminate |].
      destruct (handlers_keep_world (A:=TaskReturn) self "Campaign" e w1)
        as (_ & _ & _ & _ & Hfail).
      intros Hok. rewrite Hok in Hfail. discriminate.
    + congruence.
    + intros _. cbn [fst snd]. rewrite Hdb. cbn [campaigns set_campaigns].
      rewrite lookup_insert_eq. eexists. split; [reflexivity |].
      assert (c = campaign) as -> by congruence.
      split; [reflexivity |]. split; [reflexivity |]. split; [reflexivity |].
      intros t'. unfold activate.
      cbn [Campaign.status Campaign.approved Campaign.set_status
           Campaign.set_smart_contract_address Campaign.set_deployment_tx_hash
           Campaign.set_deployed_on_blockchain
           Campaign.set_blockchain_deployed_at].
      destruct (Campaign.approved campaign); reflexivity.
  - unfold campaigns_deploy_campaign_to_blockchain, try_except.
    destruct (campaigns_deploy_campaign_to_blockchain_body
                w3 settings from_key is_successful pk w) as [r w1] eqn:Hbody.
    apply campaigns_deploy_body_cases in Hbody.
    destruct Hbody as [[Hr Hdb]
                      | [(c & Hc & Hdep & -> & ->)
                        | (c & result & addr & Hc & Hdep & Haddr & -> & Hdb)]].
    + destruct r as [v | e]; [discriminate |].
      destruct (retry_keeps_world (A:=TaskReturn) self 3 e 60 w1)
        as (_ & _ & _ & _ & Hfail).
      intros Hok. rewrite Hok in Hfail. discriminate.
    + congruence.
    + intros _. cbn [fst snd]. rewrite Hdb. cbn [campaigns set_campaigns].
      rewrite lookup_insert_eq. eexists. split; [reflexivity |].
      assert (c = campaign) as -> by congruence.
      split; [reflexivity |]. split; [reflexivity |]. split; [reflexivity |].
      intros t'. unfold activate.
      cbn [Campaign.status Campaign.approved Campaign.set_status
           Campaign.set_smart_contract_address Campaign.set_deployment_tx_hash
           Campaign.set_deployed_on_blockchain
           Campaign.set_blockchain_deployed_at Campaign.set_start_date].
      destruct (Campaign.approved campaign); reflexivity.
Qed.

End TaskFurther.

(** ** The escrow tasks *)

Section EscrowFurther.

Context (w3 : Web3) (settings : Settings) (from_key : string -> string)
        (is_successful : Campaign.t -> bool).

Local Abbreviation release_task :=
  (release_funds_to_issuer w3 settings from_key is_successful).
Local Abbreviation refunds_task :=
  (process_campaign_refunds w3 settings from_key).

(** X11: for an escrow that is not released and whose campaign is
    deployed, [escrow.tasks.release_funds_to_issuer] stops at
    [escrow.campaign.company.wallet_address]: Company has no such
    attribute, so the body raises [AttributeError] before the service is
    called, and the task asks for a retry like for any other failure,
    three times, and then raises the [AttributeError] itself. *)
Theorem release_funds_to_issuer_reads_missing_attribute :
  forall (self : Request) (escrow_id : string) (w : World)
         (escrow : FundEscrow.t) (campaign : Campaign.t) (company : Company.t),
    escrows (db w) !! escrow_id = Some escrow ->
    campaigns (db w) !! FundEscrow.campaign escrow = Some campaign ->
    companies (db w) !! Campaign.company campaign = Some company ->
    FundEscrow.funds_released escrow = false ->
    truthy (Campaign.smart_contract_address campaign) = true ->
    let missing :=
      AttributeError "'Company' object has no attribute 'wallet_address'" in
    release_funds_to_issuer_body w3 settings from_key is_successful escrow_id w
      = (Raise missing, w)
    /\ (retries self < 3 -> broker w = None ->
        release_task self escrow_id w
        = (Raise (Retry missing 60),
           set_queue (queue w ++ [mkQueued (task self) (arg self) 60
                                    (retries self + 1)]) w))
    /\ (3 <= retries self ->
        release_task self escrow_id w = (Raise missing, w)).
Proof.
  intros self escrow_id w escrow campaign company Hes Hc Hco Hrel Haddr missing.
  assert (Hbody :
    release_funds_to_issuer_body w3 settings from_key is_successful escrow_id w
    = (Raise missing, w)).
  { unfold release_funds_to_issuer_body, bind, objects_get.
    rewrite Hes, Hc, Hco, Hrel, Haddr. reflexivity. }
  split; [exact Hbody |].
  unfold release_funds_to_issuer, try_except. rewrite Hbody.
  rewrite retry_outcome. split.
  - intros Hlt Hbroker. apply Z.ltb_lt in Hlt. rewrite Hlt, Hbroker.
    reflexivity.
  - intros Hge. apply Z.ltb_ge in Hge. rewrite Hge. reflexivity.
Qed.

(** X23: [escrow.tasks.process_campaign_refunds] never refunds.  Both
    services it calls read [self.client._get_abi], which does not exist.
    When the refund was not initiated before, the run fails at
    [initiate_refund].  When it was, every investor's refund fails inside
    the loop, where the failure is logged and skipped, and the run goes on
    to mark the escrow 'refunded' and completed and to report success with
    zero refunds.  In no case is a transaction broadcast, an investment
    changed or a refund transaction stored. *)
Theorem refunds_complete_without_a_refund :
  forall (self : Request) (escrow_id : string) (w : World),
    let outcome := refunds_task self escrow_id w in
    sent (snd outcome) = sent w
    /\ investments (db (snd outcome)) = investments (db w)
    /\ refund_transactions (db (snd outcome)) = refund_transactions (db w)
    /\ (forall v, fst outcome = Ok v ->
        (v = RNone /\ snd outcome = w)
        \/ (v = RRefunds escrow_id 0
            /\ exists escrow,
                 escrows (db w) !! escrow_id = Some escrow
                 /\ FundEscrow.refund_initiated escrow = true
                 /\ escrows (db (snd outcome)) !! escrow_id
                    = Some (FundEscrow.set_status "refunded"
                              (FundEscrow.set_refunded_at (Some (now w))
                                 (FundEscrow.set_refund_completed true escrow)))))
    /\ (forall escrow,
          escrows (db w) !! escrow_id = Some escrow ->
          FundEscrow.refund_completed escrow = false ->
          FundEscrow.refund_initiated escrow = false ->
          is_ok (fst outcome) = false /\ db (snd outcome) = db w).
Proof.
  intros self escrow_id w outcome. subst outcome.
  unfold process_campaign_refunds, try_except.
  destruct (process_campaign_refunds_body w3 settings from_key escrow_id w)
    as [r w1] eqn:Hbody.
  apply refunds_body_cases in Hbody.
  destruct Hbody as [(Hr & Hdb & Hsent)
                    | [(escrow & Hes & Hdone & -> & ->)
                      | (escrow & c & Hes & Hc & Hdone & Hinit & -> & Hsent
                         & Hdb)]].
  - destruct r as [v | e]; [discriminate |].
    destruct (retry_keeps_world (A:=TaskReturn) self 3 e 60 w1)
      as (Hd & Hs & _ & _ & Hfail).
    rewrite Hs, Hd, Hdb, Hsent.
    split; [reflexivity |]. split; [reflexivity |]. split; [reflexivity |].
    split.
    + intros v Hv. rewrite Hv in Hfail. discriminate.
    + intros escrow _ _ _. split; [exact Hfail | reflexivity].
  - cbn [fst snd].
    split; [reflexivity |]. split; [reflexivity |]. split; [reflexivity |].
    split.
    + intros v [= <-]. left. split; reflexivity.
    + intros escrow' Hes' Hdone'. congruence.
  - cbn [fst snd]. rewrite Hdb.
    split; [exact Hsent |]. split; [reflexivity |]. split; [reflexivity |].
    split.
    + intros v [= <-]. right. split; [reflexivity |].
      exists escrow. split; [exact Hes |]. split; [exact Hinit |].
      apply lookup_insert_eq.
    + intros escrow' Hes' _ Hinit'. congruence.
Qed.

End EscrowFurther.

(** ** Further runs on explicit inputs *)

Section FurtherRuns.

Import Demo.

Local Abbreviation run := (run node settings from_key is_successful).
Local Abbreviation register_task :=
  (register_issuer_on_blockchain node settings from_key).
Local Abbreviation create_campaign := (create_campaign node settings from_key).
Local Abbreviation deploy_task :=
  (deploy_campaign_to_blockchain node settings from_key is_successful).
Local Abbreviation campaigns_deploy_task :=
  (campaigns_deploy_campaign_to_blockchain node settings from_key is_successful).
Local Abbreviation release_task :=
  (release_funds_to_issuer node settings from_key is_successful).
Local Abbreviation refunds_task :=
  (process_campaign_refunds node settings from_key).
Local Abbreviation release_funds_view := (release_funds_view is_successful).

(** X24 at an input: the node mines the transaction with status 1. *)
Lemma send_transaction_classifies_receipt_witness :
  exists result,
    fst (send_transaction node settings from_key call None 0 None
           (world0 store0)) = Ok result
    /\ txHash result = "0xdeadbeef"
    /\ blockNumber result = 7
    /\ gasUsed result = 21000
    /\ status result = 1
    /\ logs result = [log0].
Proof.
  destruct (send_transaction_classifies_receipt node settings from_key
              call None 0 None (world0 store0) deployer
              (mkTx call deployer 0 8000000 1000000000 0 100) "0xdeadbeef"
              eq_refl eq_refl eq_refl eq_refl) as (_ & _ & _ & H).
  apply (H (receipt_of "0xdeadbeef")); [reflexivity | discriminate].
Defined.

(** X2 at an input: the node asks for a gas price of 5, the settings for
    1000000000, and the transaction carries the larger one. *)
Lemma broadcast_transaction_honours_gas_settings_witness :
  let tx := mkTx call deployer 0 8000000 1000000000 0 100 in
  exists g,
    gas_price node [] = Ok g
    /\ g <= tx_gasPrice tx
    /\ (forall c, GAS_PRICE settings = Some c -> c <> 0 ->
          c <= tx_gasPrice tx /\ tx_gasPrice tx = Z.max g c)
    /\ (GAS_PRICE settings = None -> tx_gasPrice tx = g)
    /\ tx_gas tx = GAS_LIMIT settings
    /\ tx_chainId tx = CHAIN_ID settings
    /\ get_transaction_count node [] (tx_from tx) = Ok (tx_nonce tx).
Proof.
  apply (broadcast_transaction_honours_gas_settings node settings from_key
           call None 0 None (world0 store0)
           (mkTx call deployer 0 8000000 1000000000 0 100)).
  vm_compute. reflexivity.
Defined.

(** X3 at an input: a log decoded against the configured factory. *)
Lemma parse_event_log_needs_configured_contract_witness :
  str_in "campaign_factory"
    ["issuer_registry"; "campaign_factory"; "fund_escrow"; "nft_certificate"]
  = true
  /\ truthy (contracts_get "campaign_factory"
               (contracts (client settings from_key))) = true
  /\ process_log node "campaign_factory" "CampaignCreated" log0
     = Ok (mkEvent "CampaignCreated" [("campaignAddress", campaign1_address)]).
Proof.
  apply (parse_event_log_needs_configured_contract node settings from_key
           "campaign_factory" "CampaignCreated" log0
           (mkEvent "CampaignCreated" [("campaignAddress", campaign1_address)])).
  vm_compute. reflexivity.
Defined.

(** X4 at an input: the first log of the receipt does not decode and is
    skipped; the second yields the address. *)
Lemma parse_campaign_created_event_first_match_witness :
  _parse_campaign_created_event picky_node settings from_key receipt_mixed
  = Ok campaign1_address.
Proof.
  apply (parse_campaign_created_event_first_match picky_node settings from_key
           receipt_mixed [log_other] log0 []
           (mkEvent "CampaignCreated" [("campaignAddress", campaign1_address)])
           campaign1_address).
  - vm_compute. reflexivity.
  - reflexivity.
  - constructor; [vm_compute; exact I | constructor].
  - vm_compute. reflexivity.
  - vm_compute. reflexivity.
Defined.

(** X5 at an input: the deployment of campaign "c1". *)
Lemma create_campaign_success_witness :
  let w := world0 store0 in
  let outcome := create_campaign "c1" "Acme" "Solar panels" 10000000 30 "" w in
  exists tx address,
    snd outcome = set_sent (sent w ++ [tx]) w
    /\ tx_value tx = 0
    /\ tx_call tx
       = mkCall "campaign_factory" (default "" (CAMPAIGN_FACTORY settings))
           "createCampaign"
           [AStr "c1"; AStr "Acme"; AStr "Solar panels";
            AInt (10000000 * 10 ^ 16); AInt (30 * 86400); AStr ""]
    /\ send_raw_transaction node (sent w) tx = Ok "0xdeadbeef"
    /\ Some campaign1_address = Some address.
Proof.
  apply (create_campaign_success node settings from_key
           "c1" "Acme" "Solar panels" 10000000 30 "" (world0 store0)
           (mkTxResult "0xdeadbeef" 7 21000 1 None [log0]
              (Some campaign1_address) None None)
           (snd (create_campaign "c1" "Acme" "Solar panels" 10000000 30 ""
                   (world0 store0)))).
  vm_compute. reflexivity.
Defined.

(** X8 at an input: the registration of company "co1" stores the wallet
    address of its user and the hash of the transaction. *)
Lemma register_issuer_write_back_witness :
  let self := request "blockchain.tasks.register_issuer_on_blockchain" "co1" in
  let outcome := register_task self "co1" (world0 store0) in
  (Company.registered_on_blockchain <$> companies (db (snd outcome)) !! "co1")
  = Some true
  /\ (Company.blockchain_address <$> companies (db (snd outcome)) !! "co1")
     = Some (Some alice_wallet)
  /\ (Company.blockchain_tx_hash <$> companies (db (snd outcome)) !! "co1")
     = Some (Some "0xdeadbeef").
Proof.
  destruct (proj1 (proj2 (register_issuer_write_back node settings from_key
                            (request "blockchain.tasks.register_issuer_on_blockchain" "co1")
                            "co1" (world0 store0)))
              result0 ltac:(vm_compute; reflexivity))
    as (company & user & Hco & Hu & Hrow & _).
  vm_compute in Hco. injection Hco as <-.
  vm_compute in Hu. injection Hu as <-.
  cbv zeta. rewrite Hrow. vm_compute. repeat split.
Defined.

(** X9 at an input: campaign "c1" is deployed by the task of
    blockchain/tasks.py. *)
Lemma deploy_campaign_write_back_witness :
  let self := request "blockchain.tasks.deploy_campaign_to_blockchain" "c1" in
  let outcome := deploy_task self "c1" (world0 store0) in
  exists campaign',
    campaigns (db (snd outcome)) !! "c1" = Some campaign'
    /\ Campaign.status campaign' = "active"
    /\ Campaign.smart_contract_address campaign' = Some campaign1_address.
Proof.
  destruct (proj2 (proj2 (deploy_campaign_write_back node settings from_key
                            is_successful
                            (request "blockchain.tasks.deploy_campaign_to_blockchain" "c1")
                            "c1" (world0 store0)))
              (mkTxResult "0xdeadbeef" 7 21000 1 None [log0]
                 (Some campaign1_address) None None)
              ltac:(vm_compute; reflexivity))
    as (campaign & campaign' & address & _ & _ & Haddr & Hrow & Hstatus & _
        & Hsca & _).
  injection Haddr as <-.
  exists campaign'. split; [exact Hrow |]. split; [exact Hstatus | exact Hsca].
Defined.


(** X11 at an input: the release of the escrow "e2" of the deployed
    campaign "c2" asks for a retry with the [AttributeError]. *)
Lemma release_funds_to_issuer_reads_missing_attribute_witness :
  let self := request "escrow.tasks.release_funds_to_issuer" "e2" in
  let w := world0 store0 in
  release_task self "e2" w
  = (Raise (Retry (AttributeError
                     "'Company' object has no attribute 'wallet_address'") 60),
     set_queue [mkQueued "escrow.tasks.release_funds_to_issuer" "e2" 60 1] w).
Proof.
  refine (proj1 (proj2 (release_funds_to_issuer_reads_missing_attribute
                          node settings from_key is_successful
                          (request "escrow.tasks.release_funds_to_issuer" "e2")
                          "e2" (world0 store0)
                          (FundEscrow.mk "c2" 0 "escrowed" false None None None
                             false false None None)
                          campaign2
                          (Company.mk "u1" "Acme" None None false None None)
                          _ _ _ _ _)) _ _);
    try (vm_compute; reflexivity).
Defined.

(** X12 at an input: campaign "c1" is deployed by the task of
    campaigns_module, and a second run returns [None] at once. *)
Lemma returned_task_is_not_repeated_witness :
  let self := request "campaigns_module.tasks.deploy_campaign_to_blockchain" "c1" in
  let first := run CampaignsDeployCampaign self "c1" (world0 store0) in
  already_mirrored CampaignsDeployCampaign (db (snd first)) "c1" = true
  /\ run CampaignsDeployCampaign self "c1" (snd first)
     = (Ok (guard_return CampaignsDeployCampaign (db (snd first)) "c1"),
        snd first).
Proof.
  apply (returned_task_is_not_repeated node settings from_key is_successful
           CampaignsDeployCampaign
           (request "campaigns_module.tasks.deploy_campaign_to_blockchain" "c1")
           (request "campaigns_module.tasks.deploy_campaign_to_blockchain" "c1")
           "c1" (world0 store0)).
  - right; left. reflexivity.
  - vm_compute. reflexivity.
Defined.

(** X17 at an input: for the escrow "e2" of the successful campaign "c2"
    the view queues the release task with the key "c2", and the task that
    runs on it finds no escrow. *)
Lemma release_funds_view_queues_campaign_key_witness :
  let w := world0 store_funded in
  let answered := release_funds_view "e2" w in
  queue (snd answered)
  = (queue w ++ [delay "escrow.tasks.release_funds_to_issuer" "c2"])%list
  /\ is_ok (fst (release_task
                   (request "escrow.tasks.release_funds_to_issuer" "c2")
                   "c2" (snd answered))) = false.
Proof.
  destruct (proj2 (proj2 (proj2 (release_funds_view_queues_campaign_key
                                   node settings from_key is_successful
                                   "e2" (world0 store_funded))))
              ltac:(vm_compute; reflexivity))
    as (escrow & campaign & Hes & _ & _ & _ & Hq & Hrun).
  vm_compute in Hes. injection Hes as <-.
  split; [exact Hq |].
  apply (Hrun ltac:(vm_compute; reflexivity)
           (request "escrow.tasks.release_funds_to_issuer" "c2")).
Defined.

(** X18 at an input: saving campaign "c2" as 'failed' queues the refunds of
    its escrow "e2" and nothing else. *)
Lemma campaign_save_queues_at_most_one_task_witness :
  length (campaign_post_save is_successful store0 "c2"
            (Campaign.set_status "failed" campaign2)) = 1%nat
  /\ (Campaign.status campaign2 = "active" ->
      campaign_post_save is_successful store0 "c2" campaign2 = []).
Proof.
  split.
  - destruct (proj1 (campaign_save_queues_at_most_one_task is_successful
                       store0 "c2" (Campaign.set_status "failed" campaign2)))
      as [H | [(H & _) | (eid & es & _ & _ & _ & _ & H)]];
      [vm_compute in H; discriminate | discriminate |].
    rewrite H. reflexivity.
  - apply (proj1 (proj2 (campaign_save_queues_at_most_one_task is_successful
                           store0 "c2" campaign2))).
Defined.

(** X20 at an input: the registration of company "co1". *)
Lemma register_issuer_transaction_witness :
  let w := world0 store0 in
  let self := request "blockchain.tasks.register_issuer_on_blockchain" "co1" in
  exists company user wallet tx,
    companies (db w) !! "co1" = Some company
    /\ users (db w) !! Company.user company = Some user
    /\ User.wallet_address user = Some wallet
    /\ wallet <> ""
    /\ truthy (ISSUER_REGISTRY settings) = true
    /\ sent (snd (register_task self "co1" w)) = (sent w ++ [tx])%list
    /\ send_raw_transaction node (sent w) tx = Ok (txHash result0)
    /\ tx_value tx = 0
    /\ tx_call tx
       = mkCall "issuer_registry" (default "" (ISSUER_REGISTRY settings))
           "registerIssuer"
           [AStr wallet; AStr (or_empty (User.vc_hash user));
            AStr (or_empty (Company.ipfs_document_hash company))].
Proof.
  apply (register_issuer_transaction node settings from_key
           (request "blockchain.tasks.register_issuer_on_blockchain" "co1")
           "co1" (world0 store0) result0).
  vm_compute. reflexivity.
Defined.

(** X22 at an input: campaign "c1", deployed by the task of
    blockchain/tasks.py, is refused by the activation. *)
Lemma deployed_campaign_is_not_activated_witness :
  let self := request "blockchain.tasks.deploy_campaign_to_blockchain" "c1" in
  exists campaign',
    campaigns (db (snd (run DeployCampaign self "c1" (world0 store0)))) !! "c1"
    = Some campaign'
    /\ Campaign.status campaign' = "active"
    /\ Campaign.deployed_on_blockchain campaign' = true
    /\ Campaign.end_date campaign' = Campaign.end_date campaign1
    /\ forall t', activate t' campaign' = None.
Proof.
  apply (deployed_campaign_is_not_activated node settings from_key
           is_successful DeployCampaign
           (request "blockchain.tasks.deploy_campaign_to_blockchain" "c1")
           "c1" (world0 store0) campaign1).
  - left. reflexivity.
  - vm_compute. reflexivity.
  - reflexivity.
  - vm_compute. reflexivity.
Defined.

(** X23 at an input: the campaign "c4" has failed and the refund of its
    escrow "e4" was initiated.  The refund task reports success with zero
    refunds and marks the escrow refunded, while the confirmed investment
    "i4" of the campaign is still confirmed. *)
Lemma refunds_complete_without_a_refund_witness :
  let self := request "escrow.tasks.process_campaign_refunds" "e4" in
  let w := world0 store_failed in
  let outcome := refunds_task self "e4" w in
  fst outcome = Ok (RRefunds "e4" 0)
  /\ (FundEscrow.status <$> escrows (db (snd outcome)) !! "e4")
     = Some "refunded"
  /\ (Investment.status <$> investments (db (snd outcome)) !! "i4")
     = Some "confirmed"
  /\ refund_transactions (db (snd outcome)) = []
  /\ sent (snd outcome) = [].
Proof.
  destruct (refunds_complete_without_a_refund node settings from_key
              (request "escrow.tasks.process_campaign_refunds" "e4")
              "e4" (world0 store_failed))
    as (Hsent & Hinv & Hrt & Hok & _).
  cbv zeta. rewrite Hsent, Hinv, Hrt.
  destruct (Hok (RRefunds "e4" 0) ltac:(vm_compute; reflexivity))
    as [[Hv _] | (_ & escrow & _ & _ & Hrow)]; [discriminate |].
  rewrite Hrow. repeat split; vm_compute; reflexivity.
Defined.

End FurtherRuns.
